(** * Link shortener bot (src/bot.py): a shallow embedding and its properties

    The bot keeps five SQLite tables and answers Telegram updates through
    a handful of handlers.  The embedding below follows src/bot.py:

    - Python [str] values are [string]s; one character stands for one code
      point below 256.  The fixed Russian reply texts of the bot are not
      spelled out: every reply is a constructor of [reply] that carries the
      values the source interpolates into the text.
    - The body of a handler is a program in a small free monad ([prog]):
      every [await db.execute], [db.commit], [secrets.choice],
      [datetime.now] and Telegram call is one event, in source order.
    - [exec] gives the events their meaning on a SQLite connection: writes go
      to the connection's open transaction and reach the stored database at
      [Commit] only; an exception leaves the [async with] block, which closes
      the connection and drops the open transaction.
    - [run] executes one handler alone; [sched] lets several handlers take
      turns, event by event, each on a connection of its own.
    - What lies outside the repository enters as an input: the random
      source ([RandomSource]), the clock and the bot's name ([env]), and
      [validators.url] (a parameter of the handlers).  Telegram calls are
      taken to succeed.
    - An update is a text message from a user or a button press with its
      token.  What a handler has stored does not depend on the Telegram
      calls: in every handler the commit precedes the replies. *)

From Stdlib Require Import List String Ascii ZArith NArith Bool Arith Lia.
Import ListNotations.

Open Scope string_scope.
Open Scope list_scope.

(* ===================================================================== *)
(** ** Python string operations used by the bot *)

Module Py.

Definition str := string.
Bind Scope string_scope with str.

(** [str.isspace] on one code point below 256: TAB..CR, FS..US, SPACE,
    NEL and NBSP. *)
Definition isspace (c : ascii) : bool :=
  let n := nat_of_ascii c in
  (((9 <=? n) && (n <=? 13)) || ((28 <=? n) && (n <=? 32))
   || (n =? 133) || (n =? 160))%nat.

(** [s.split()]: maximal runs of non-space characters. *)
Fixpoint split (s : str) : list str :=
  match s with
  | EmptyString => []
  | String a s' =>
      if isspace a then split s'
      else match s' with
           | EmptyString => [String a EmptyString]
           | String b _ =>
               if isspace b then String a EmptyString :: split s'
               else match split s' with
                    | w :: ws => String a w :: ws
                    | [] => [String a EmptyString]
                    end
           end
  end.

(** [s.split(sep)] for a separator of one character: one more piece than
    there are separators. *)
Fixpoint split_on (sep : ascii) (s : str) : list str :=
  match s with
  | EmptyString => [EmptyString]
  | String a s' =>
      if Ascii.eqb a sep then EmptyString :: split_on sep s'
      else match split_on sep s' with
           | w :: ws => String a w :: ws
           | [] => [String a EmptyString]
           end
  end.

Fixpoint lstrip (s : str) : str :=
  match s with
  | EmptyString => EmptyString
  | String a s' => if isspace a then lstrip s' else s
  end.

Fixpoint rstrip (s : str) : str :=
  match s with
  | EmptyString => EmptyString
  | String a s' =>
      match rstrip s' with
      | EmptyString => if isspace a then EmptyString else String a EmptyString
      | r => String a r
      end
  end.

(** [s.strip()] *)
Definition strip (s : str) : str := rstrip (lstrip s).

(** [s.startswith(p)] *)
Fixpoint startswith (p s : str) : bool :=
  match p, s with
  | EmptyString, _ => true
  | String a p', String b s' => Ascii.eqb a b && startswith p' s'
  | String _ _, EmptyString => false
  end.

(** [s[:n]] *)
Definition take (n : nat) (s : str) : str := String.substring 0 n s.

(** [s.partition(sep)] for a separator of one character, as the pair
    (before, after); [None] for the second part when [sep] does not occur. *)
Fixpoint partition (sep : ascii) (s : str) : str * option str :=
  match s with
  | EmptyString => (EmptyString, None)
  | String a s' =>
      if Ascii.eqb a sep then (EmptyString, Some s')
      else let '(b, r) := partition sep s' in (String a b, r)
  end.

(** [s.lower()] on the ASCII letters. *)
Definition lower_char (c : ascii) : ascii :=
  let n := nat_of_ascii c in
  if ((65 <=? n) && (n <=? 90))%nat then ascii_of_nat (n + 32) else c.

Fixpoint lower (s : str) : str :=
  match s with
  | EmptyString => EmptyString
  | String a s' => String (lower_char a) (lower s')
  end.

(** [s.encode()]: UTF-8 of code points below 256. *)
Definition utf8_char (c : ascii) : list N :=
  let n := N_of_ascii c in
  if (n <? 128)%N then [n]
  else [N.lor 192 (N.shiftr n 6); N.lor 128 (N.land n 63)].

Fixpoint encode (s : str) : list N :=
  match s with
  | EmptyString => []
  | String a s' => utf8_char a ++ encode s'
  end.

Definition chars_of (s : str) : list ascii := list_ascii_of_string s.

End Py.

(* ===================================================================== *)
(** ** SHA-256 (FIPS 180-4), the function behind [hashlib.sha256] *)

Module SHA256.
Local Open Scope N_scope.

Definition mask32 : N := 4294967295.
Definition add32 (a b : N) : N := N.land (a + b) mask32.
Definition rotr (n x : N) : N :=
  N.lor (N.shiftr x n) (N.land (N.shiftl x (32 - n)) mask32).
Definition not32 (x : N) : N := N.lxor x mask32.

Definition Ch (x y z : N) := N.lxor (N.land x y) (N.land (not32 x) z).
Definition Maj (x y z : N) :=
  N.lxor (N.lxor (N.land x y) (N.land x z)) (N.land y z).
Definition bsig0 x := N.lxor (N.lxor (rotr 2 x) (rotr 13 x)) (rotr 22 x).
Definition bsig1 x := N.lxor (N.lxor (rotr 6 x) (rotr 11 x)) (rotr 25 x).
Definition ssig0 x := N.lxor (N.lxor (rotr 7 x) (rotr 18 x)) (N.shiftr x 3).
Definition ssig1 x := N.lxor (N.lxor (rotr 17 x) (rotr 19 x)) (N.shiftr x 10).

(** The constants of the standard are not tabulated here but derived as
    the standard derives them: from the cube roots and the square roots of
    the first primes. *)
Definition is_prime (n : nat) : bool :=
  forallb (fun d => negb (Nat.eqb (Nat.modulo n d) 0)) (seq 2 (n - 2)).

Definition first_primes (count : nat) : list N :=
  map N.of_nat (firstn count (filter is_prime (seq 2 400))).

(** The integer cube root below [2 ^ bits], found bit by bit. *)
Fixpoint cube_root (bits : nat) (x r : N) : N :=
  match bits with
  | O => r
  | S b =>
      let c := r + N.shiftl 1 (N.of_nat b) in
      cube_root b x (if c * c * c <=? x then c else r)
  end.

(** The first 32 bits of the fractional part of the cube root of [p]. *)
Definition frac_cube_root (p : N) : N :=
  N.land (cube_root 36 (N.shiftl p 96) 0) mask32.

(** The first 32 bits of the fractional part of the square root of [p]. *)
Definition frac_sqrt (p : N) : N :=
  N.land (N.sqrt (N.shiftl p 64)) mask32.

Definition K : list N :=
  Eval vm_compute in map frac_cube_root (first_primes 64).

Definition H0 : list N :=
  Eval vm_compute in map frac_sqrt (first_primes 8).

(** Big-endian bytes of the low [8 * n] bits of [x]. *)
Fixpoint be_bytes (n : nat) (x : N) : list N :=
  match n with
  | O => []
  | S n' => N.land (N.shiftr x (8 * N.of_nat n')) 255 :: be_bytes n' x
  end.

(** The message, one 1 bit, zero bits up to 56 mod 64 bytes, the bit length. *)
Definition pad (msg : list N) : list N :=
  let l := List.length msg in
  let zeros := Nat.modulo (64 - Nat.modulo (l + 9) 64) 64 in
  msg ++ [128] ++ repeat 0 zeros ++ be_bytes 8 (8 * N.of_nat l).

Fixpoint words (n : nat) (bs : list N) : list N :=
  match n, bs with
  | S n', b0 :: b1 :: b2 :: b3 :: r =>
      (N.shiftl b0 24 + N.shiftl b1 16 + N.shiftl b2 8 + b3) :: words n' r
  | _, _ => []
  end.

(** The message schedule, newest word first: [rev_w] holds W[t-1], W[t-2], ... *)
Fixpoint schedule (n : nat) (rev_w : list N) : list N :=
  match n with
  | O => rev_w
  | S n' =>
      let w i := nth i rev_w 0 in
      schedule n'
        (add32 (add32 (ssig1 (w 1%nat)) (w 6%nat))
               (add32 (ssig0 (w 14%nat)) (w 15%nat)) :: rev_w)
  end.

Definition round (st : list N) (kw : N * N) : list N :=
  match st with
  | [a; b; c; d; e; f; g; h] =>
      let t1 := add32 (add32 (add32 h (bsig1 e)) (add32 (Ch e f g) (fst kw)))
                      (snd kw) in
      let t2 := add32 (bsig0 a) (Maj a b c) in
      [add32 t1 t2; a; b; c; add32 d t1; e; f; g]
  | _ => st
  end.

Definition compress (h : list N) (block : list N) : list N :=
  let w := rev (schedule 48 (rev (words 16 block))) in
  let st := fold_left round (combine K w) h in
  map (fun p => add32 (fst p) (snd p)) (combine h st).

Fixpoint blocks (fuel : nat) (h : list N) (bs : list N) : list N :=
  match fuel, bs with
  | S fuel', _ :: _ => blocks fuel' (compress h (firstn 64 bs)) (skipn 64 bs)
  | _, _ => h
  end.

(** The 32 digest bytes. *)
Definition digest (msg : list N) : list N :=
  let p := pad msg in
  flat_map (be_bytes 4) (blocks (List.length p) H0 p).

Definition hex_digit (n : N) : ascii :=
  match String.get (N.to_nat n) "0123456789abcdef" with
  | Some c => c
  | None => "0"%char
  end.

Fixpoint hex (bs : list N) : string :=
  match bs with
  | [] => EmptyString
  | b :: r => String (hex_digit (N.shiftr b 4))
                (String (hex_digit (N.land b 15)) (hex r))
  end.

(** [hashlib.sha256(data).hexdigest()] *)
Definition hexdigest (msg : list N) : string := hex (digest msg).

End SHA256.
(* ===================================================================== *)
(** ** The persisted tables ([init_db], src/bot.py lines 25-74) *)

Abbreviation str := Py.str.
Bind Scope string_scope with Py.str.

(** The only folder name the bot ever stores is one Cyrillic literal. *)
Inductive folder_name := FolderWork.

Record meta_row := MetaRow {
  meta_id : str;                 (* id TEXT PRIMARY KEY *)
  user_tg_reg_date : str;
  user_bot_reg_date : str;
  device_meta : str;
  browser : str }.

Record user_row := UserRow {
  telegram_id : Z;               (* telegram_id INTEGER PRIMARY KEY *)
  username : option str;
  nickname : str;
  meta_data_id : str }.

Record link_row := LinkRow {
  short_id : str;                (* short_id TEXT PRIMARY KEY *)
  original_url : str;
  creator_id : Z;
  folder_id : option str;
  created_at : str }.

Record folder_row := FolderRow {
  folder_key : str;              (* folder_id TEXT PRIMARY KEY *)
  name : folder_name;
  folder_creator_id : Z }.

Record hash_row := HashRow {
  hash_id : str;                 (* hash_id TEXT PRIMARY KEY *)
  original_url_hash : str;
  deleted_at : str;
  hash_creator_id : Z }.

(** A table is the list of its rows in insertion order; the primary key is
    enforced by the insert operations below, as SQLite enforces it. *)
Record DB := MkDB {
  meta_data : list meta_row;
  user : list user_row;
  short_links : list link_row;
  folders : list folder_row;
  deleted_links_hash : list hash_row }.

Definition empty_db : DB := MkDB [] [] [] [] [].

Inductive exn :=
| IntegrityError (constraint : string)   (* sqlite3.IntegrityError: UNIQUE constraint failed *)
| IndexError.

Inductive result (A : Type) :=
| Ok (a : A)
| Raised (e : exn).
Arguments Ok {A} a.
Arguments Raised {A} e.

Module Sql.

Definition has_meta (k : str) (d : DB) : bool :=
  existsb (fun r => String.eqb (meta_id r) k) (meta_data d).
Definition has_user (k : Z) (d : DB) : bool :=
  existsb (fun r => Z.eqb (telegram_id r) k) (user d).
Definition has_link (k : str) (d : DB) : bool :=
  existsb (fun r => String.eqb (short_id r) k) (short_links d).
Definition has_folder (k : str) (d : DB) : bool :=
  existsb (fun r => String.eqb (folder_key r) k) (folders d).
Definition has_hash (k : str) (d : DB) : bool :=
  existsb (fun r => String.eqb (hash_id r) k) (deleted_links_hash d).

(** INSERT INTO meta_data ... (line 113) *)
Definition insert_meta (r : meta_row) (d : DB) : result DB :=
  if has_meta (meta_id r) d then Raised (IntegrityError "meta_data.id")
  else Ok (MkDB (meta_data d ++ [r]) (user d) (short_links d) (folders d)
                (deleted_links_hash d)).

(** INSERT INTO user ... (line 118) *)
Definition insert_user (r : user_row) (d : DB) : result DB :=
  if has_user (telegram_id r) d then Raised (IntegrityError "user.telegram_id")
  else Ok (MkDB (meta_data d) (user d ++ [r]) (short_links d) (folders d)
                (deleted_links_hash d)).

(** INSERT INTO short_links ... (line 139) *)
Definition insert_link (r : link_row) (d : DB) : result DB :=
  if has_link (short_id r) d then Raised (IntegrityError "short_links.short_id")
  else Ok (MkDB (meta_data d) (user d) (short_links d ++ [r]) (folders d)
                (deleted_links_hash d)).

(** INSERT INTO folders ... (line 219) *)
Definition insert_folder (r : folder_row) (d : DB) : result DB :=
  if has_folder (folder_key r) d then Raised (IntegrityError "folders.folder_id")
  else Ok (MkDB (meta_data d) (user d) (short_links d) (folders d ++ [r])
                (deleted_links_hash d)).

(** INSERT INTO deleted_links_hash ... (line 185) *)
Definition insert_deleted (r : hash_row) (d : DB) : result DB :=
  if has_hash (hash_id r) d
  then Raised (IntegrityError "deleted_links_hash.hash_id")
  else Ok (MkDB (meta_data d) (user d) (short_links d) (folders d)
                (deleted_links_hash d ++ [r])).

(** DELETE FROM short_links WHERE short_id = ? (line 191) *)
Definition delete_link (k : str) (d : DB) : DB :=
  MkDB (meta_data d) (user d)
       (filter (fun r => negb (String.eqb (short_id r) k)) (short_links d))
       (folders d) (deleted_links_hash d).

(** SELECT ... FROM short_links WHERE short_id = ?, then [fetchone]
    (lines 93 and 178) *)
Definition find_link (k : str) (d : DB) : option link_row :=
  find (fun r => String.eqb (short_id r) k) (short_links d).

(** SELECT telegram_id FROM user WHERE telegram_id = ?, then [fetchone]
    (line 107) *)
Definition find_user (k : Z) (d : DB) : option user_row :=
  find (fun r => Z.eqb (telegram_id r) k) (user d).

Definition select_user (k : Z) (d : DB) : option Z :=
  option_map telegram_id (find_user k d).

(** The row of line 93, [(original_url,)] *)
Definition select_url (k : str) (d : DB) : option str :=
  option_map original_url (find_link k d).

(** The row of line 178, [(original_url, creator_id)] *)
Definition select_link (k : str) (d : DB) : option (str * Z) :=
  option_map (fun r => (original_url r, creator_id r)) (find_link k d).

(** SELECT short_id, original_url FROM short_links WHERE creator_id = ?,
    then [fetchall] (line 158) *)
Definition links_of (c : Z) (d : DB) : list (str * str) :=
  map (fun r => (short_id r, original_url r))
      (filter (fun r => Z.eqb (creator_id r) c) (short_links d)).

(** SELECT folder_id, name FROM folders WHERE creator_id = ?, then
    [fetchall] (line 202) *)
Definition folders_of (c : Z) (d : DB) : list (str * folder_name) :=
  map (fun r => (folder_key r, name r))
      (filter (fun r => Z.eqb (folder_creator_id r) c) (folders d)).

End Sql.

(* ===================================================================== *)
(** ** Telegram updates and replies *)

Record tg_user := TgUser {
  user_id : Z;
  user_username : option str;
  full_name : str }.

(** A message update as the handlers read it: a text message sent by a
    user.  A message without [text] (media with a caption) or without a
    sender (a channel post) has no term here. *)
Record message := Message {
  from_user : tg_user;
  text : str }.

(** A button press: who pressed, and the token of the button.  The message
    the button belongs to is not a field: the handlers use it for their last
    call only ([callback.message.edit_text], lines 194 and 222, after the
    commit), and that call is taken to succeed like every Telegram call. *)
Record callback_query := CallbackQuery {
  cb_from_user : tg_user;
  data : str }.

Inductive update :=
| UMessage (m : message)
| UCallback (c : callback_query).

(** One line and one button of the [/my_links] answer (lines 167-168). *)
Record link_item := LinkItem {
  shown_url : str;               (* url[:30] *)
  shown_id : str;                (* s_id *)
  callback_data : str }.         (* "del_" + s_id *)

(** What the bot sends back; each constructor is one call of the source
    with the values it interpolates. *)
Inductive reply :=
| LinkReady (url : str)          (* line 96: text and button carry row[0] *)
| LinkMissing                    (* line 103 *)
| Welcome                        (* line 124 *)
| BadUrl                         (* line 135 *)
| Shortened (url short_url : str)  (* line 148 *)
| NoLinks                        (* line 162 *)
| LinkList (items : list link_item)  (* line 170 *)
| CbDeleted                      (* line 193: callback.answer *)
| EditDeleted                    (* line 194: callback.message.edit_text *)
| CbNotFound                     (* line 196: callback.answer *)
| NoFolders (button_data : str)  (* line 208 *)
| FolderList (items : list (str * folder_name))  (* line 213 *)
| FolderCreated (f_id : str).    (* line 222 *)

(* ===================================================================== *)
(** ** Handler programs *)

(** The effects of a handler body, one per call in the source. *)
Inductive eff : Type -> Type :=
| Connect : eff unit                           (* entering [async with aiosqlite.connect] *)
| Close : eff unit                             (* leaving it *)
| SelectUrl (k : str) : eff (option str)       (* line 93 *)
| SelectUser (k : Z) : eff (option Z)          (* line 107 *)
| InsertMeta (r : meta_row) : eff unit         (* line 113 *)
| InsertUser (r : user_row) : eff unit         (* line 118 *)
| InsertLink (r : link_row) : eff unit         (* line 139 *)
| SelectLinksOf (c : Z) : eff (list (str * str))   (* line 158 *)
| SelectLink (k : str) : eff (option (str * Z))    (* line 178 *)
| InsertDeleted (r : hash_row) : eff unit      (* line 185 *)
| DeleteLink (k : str) : eff unit              (* line 191 *)
| SelectFoldersOf (c : Z) : eff (list (str * folder_name))  (* line 202 *)
| InsertFolder (r : folder_row) : eff unit     (* line 219 *)
| Commit : eff unit                            (* db.commit() *)
| RandBelow (n : nat) : eff nat                (* the draw inside secrets.choice *)
| Now : eff str                                (* datetime.now().isoformat() *)
| GetMe : eff str                              (* (await bot.get_me()).username *)
| Send (r : reply) : eff unit                  (* message.answer and the like *)
| Throw (e : exn) : eff Empty_set.             (* a Python exception *)

Inductive prog (A : Type) : Type :=
| Ret (a : A)
| Vis {X : Type} (e : eff X) (k : X -> prog A).
Arguments Ret {A} a.
Arguments Vis {A X} e k.

Fixpoint bind {A B : Type} (p : prog A) (f : A -> prog B) : prog B :=
  match p with
  | Ret a => f a
  | Vis e k => Vis e (fun x => bind (k x) f)
  end.

Definition call {X : Type} (e : eff X) : prog X := Vis e Ret.

Definition raise {A : Type} (e : exn) : prog A :=
  Vis (Throw e) (fun x : Empty_set => match x with end).

Declare Scope prog_scope.
Delimit Scope prog_scope with prog.
Notation "x <- p ;; q" := (bind p (fun x => q))
  (at level 61, p at next level, right associativity) : prog_scope.
Notation "' pat <- p ;; q" := (bind p (fun x => match x with pat => q end))
  (at level 61, pat pattern, p at next level, right associativity) : prog_scope.
Notation "p ;; q" := (bind p (fun _ => q))
  (at level 61, right associativity) : prog_scope.
Open Scope prog_scope.

(** Every event a program can perform satisfies [P]. *)
Inductive all_events (P : forall X : Type, eff X -> bool) {A : Type}
  : prog A -> Prop :=
| all_ret (a : A) : all_events P (Ret a)
| all_vis {X : Type} (e : eff X) (k : X -> prog A) :
    P X e = true -> (forall x, all_events P (k x)) -> all_events P (Vis e k).

(** The event is not the removal of the link [k]. *)
Definition keeps (k : str) (X : Type) (e : eff X) : bool :=
  match e with
  | DeleteLink k' => negb (String.eqb k' k)
  | _ => true
  end.

(** The event neither writes the link table nor sends the
    invalid-format reply. *)
Definition no_link_write (X : Type) (e : eff X) : bool :=
  match e with
  | InsertLink _ | DeleteLink _ | Send BadUrl => false
  | _ => true
  end.

(** [l[i]] *)
Definition item {A : Type} (i : nat) (l : list A) : prog A :=
  match nth_error l i with
  | Some a => Ret a
  | None => raise IndexError
  end.

Definition ascii_letters : str :=
  "abcdefghijklmnopqrstuvwxyzABCDEFGHIJKLMNOPQRSTUVWXYZ".
Definition digits : str := "0123456789".

(** [secrets.choice(seq)]: IndexError on an empty sequence, else the
    character at a drawn index. *)
Definition choice (seq : str) : prog ascii :=
  match seq with
  | EmptyString => raise IndexError
  | _ =>
      i <- call (RandBelow (String.length seq));;
      match String.get i seq with
      | Some c => Ret c
      | None => raise IndexError
      end
  end.

(** [''.join(g for _ in range(n))] *)
Fixpoint join_times (n : nat) (g : prog ascii) : prog str :=
  match n with
  | O => Ret EmptyString
  | S n' => c <- g;; r <- join_times n' g;; Ret (String c r)
  end.

(** [generate_id] (lines 76-78) *)
Definition generate_id (length : nat) : prog str :=
  let chars := (ascii_letters ++ digits)%string in
  join_times length (choice chars).

(** The characters [generate_id] draws from, and the test for them. *)
Definition alphabet : list ascii :=
  Py.chars_of (ascii_letters ++ digits)%string.

Definition alnum (c : ascii) : bool :=
  let n := nat_of_ascii c in
  (((97 <=? n) && (n <=? 122)) || ((65 <=? n) && (n <=? 90))
   || ((48 <=? n) && (n <=? 57)))%nat.

(** The default of the [length] parameter. *)
Definition default_length : nat := 12.

Section Handlers.

(** [validators.url], truthy or not. *)
Variable validators_url : str -> bool.

(** [cmd_start] (lines 86-129) *)
Definition cmd_start (m : message) : prog unit :=
  let args := Py.split (text m) in
  if (1 <? List.length args)%nat then
    short_id <- item 1 args;;
    call Connect;;
    row <- call (SelectUrl short_id);;
    match row with
    | Some url => call (Send (LinkReady url));; call Close
    | None => call (Send LinkMissing);; call Close
    end
  else
    call Connect;;
    found <- call (SelectUser (user_id (from_user m)));;
    match found with
    | None =>
        m_id <- generate_id default_length;;
        now <- call Now;;
        call (InsertMeta
                (MetaRow m_id "Unknown" now "Mobile/Desktop" "In-App Telegram"));;
        call (InsertUser
                (UserRow (user_id (from_user m)) (user_username (from_user m))
                         (full_name (from_user m)) m_id));;
        call Commit
    | Some _ => Ret tt
    end;;
    call Close;;
    call (Send Welcome).

(** [create_link] (lines 131-153) *)
Definition create_link (m : message) : prog unit :=
  let url := Py.strip (text m) in
  if negb (validators_url url) then call (Send BadUrl)
  else
    short_id <- generate_id default_length;;
    call Connect;;
    now <- call Now;;
    call (InsertLink (LinkRow short_id url (user_id (from_user m)) None now));;
    call Commit;;
    call Close;;
    me <- call GetMe;;
    call (Send (Shortened url ("https://t.me/" ++ me ++ "?start=" ++ short_id)%string)).

(** [list_links] (lines 155-170) *)
Definition list_links (m : message) : prog unit :=
  call Connect;;
  links <- call (SelectLinksOf (user_id (from_user m)));;
  call Close;;
  match links with
  | [] => call (Send NoLinks)
  | _ =>
      call (Send (LinkList
                    (map (fun '(s_id, url) =>
                            LinkItem (Py.take 30 url) s_id ("del_" ++ s_id)%string)
                         links)))
  end.

(** [delete_link_callback] (lines 172-196) *)
Definition delete_link_callback (c : callback_query) : prog unit :=
  short_id <- item 1 (Py.split_on "_" (data c));;
  call Connect;;
  row <- call (SelectLink short_id);;
  match row with
  | Some (url, creator) =>
      let url_hash := SHA256.hexdigest (Py.encode url) in
      now <- call Now;;
      call (InsertDeleted (HashRow short_id url_hash now creator));;
      call (DeleteLink short_id);;
      call Commit;;
      call (Send CbDeleted);;
      call (Send EditDeleted)
  | None => call (Send CbNotFound)
  end;;
  call Close.

(** [cmd_folders] (lines 198-213) *)
Definition cmd_folders (m : message) : prog unit :=
  call Connect;;
  fs <- call (SelectFoldersOf (user_id (from_user m)));;
  call Close;;
  match fs with
  | [] => call (Send (NoFolders "create_folder_work"))
  | _ => call (Send (FolderList fs))
  end.

(** [create_folder_example] (lines 215-222) *)
Definition create_folder_example (c : callback_query) : prog unit :=
  f_id <- generate_id default_length;;
  call Connect;;
  call (InsertFolder (FolderRow f_id FolderWork (user_id (cb_from_user c))));;
  call Commit;;
  call Close;;
  call (Send (FolderCreated f_id)).

(** *** The filters of the decorators *)

(** [Command(cmd)] of aiogram: the first word is "/" + cmd, optionally
    followed by "@" and a name, which is compared with the bot's own name,
    if it has one, without regard to case. *)
Definition command_filter (cmd bot : str) (t : str) : bool :=
  match Py.split t with
  | String p rest :: _ =>
      let '(command, mention) := Py.partition "@" rest in
      Ascii.eqb p "/" && String.eqb command cmd
      && match mention, bot with
         | None, _ | Some EmptyString, _ | _, EmptyString => true
         | Some at_name, _ => String.eqb (Py.lower at_name) (Py.lower bot)
         end
  | _ => false
  end.

(** [F.text.regexp(r'^https?://')] (line 131) *)
Definition url_prefix_filter (t : str) : bool :=
  Py.startswith "http://" t || Py.startswith "https://" t.

(** The dispatcher tries the handlers of an update kind in the order of
    their registration and runs the first whose filter accepts; an update
    no filter accepts is dropped. *)
Definition route (bot : str) (u : update) : option (prog unit) :=
  match u with
  | UMessage m =>
      if command_filter "start" bot (text m) then Some (cmd_start m)
      else if url_prefix_filter (text m) then Some (create_link m)
      else if command_filter "my_links" bot (text m) then Some (list_links m)
      else if command_filter "folders" bot (text m) then Some (cmd_folders m)
      else None
  | UCallback c =>
      if Py.startswith "del_" (data c) then Some (delete_link_callback c)
      else if String.eqb (data c) "create_folder_work"
           then Some (create_folder_example c)
      else None
  end.

End Handlers.

(** The short id a delete button press names: [callback.data.split("_")[1]]. *)
Definition delete_target (c : callback_query) : option str :=
  nth_error (Py.split_on "_" (data c)) 1.

(** The update is a press of the delete button of [k]. *)
Definition deletes (k : str) (u : update) : bool :=
  match u with
  | UCallback c =>
      Py.startswith "del_" (data c)
      && match delete_target c with
         | Some k' => String.eqb k' k
         | None => false
         end
  | UMessage _ => false
  end.
(* ===================================================================== *)
(** ** Running a handler against SQLite *)

(** The random source behind [secrets]: a draw below [n] is below [n]. *)
Class RandomSource (G : Type) := {
  randbelow : nat -> G -> nat * G;
  randbelow_lt : forall n g, (0 < n)%nat -> (fst (randbelow n g) < n)%nat }.

(** A scripted source for examples: it replays a list of draws. *)
Definition scripted_randbelow (n : nat) (g : list nat) : nat * list nat :=
  match g with
  | [] => (0%nat, [])
  | r :: g' => (Nat.modulo r n, g')
  end.

#[export] Instance scripted : RandomSource (list nat) :=
  {| randbelow := scripted_randbelow;
     randbelow_lt := ltac:(intros n [|r g'] Hn; simpl;
                           [exact Hn | apply Nat.mod_upper_bound; lia]) |}.

Section Exec.

Context {G : Type} `{RandomSource G}.

(** What one handler invocation has of its own: its connection's open
    transaction (the database as this connection sees it, uncommitted
    writes included), its inputs from outside, and the replies sent. *)
Record task := Task {
  txn : option DB;
  rng : G;
  clock : str;
  bot_name : str;
  sent : list reply }.

Definition set_txn (t : option DB) (l : task) : task :=
  Task t (rng l) (clock l) (bot_name l) (sent l).

Definition set_rng (g : G) (l : task) : task :=
  Task (txn l) g (clock l) (bot_name l) (sent l).

Definition add_sent (r : reply) (l : task) : task :=
  Task (txn l) (rng l) (clock l) (bot_name l) (sent l ++ [r]).

(** The database a connection reads. *)
Definition view (d : DB) (l : task) : DB :=
  match txn l with
  | Some v => v
  | None => d
  end.

(** An INSERT or DELETE opens a transaction if none is open and changes the
    connection's view only. *)
Definition write (f : DB -> result DB) (d : DB) (l : task)
  : result unit * DB * task :=
  match f (view d l) with
  | Ok v => (Ok tt, d, set_txn (Some v) l)
  | Raised e => (Raised e, d, l)
  end.

Definition exec {X : Type} (e : eff X) (d : DB) (l : task)
  : result X * DB * task :=
  match e in eff X return result X * DB * task with
  | Connect => (Ok tt, d, set_txn None l)
  | Close => (Ok tt, d, set_txn None l)
  | SelectUrl k =>
      (Ok (Sql.select_url k (view d l)), d, l)
  | SelectUser k =>
      (Ok (Sql.select_user k (view d l)), d, l)
  | InsertMeta r => write (Sql.insert_meta r) d l
  | InsertUser r => write (Sql.insert_user r) d l
  | InsertLink r => write (Sql.insert_link r) d l
  | SelectLinksOf c => (Ok (Sql.links_of c (view d l)), d, l)
  | SelectLink k =>
      (Ok (Sql.select_link k (view d l)), d, l)
  | InsertDeleted r => write (Sql.insert_deleted r) d l
  | DeleteLink k => write (fun v => Ok (Sql.delete_link k v)) d l
  | SelectFoldersOf c => (Ok (Sql.folders_of c (view d l)), d, l)
  | InsertFolder r => write (Sql.insert_folder r) d l
  | Commit => (Ok tt, view d l, set_txn None l)
  | RandBelow n =>
      (Ok (fst (randbelow n (rng l))), d, set_rng (snd (randbelow n (rng l))) l)
  | Now => (Ok (clock l), d, l)
  | GetMe => (Ok (bot_name l), d, l)
  | Send r =>
      (Ok tt, d, add_sent r l)
  | Throw e => (Raised e, d, l)
  end.

(** One handler run alone.  An exception ends it: the [async with] block is
    left, the connection closed, the open transaction lost. *)
Fixpoint run {A : Type} (p : prog A) (d : DB) (l : task)
  : result A * DB * task :=
  match p with
  | Ret a => (Ok a, d, l)
  | Vis e k =>
      match exec e d l with
      | (Ok x, d', l') => run (k x) d' l'
      | (Raised ex, d', l') => (Raised ex, d', set_txn None l')
      end
  end.

(** The stored database as it stands before the run and after each of its
    events: every state another connection, or a restart, could find. *)
Fixpoint stored_states {A : Type} (p : prog A) (d : DB) (l : task) : list DB :=
  d :: match p with
       | Ret _ => []
       | Vis e k =>
           match exec e d l with
           | (Ok x, d', l') => stored_states (k x) d' l'
           | (Raised _, d', _) => [d']
           end
       end.

(** The inputs of one invocation. *)
Record env := Env {
  seed : G;
  time : str;
  me : str }.

Definition start_task (e : env) : task := Task None (seed e) (time e) (me e) [].

(** *** Two invariants of a run *)

(** The link [k] is stored with row [r], and this connection sees it so. *)
Definition holds_link (k : str) (r : link_row) (d : DB) (l : task) : Prop :=
  Sql.find_link k d = Some r /\ Sql.find_link k (view d l) = Some r.

(** The link table is [L], also as this connection sees it, and no
    invalid-format reply was sent. *)
Definition links_untouched (L : list link_row) (d : DB) (l : task) : Prop :=
  short_links d = L /\ short_links (view d l) = L /\ ~ In BadUrl (sent l).

Variable validators_url : str -> bool.

(** One update through the dispatcher. *)
Definition handle (u : update) (e : env) (d : DB) : result unit * DB * task :=
  match route validators_url (me e) u with
  | Some p => run p d (start_task e)
  | None => (Ok tt, d, start_task e)
  end.

Definition db_after (u : update) (e : env) (d : DB) : DB :=
  snd (fst (handle u e d)).

Definition replies (u : update) (e : env) (d : DB) : list reply :=
  sent (snd (handle u e d)).

(** A sequence of updates, one after the other. *)
Fixpoint feed (us : list (update * env)) (d : DB) : DB :=
  match us with
  | [] => d
  | (u, e) :: us' => feed us' (db_after u e d)
  end.

End Exec.

(** The database after both writes of a deletion. *)
Definition deleted_db (k : str) (r : link_row) (now : str) (d : DB) : DB :=
  MkDB (meta_data d) (user d)
       (filter (fun x => negb (String.eqb (short_id x) k)) (short_links d))
       (folders d)
       (deleted_links_hash d ++
        [HashRow k (SHA256.hexdigest (Py.encode (original_url r))) now
                 (creator_id r)]).

Arguments task G : clear implicits.
Arguments env G : clear implicits.

(* ===================================================================== *)
(** ** Several handlers at once *)

(** aiogram runs every update in a task of its own; tasks take turns at
    their awaits, and each has its own connection.  Here every event of a
    handler is a possible turn (more interleavings than asyncio has, which
    is harmless for what holds of all of them).  SQLite lets one connection
    at a time hold a write transaction: a write that would open a second
    one waits. *)

Section Concurrent.

Context {G : Type} `{RandomSource G}.

Inductive status :=
| Running (p : prog unit)
| Finished (r : result unit).

Record thread := Thread {
  state : status;
  own : task G }.

Definition holds_txn (t : thread) : bool :=
  match txn (own t) with
  | Some _ => true
  | None => false
  end.

Definition is_write {X : Type} (e : eff X) : bool :=
  match e with
  | InsertMeta _ | InsertUser _ | InsertLink _ | InsertDeleted _
  | DeleteLink _ | InsertFolder _ => true
  | _ => false
  end.

(** One turn of a thread; [busy] says that another connection holds a write
    transaction. *)
Definition step_thread (busy : bool) (d : DB) (t : thread) : DB * thread :=
  match state t with
  | Finished _ => (d, t)
  | Running (Ret a) => (d, Thread (Finished (Ok a)) (own t))
  | Running (Vis e k) =>
      if is_write e && negb (holds_txn t) && busy then (d, t)
      else match exec e d (own t) with
           | (Ok x, d', l') => (d', Thread (Running (k x)) l')
           | (Raised ex, d', l') =>
               (d', Thread (Finished (Raised ex)) (set_txn None l'))
           end
  end.

(** The stored database and the threads. *)
Definition sys : Type := DB * list thread.

(** A turn of thread number [i]. *)
Definition step (i : nat) (s : sys) : sys :=
  let '(d, ts) := s in
  match nth_error ts i with
  | None => s
  | Some t =>
      let before := firstn i ts in
      let after := skipn (S i) ts in
      let '(d', t') := step_thread (existsb holds_txn (before ++ after)) d t in
      (d', before ++ t' :: after)
  end.

Fixpoint sched (order : list nat) (s : sys) : sys :=
  match order with
  | [] => s
  | i :: order' => sched order' (step i s)
  end.

(** The start actions [ms], each with its inputs, all pending. *)
Definition spawn (ms : list (message * env G)) : list thread :=
  map (fun me => Thread (Running (cmd_start (fst me))) (start_task (snd me))) ms.

End Concurrent.

Arguments thread G : clear implicits.
Arguments sys G : clear implicits.

(** *** How far a registration has got *)

Inductive phase := Idle | HasMeta | HasBoth.

(** The phase after an event of a handler that only registers user [u];
    [None] for an event such a handler does not perform in that phase. *)
Definition next_phase (u : Z) {X : Type} (e : eff X) (ph : phase) : option phase :=
  match e with
  | Connect | Close => Some Idle
  | InsertMeta _ =>
      match ph with
      | Idle => Some HasMeta
      | _ => None
      end
  | InsertUser r =>
      match ph with
      | HasMeta => if Z.eqb (telegram_id r) u then Some HasBoth else None
      | _ => None
      end
  | Commit =>
      match ph with
      | HasBoth => Some Idle
      | _ => None
      end
  | InsertLink _ | InsertDeleted _ | DeleteLink _ | InsertFolder _ => None
  | _ => Some ph
  end.

Inductive follows (u : Z) : phase -> prog unit -> Prop :=
| follows_ret (a : unit) : follows u Idle (Ret a)
| follows_vis (ph ph' : phase) {X : Type} (e : eff X) (k : X -> prog unit) :
    next_phase u e ph = Some ph' ->
    (forall x, follows u ph' (k x)) ->
    follows u ph (Vis e k).

(** The event changes no phase: it is a draw or an exception. *)
Definition pure_event (X : Type) (e : eff X) : bool :=
  match e with
  | RandBelow _ | Throw _ => true
  | _ => false
  end.

Definition with_meta (m : meta_row) (d : DB) : DB :=
  MkDB (meta_data d ++ [m]) (user d) (short_links d) (folders d)
       (deleted_links_hash d).

Definition with_user (r : user_row) (d : DB) : DB :=
  MkDB (meta_data d) (user d ++ [r]) (short_links d) (folders d)
       (deleted_links_hash d).

(** What a connection's transaction holds in each phase, against the
    stored database [d]. *)
Definition phase_ok (u : Z) (ph : phase) (d : DB) (tx : option DB) : Prop :=
  match ph with
  | Idle => tx = None
  | HasMeta => exists m, tx = Some (with_meta m d)
  | HasBoth =>
      exists m r, telegram_id r = u /\ Sql.has_user u d = false
                  /\ tx = Some (with_user r (with_meta m d))
  end.

(** The stored database is the initial one, or the initial one with one
    Metadata row and one User row of [u] added. *)
Definition registered_once (u : Z) (d0 d : DB) : Prop :=
  d = d0
  \/ exists m r, telegram_id r = u /\ Sql.has_user u d0 = false
                 /\ d = with_user r (with_meta m d0).

(** A thread that only registers [u] is in some phase, and its
    transaction is what that phase says; a finished one has none. *)
Definition thread_ok {G : Type} (u : Z) (d : DB) (t : thread G) : Prop :=
  match state t with
  | Finished _ => txn (own t) = None
  | Running p => exists ph, follows u ph p /\ phase_ok u ph d (txn (own t))
  end.

(** The invariant of concurrent registrations of [u] from [d0]: at most one
    thread holds a write transaction. *)
Definition sys_ok {G : Type} (u : Z) (d0 : DB) (s : sys G) : Prop :=
  registered_once u d0 (fst s)
  /\ Forall (thread_ok u (fst s)) (snd s)
  /\ (List.length (filter holds_txn (snd s)) <= 1)%nat.
(** ** Values for the examples *)

Module Demo.

Definition alice : tg_user := TgUser 1001 (Some "alice") "Alice".
Definition bob : tg_user := TgUser 2002 None "Bob".

(** A stand-in for [validators.url]: the scheme prefix and no white space. *)
Definition validator (s : str) : bool :=
  url_prefix_filter s && forallb (fun c => negb (Py.isspace c)) (Py.chars_of s).

(** Twelve draws that spell "dE3abc98ABCD". *)
Definition draws : list nat := [3; 30; 55; 0; 1; 2; 61; 60; 26; 27; 28; 29].

Definition env1 : env (list nat) := Env draws "2024-01-01T10:00:00" "shortbot".
Definition env2 : env (list nat) :=
  Env [7; 7; 7; 7; 7; 7; 7; 7; 7; 7; 7; 7] "2024-01-02T11:30:00" "shortbot".

Definition submit : update := UMessage (Message alice "https://example.com/page").
Definition press : update := UCallback (CallbackQuery bob "del_dE3abc98ABCD").
Definition open_link : update := UMessage (Message bob "/start dE3abc98ABCD").

End Demo.

(* ===================================================================== *)
(** ** Notions for the properties of the whole bot *)

(** [l'] is [l] with rows added at the end. *)
Definition grows {A : Type} (l l' : list A) : Prop :=
  exists added, l' = l ++ added.

(** The primary keys of the five tables are unique. *)
Definition keys_unique (d : DB) : Prop :=
  NoDup (map meta_id (meta_data d))
  /\ NoDup (map telegram_id (user d))
  /\ NoDup (map short_id (short_links d))
  /\ NoDup (map folder_key (folders d))
  /\ NoDup (map hash_id (deleted_links_hash d)).

(** The tables without a DELETE statement in the source have only grown
    from [d0] to [d]. *)
Definition only_grown (d0 d : DB) : Prop :=
  grows (meta_data d0) (meta_data d)
  /\ grows (user d0) (user d)
  /\ grows (folders d0) (folders d)
  /\ grows (deleted_links_hash d0) (deleted_links_hash d).

(** The event is no commit. *)
Definition no_commit (X : Type) (e : eff X) : bool :=
  match e with
  | Commit => false
  | _ => true
  end.

(** The event is no removal of a link. *)
Definition no_delete (X : Type) (e : eff X) : bool :=
  match e with
  | DeleteLink _ => false
  | _ => true
  end.

(** The event is no insertion of a link. *)
Definition no_insert_link (X : Type) (e : eff X) : bool :=
  match e with
  | InsertLink _ => false
  | _ => true
  end.

(** Any event. *)
Definition any_event (X : Type) (e : eff X) : bool := true.

(** The line and button [list_links] shows for a row (lines 167-168). *)
Definition item_of (r : link_row) : link_item :=
  LinkItem (Py.take 30 (original_url r)) (short_id r) ("del_" ++ short_id r).

(** A link row as [create_link] stores it: a generated id, no folder, and
    a URL that passed the filter of line 131 and [validators.url]. *)
Definition submitted_row (validators_url : str -> bool) (r : link_row) : Prop :=
  String.length (short_id r) = 12%nat
  /\ Forall (fun c => alnum c = true) (Py.chars_of (short_id r))
  /\ folder_id r = None
  /\ url_prefix_filter (original_url r) = true
  /\ validators_url (original_url r) = true.

(** *** Concurrent delete presses of one link *)

(** The invariant of a system of threads: the stored database is [good],
    every thread is [tok] against it, and at most one thread holds a write
    transaction. *)
Definition all_ok {G : Type} (good : DB -> Prop) (tok : DB -> thread G -> Prop)
           (s : sys G) : Prop :=
  good (fst s)
  /\ Forall (tok (fst s)) (snd s)
  /\ (List.length (filter holds_txn (snd s)) <= 1)%nat.

(** The delete presses [cs], each with its inputs, all pending. *)
Definition spawn_presses {G : Type} `{RandomSource G}
           (cs : list (callback_query * env G)) : list (thread G) :=
  map (fun ce => Thread (Running (delete_link_callback (fst ce)))
                        (start_task (snd ce))) cs.

(** The hash row a deletion of the link [r] under the id [k] records. *)
Definition hash_row_of (k : str) (r : link_row) (now : str) : hash_row :=
  HashRow k (SHA256.hexdigest (Py.encode (original_url r))) now (creator_id r).

(** The database with that row added and the link still in place. *)
Definition hash_added (k : str) (r : link_row) (now : str) (d : DB) : DB :=
  MkDB (meta_data d) (user d) (short_links d) (folders d)
       (deleted_links_hash d ++ [hash_row_of k r now]).

(** How far a deletion has got: nothing written, the hash row written at
    time [now], or the hash row written and the link row removed. *)
Inductive dphase :=
| DIdle
| DHash (now : str)
| DBoth (now : str).

(** The phase after an event of a handler that only deletes the link [r]
    of id [k]; [None] for an event such a handler does not perform. *)
Definition next_dphase (k : str) (r : link_row) {X : Type} (e : eff X)
           (ph : dphase) : option dphase :=
  match e with
  | Connect | Close => Some DIdle
  | InsertDeleted row =>
      match ph with
      | DIdle =>
          if String.eqb (hash_id row) k
             && String.eqb (original_url_hash row)
                           (SHA256.hexdigest (Py.encode (original_url r)))
             && Z.eqb (hash_creator_id row) (creator_id r)
          then Some (DHash (deleted_at row)) else None
      | _ => None
      end
  | DeleteLink k' =>
      match ph with
      | DHash now => if String.eqb k' k then Some (DBoth now) else None
      | _ => None
      end
  | Commit =>
      match ph with
      | DBoth _ => Some DIdle
      | _ => None
      end
  | InsertMeta _ | InsertUser _ | InsertLink _ | InsertFolder _ => None
  | _ => Some ph
  end.

(** The program only deletes the link [r] of id [k]; after the SELECT of
    line 178 it need only be so for the two rows that SELECT can return. *)
Inductive dfollows (k : str) (r : link_row) : dphase -> prog unit -> Prop :=
| dfollows_ret (a : unit) : dfollows k r DIdle (Ret a)
| dfollows_select (ph : dphase) (kont : option (str * Z) -> prog unit) :
    (forall x, x = None \/ x = Some (original_url r, creator_id r) ->
               dfollows k r ph (kont x)) ->
    dfollows k r ph (Vis (SelectLink k) kont)
| dfollows_vis (ph ph' : dphase) {X : Type} (e : eff X) (kont : X -> prog unit) :
    next_dphase k r e ph = Some ph' ->
    (forall x, dfollows k r ph' (kont x)) ->
    dfollows k r ph (Vis e kont).

(** What a connection's transaction holds in each phase; a thread that has
    written started from the initial database [d0]. *)
Definition dphase_ok (k : str) (r : link_row) (d0 : DB) (ph : dphase)
           (d : DB) (tx : option DB) : Prop :=
  match ph with
  | DIdle => tx = None
  | DHash now => d = d0 /\ tx = Some (hash_added k r now d0)
  | DBoth now => d = d0 /\ tx = Some (deleted_db k r now d0)
  end.

Definition dthread_ok {G : Type} (k : str) (r : link_row) (d0 : DB)
           (d : DB) (t : thread G) : Prop :=
  match state t with
  | Finished _ => txn (own t) = None
  | Running p =>
      exists ph, dfollows k r ph p /\ dphase_ok k r d0 ph d (txn (own t))
  end.

(** The stored database is the initial one, or the initial one after one
    deletion of the link. *)
Definition deleted_once (k : str) (r : link_row) (d0 d : DB) : Prop :=
  d = d0 \/ exists now, d = deleted_db k r now d0.

(** *** The id a call draws *)

(** What [generate_id()] returns on the task [l]: the twelve characters its
    random source selects.  The database plays no part in it. *)
Definition drawn_id {G : Type} `{RandomSource G} (l : task G) : str :=
  match run (generate_id default_length) empty_db l with
  | (Ok id, _, _) => id
  | (Raised _, _, _) => EmptyString
  end.

(** The update is a submission for which the generator draws the id [k]: a
    text the filter of line 131 accepts and [validators.url] passes, on
    inputs whose random source spells [k].  Only such an update can store a
    link under [k]. *)
Definition issues {G : Type} `{RandomSource G} (validators_url : str -> bool)
           (k : str) (ue : update * env G) : bool :=
  match fst ue with
  | UMessage m =>
      url_prefix_filter (text m) && validators_url (Py.strip (text m))
      && String.eqb (drawn_id (start_task (snd ue))) k
  | UCallback _ => false
  end.
(* ===================================================================== *)
(** * Properties *)

(** ** The string operations on the shapes the bot meets *)

Example split_start_arg : Py.split "/start  aZ09 tail" = ["/start"; "aZ09"; "tail"].
Proof. reflexivity. Qed.
Example split_blank : Py.split "  " = [].
Proof. reflexivity. Qed.
Example split_on_del : Py.split_on "_" "del_a_b" = ["del"; "a"; "b"].
Proof. reflexivity. Qed.
Example split_on_trailing : Py.split_on "_" "del_" = ["del"; ""].
Proof. reflexivity. Qed.
Example strip_both : Py.strip "  http://a b  " = "http://a b".
Proof. reflexivity. Qed.

(** White space beyond ASCII, and UTF-8 beyond ASCII. *)
Example split_latin1_space :
  Py.split (" a" ++ String (ascii_of_nat 133) "b"
            ++ String (ascii_of_nat 160) "c " ++ String (ascii_of_nat 28) " d"
            ++ String (ascii_of_nat 11) "")
  = ["a"; "b"; "c"; "d"].
Proof. reflexivity. Qed.

Example encode_latin1 :
  Py.encode ("caf" ++ String (ascii_of_nat 233) " " ++ String (ascii_of_nat 160) "")
  = [99; 97; 102; 195; 169; 32; 194; 160]%N.
Proof. reflexivity. Qed.

(** ** SHA-256 against the standard test vectors *)

Example sha256_constants :
  List.length SHA256.K = 64%nat
  /\ nth 0 SHA256.K 0%N = 0x428a2f98%N /\ nth 63 SHA256.K 0%N = 0xc67178f2%N
  /\ nth 0 SHA256.H0 0%N = 0x6a09e667%N /\ nth 7 SHA256.H0 0%N = 0x5be0cd19%N.
Proof. repeat split. Qed.

Example sha256_empty :
  SHA256.hexdigest (Py.encode "") =
  "e3b0c44298fc1c149afbf4c8996fb92427ae41e4649b934ca495991b7852b855".
Proof. vm_compute. reflexivity. Qed.

Example sha256_abc :
  SHA256.hexdigest (Py.encode "abc") =
  "ba7816bf8f01cfea414140de5dae2223b00361a396177a9cb410ff61f20015ad".
Proof. vm_compute. reflexivity. Qed.

Example sha256_two_blocks :
  SHA256.hexdigest
    (Py.encode "abcdbcdecdefdefgefghfghighijhijkijkljklmklmnlmnomnopnopq") =
  "248d6a61d20638b8e5c026930c3e6039a33ce45964ff2167f6ecedd419db06c1".
Proof. vm_compute. reflexivity. Qed.

Example sha256_latin1 :
  SHA256.hexdigest
    (Py.encode ("caf" ++ String (ascii_of_nat 233) " "
                ++ String (ascii_of_nat 160) "")) =
  "fbb5e3b97a714f91ae7b21340fb49ffc59740b28716a9749663310585b2e9362".
Proof. vm_compute. reflexivity. Qed.

(** ** The handler monad *)

Section RunFacts.

Context {G : Type} `{RandomSource G}.

Lemma run_bind {A B : Type} (p : prog A) (f : A -> prog B) (d : DB) (l : task G) :
  run (bind p f) d l =
  match run p d l with
  | (Ok a, d', l') => run (f a) d' l'
  | (Raised e, d', l') => (Raised e, d', l')
  end.
Proof.
  revert d l. induction p as [a | X e k IH]; intros d l; simpl.
  - reflexivity.
  - destruct (exec e d l) as [[[x | ex] d'] l']; [apply IH | reflexivity].
Qed.

Lemma get_some (s : string) (i : nat) :
  (i < String.length s)%nat ->
  exists c, String.get i s = Some c /\ In c (Py.chars_of s).
Proof.
  revert i. induction s as [|a s IH]; intros i Hi; simpl in *; [lia|].
  destruct i as [|i].
  - exists a. split; [reflexivity | now left].
  - destruct (IH i ltac:(lia)) as (c & Hc & Hin).
    exists c. split; [exact Hc | now right].
Qed.

(** [secrets.choice] on a non-empty sequence returns one of its characters
    and touches nothing but the random source. *)
Lemma run_choice (seq : str) (d : DB) (l : task G) :
  seq <> EmptyString ->
  exists c g, run (choice seq) d l = (Ok c, d, set_rng g l)
              /\ In c (Py.chars_of seq).
Proof.
  intros Hne. destruct seq as [|a s]; [congruence|].
  assert (Hlt : (fst (randbelow (String.length (String a s)) (rng l))
                 < String.length (String a s))%nat)
    by (apply randbelow_lt; simpl; lia).
  destruct (get_some _ _ Hlt) as (c & Hc & Hin).
  exists c, (snd (randbelow (String.length (String a s)) (rng l))).
  split; [|exact Hin].
  unfold choice. rewrite run_bind.
  change (run (call (RandBelow (String.length (String a s)))) d l)
    with (Ok (fst (randbelow (String.length (String a s)) (rng l))), d,
          set_rng (snd (randbelow (String.length (String a s)) (rng l))) l).
  cbv beta iota. rewrite Hc. reflexivity.
Qed.

Lemma set_rng_twice (g g' : G) (l : task G) :
  set_rng g' (set_rng g l) = set_rng g' l.
Proof. reflexivity. Qed.

Lemma run_join_times (n : nat) (seq : str) (d : DB) (l : task G) :
  seq <> EmptyString ->
  exists id g, run (join_times n (choice seq)) d l = (Ok id, d, set_rng g l)
               /\ String.length id = n
               /\ Forall (fun c => In c (Py.chars_of seq)) (Py.chars_of id).
Proof.
  intros Hne. revert l. induction n as [|n IH]; intros l.
  - exists EmptyString, (rng l). destruct l; simpl. repeat split. constructor.
  - simpl join_times. rewrite run_bind.
    destruct (run_choice seq d l Hne) as (c & g & -> & Hc).
    rewrite run_bind.
    destruct (IH (set_rng g l)) as (id & g' & -> & Hlen & Hall).
    exists (String c id), g'. simpl. rewrite Hlen. repeat split.
    constructor; assumption.
Qed.

Lemma alphabet_alnum : Forall (fun c => alnum c = true) alphabet.
Proof. repeat constructor. Qed.

(** What every run of [generate_id] does: it returns, changes only the
    random source, and its result has the asked length over [alphabet]. *)
Lemma run_generate_id (n : nat) (d : DB) (l : task G) :
  exists id g, run (generate_id n) d l = (Ok id, d, set_rng g l)
               /\ String.length id = n
               /\ Forall (fun c => alnum c = true) (Py.chars_of id).
Proof.
  destruct (run_join_times n (ascii_letters ++ digits)%string d l)
    as (id & g & Hrun & Hlen & Hall); [discriminate|].
  exists id, g. repeat split; try assumption.
  rewrite Forall_forall in *. intros c Hc.
  pose proof alphabet_alnum as Ha. rewrite Forall_forall in Ha.
  apply Ha, Hall, Hc.
Qed.

End RunFacts.

(** ** The identifier generator *)

(** C5: every run of [generate_id] at its default length returns a string
    of exactly 12 characters, each of them one of the 62 distinct ASCII
    letters and digits of [alphabet]. *)
Theorem generate_id_default_shape :
  List.length alphabet = 62%nat /\ NoDup alphabet
  /\ Forall (fun c => alnum c = true) alphabet
  /\ forall (G : Type) (RS : RandomSource G) (d : DB) (l : task G),
       exists id g,
         run (generate_id default_length) d l = (Ok id, d, set_rng g l)
         /\ String.length id = 12%nat
         /\ Forall (fun c => In c alphabet) (Py.chars_of id).
Proof.
  split; [reflexivity|]. split.
  - apply (NoDup_count_occ' ascii_dec). intros c Hc.
    repeat (destruct Hc as [<- | Hc]; [reflexivity|]). destruct Hc.
  - split; [apply alphabet_alnum|]. intros G RS d l.
    destruct (run_join_times default_length (ascii_letters ++ digits)%string d l)
      as (id & g & Hrun & Hlen & Hall); [discriminate|].
    exists id, g. auto.
Qed.

(** ** The delete button token *)

Lemma alnum_not_underscore (c : ascii) : alnum c = true -> Ascii.eqb c "_" = false.
Proof.
  intros Hc. destruct (Ascii.eqb_spec c "_") as [-> | _]; [|reflexivity].
  discriminate Hc.
Qed.

Lemma split_on_absent (sep : ascii) (s : str) :
  Forall (fun c => Ascii.eqb c sep = false) (Py.chars_of s) ->
  Py.split_on sep s = [s].
Proof.
  induction s as [|a s IH]; simpl; intros Hall; [reflexivity|].
  inversion Hall as [|? ? Ha Hs]; subst.
  rewrite Ha, (IH Hs). reflexivity.
Qed.

Lemma split_on_del_prefix (k : str) :
  Py.split_on "_" ("del_" ++ k) = "del" :: Py.split_on "_" k.
Proof. simpl. destruct (Py.split_on "_" k); reflexivity. Qed.

Lemma alnum_token (k : str) :
  Forall (fun c => alnum c = true) (Py.chars_of k) ->
  Py.split_on "_" ("del_" ++ k) = ["del"; k].
Proof.
  intros Hall. rewrite split_on_del_prefix, split_on_absent; [reflexivity|].
  eapply Forall_impl; [|exact Hall]. apply alnum_not_underscore.
Qed.

(** C9: for an id that [generate_id] produced, the button token
    "del_" + id of [list_links] (line 168), split on "_" as
    [delete_link_callback] does (line 174), has the id back as its second
    piece: the pieces are exactly "del" and the id. *)
Theorem delete_token_roundtrip
  (G : Type) (RS : RandomSource G) (d d' : DB) (l l' : task G) (id : str) :
  run (generate_id default_length) d l = (Ok id, d', l') ->
  Py.split_on "_" ("del_" ++ id) = ["del"; id]
  /\ item 1 (Py.split_on "_" ("del_" ++ id)) = Ret id
  /\ delete_target (CallbackQuery (TgUser 0 None "") ("del_" ++ id)) = Some id.
Proof.
  intros Hrun.
  destruct (run_generate_id default_length d l) as (id0 & g & Hrun0 & _ & Hall).
  rewrite Hrun in Hrun0. injection Hrun0 as -> _ _.
  pose proof (alnum_token id0 Hall) as Hsplit.
  unfold delete_target, item. cbn [data]. rewrite Hsplit. auto.
Qed.

Lemma delete_token_roundtrip_witness :
  run (generate_id default_length) empty_db
      (start_task (Env [3; 30; 55; 0; 1; 2; 61; 60; 26; 27; 28; 29] "" ""))
  = (Ok "dE3abc98ABCD", empty_db, start_task (Env [] "" ""))
  /\ Py.split_on "_" "del_dE3abc98ABCD" = ["del"; "dE3abc98ABCD"]
  /\ item 1 (Py.split_on "_" "del_dE3abc98ABCD") = Ret "dE3abc98ABCD"
  /\ delete_target (CallbackQuery (TgUser 0 None "") "del_dE3abc98ABCD")
     = Some "dE3abc98ABCD".
Proof.
  split; [reflexivity|].
  apply (delete_token_roundtrip (list nat) scripted empty_db empty_db
           (start_task (Env [3; 30; 55; 0; 1; 2; 61; 60; 26; 27; 28; 29] "" ""))
           (start_task (Env [] "" "")) "dE3abc98ABCD").
  reflexivity.
Defined.

(** ** The handlers, one at a time *)

Section HandlerFacts.

Context {G : Type} `{RandomSource G}.
Variable validators_url : str -> bool.

Lemma startswith_app (p s : str) :
  Py.startswith p s = true -> exists rest, s = (p ++ rest)%string.
Proof.
  revert s. induction p as [|a p IH]; intros s Hp; simpl in *.
  - exists s. reflexivity.
  - destruct s as [|b s]; [discriminate|].
    apply andb_prop in Hp. destruct Hp as (Hab & Hp).
    apply Ascii.eqb_eq in Hab. subst b.
    destruct (IH s Hp) as (rest & ->). exists rest. reflexivity.
Qed.

(** A token the filter of line 172 accepts always has a second piece. *)
Lemma delete_target_defined (c : callback_query) :
  Py.startswith "del_" (data c) = true -> exists k, delete_target c = Some k.
Proof.
  intros Hp. destruct (startswith_app _ _ Hp) as (rest & Hrest).
  unfold delete_target. rewrite Hrest, split_on_del_prefix.
  destruct (Py.split_on "_" rest) as [|w ws] eqn:Hs.
  - destruct rest; simpl in Hs; [discriminate|].
    destruct (Ascii.eqb a "_"); [discriminate|].
    destruct (Py.split_on "_" rest); discriminate.
  - exists w. reflexivity.
Qed.

(** [delete_link_callback] in one equation. *)
Lemma run_delete (c : callback_query) (d : DB) (l : task G) (k : str) :
  delete_target c = Some k ->
  run (delete_link_callback c) d l =
  match Sql.find_link k d with
  | None =>
      (Ok tt, d,
       Task None (rng l) (clock l) (bot_name l) (sent l ++ [CbNotFound]))
  | Some r =>
      if Sql.has_hash k d
      then (Raised (IntegrityError "deleted_links_hash.hash_id"), d,
            set_txn None l)
      else (Ok tt, deleted_db k r (clock l) d,
            Task None (rng l) (clock l) (bot_name l)
                 ((sent l ++ [CbDeleted]) ++ [EditDeleted]))
  end.
Proof.
  intros Hk. unfold delete_link_callback, item. unfold delete_target in Hk.
  rewrite Hk. cbn. unfold Sql.select_link.
  destruct (Sql.find_link k d) as [r|]; cbn; [|reflexivity].
  unfold write, Sql.insert_deleted. cbn.
  destruct (Sql.has_hash k d); reflexivity.
Qed.


Lemma find_link_filtered (k : str) (rows : list link_row) :
  find (fun r => String.eqb (short_id r) k)
       (filter (fun x => negb (String.eqb (short_id x) k)) rows) = None.
Proof.
  induction rows as [|x rows IH]; simpl; [reflexivity|].
  destruct (String.eqb (short_id x) k) eqn:E; simpl; [exact IH|].
  rewrite E. exact IH.
Qed.

Lemma links_of_filtered (k : str) (who : Z) (rows : list link_row) :
  ~ In k (map fst
            (map (fun r => (short_id r, original_url r))
               (filter (fun r => Z.eqb (creator_id r) who)
                  (filter (fun x => negb (String.eqb (short_id x) k)) rows)))).
Proof.
  rewrite map_map. simpl. intros Hin. apply in_map_iff in Hin.
  destruct Hin as (x & Hx & Hin).
  apply filter_In in Hin. destruct Hin as (Hin & _).
  apply filter_In in Hin. destruct Hin as (_ & Hne).
  rewrite Hx, String.eqb_refl in Hne. discriminate.
Qed.

Lemma count_hash_fresh (k : str) (rows : list hash_row) :
  existsb (fun r => String.eqb (hash_id r) k) rows = false ->
  filter (fun h => String.eqb (hash_id h) k) rows = [].
Proof.
  induction rows as [|x rows IH]; simpl; [reflexivity|].
  destruct (String.eqb (hash_id x) k); simpl; [discriminate | exact IH].
Qed.

(** *** Delete *)

(** C2, as the code has it: for a short id [k] of the link store for
    which no DeletedLinkHash row is recorded yet, Delete removes [k] from
    Resolve and from every ListByCreator, and adds exactly one
    DeletedLinkHash row keyed [k], whose digest is the SHA-256 hex digest
    of the link's URL and whose creator is the link's creator. *)
Theorem delete_removes_and_records
  (c : callback_query) (d : DB) (l : task G) (k : str) (r : link_row) :
  delete_target c = Some k ->
  Sql.find_link k d = Some r ->
  Sql.has_hash k d = false ->
  exists d' l',
    run (delete_link_callback c) d l = (Ok tt, d', l')
    /\ Sql.select_url k d' = None
    /\ (forall who, ~ In k (map fst (Sql.links_of who d')))
    /\ deleted_links_hash d' =
       deleted_links_hash d ++
       [HashRow k (SHA256.hexdigest (Py.encode (original_url r))) (clock l)
                (creator_id r)]
    /\ List.length (filter (fun h => String.eqb (hash_id h) k)
                           (deleted_links_hash d')) = 1%nat
    /\ sent l' = sent l ++ [CbDeleted; EditDeleted].
Proof.
  intros Hk Hr Hh. rewrite (run_delete c d l k Hk), Hr, Hh.
  eexists. eexists. split; [reflexivity|]. cbn.
  split; [|split; [|split; [|split]]].
  - unfold Sql.select_url, Sql.find_link. cbn.
    rewrite find_link_filtered. reflexivity.
  - intros who. apply links_of_filtered.
  - reflexivity.
  - rewrite filter_app, (count_hash_fresh k _ Hh). cbn.
    rewrite String.eqb_refl. reflexivity.
  - rewrite <- app_assoc. reflexivity.
Qed.


(** A Delete repeated at once, on the database the first one left, answers
    NotFound and leaves the database as it is. *)
Lemma delete_repeated_at_once
  (c c2 : callback_query) (d d1 : DB) (l l1 l2 : task G) :
  Py.startswith "del_" (data c) = true ->
  data c2 = data c ->
  run (delete_link_callback c) d l = (Ok tt, d1, l1) ->
  run (delete_link_callback c2) d1 l2 =
    (Ok tt, d1,
     Task None (rng l2) (clock l2) (bot_name l2) (sent l2 ++ [CbNotFound]))
  /\ deleted_links_hash (snd (fst (run (delete_link_callback c2) d1 l2)))
     = deleted_links_hash d1.
Proof.
  intros Hp Hdata Hrun.
  destruct (delete_target_defined c Hp) as (k & Hk).
  assert (Hk2 : delete_target c2 = Some k)
    by (unfold delete_target in *; rewrite Hdata; exact Hk).
  assert (Hgone : Sql.find_link k d1 = None).
  { rewrite (run_delete c d l k Hk) in Hrun.
    destruct (Sql.find_link k d) as [r|] eqn:Hr.
    - destruct (Sql.has_hash k d); [discriminate|].
      injection Hrun as <- _. unfold Sql.find_link. cbn.
      apply find_link_filtered.
    - injection Hrun as <- _. exact Hr. }
  rewrite (run_delete c2 d1 l2 k Hk2), Hgone. split; reflexivity.
Qed.

End HandlerFacts.

(** ** What a program cannot do when its events cannot *)

Section Frames.

Context {G : Type} `{RandomSource G}.
Variable validators_url : str -> bool.

Lemma all_events_bind (P : forall X : Type, eff X -> bool) {A B : Type}
      (p : prog A) (f : A -> prog B) :
  all_events P p -> (forall a, all_events P (f a)) -> all_events P (bind p f).
Proof.
  intros Hp Hf. induction Hp as [a | X e k He Hk IH]; simpl.
  - apply Hf.
  - constructor; [exact He | exact IH].
Qed.

Lemma all_events_call (P : forall X : Type, eff X -> bool) {X : Type} (e : eff X) :
  P X e = true -> all_events P (call e).
Proof. intros He. constructor; [exact He | intros x; constructor]. Qed.

Lemma all_events_raise (P : forall X : Type, eff X -> bool) {A : Type} (ex : exn) :
  P _ (Throw ex) = true -> all_events P (@raise A ex).
Proof. intros He. constructor; [exact He | intros []]. Qed.

Lemma all_events_item (P : forall X : Type, eff X -> bool) {A : Type}
      (i : nat) (l : list A) :
  P _ (Throw IndexError) = true -> all_events P (item i l).
Proof.
  intros Ht. unfold item. destruct (nth_error l i).
  - constructor.
  - apply all_events_raise, Ht.
Qed.

Lemma all_events_choice (P : forall X : Type, eff X -> bool) (seq : str) :
  (forall m, P _ (RandBelow m) = true) ->
  (forall ex, P _ (Throw ex) = true) ->
  all_events P (choice seq).
Proof.
  intros Hr Ht. unfold choice. destruct seq as [|a s].
  - apply all_events_raise, Ht.
  - apply all_events_bind.
    + apply all_events_call, Hr.
    + intros i. destruct (String.get i (String a s)).
      * constructor.
      * apply all_events_raise, Ht.
Qed.

Lemma all_events_generate_id (P : forall X : Type, eff X -> bool) (n : nat) :
  (forall m, P _ (RandBelow m) = true) ->
  (forall ex, P _ (Throw ex) = true) ->
  all_events P (generate_id n).
Proof.
  intros Hr Ht. unfold generate_id.
  induction n as [|n IH]; cbn [join_times]; [constructor|].
  apply all_events_bind; [apply all_events_choice; assumption|].
  intros c. apply all_events_bind; [exact IH | intros; constructor].
Qed.

(** A property of the stored database and the task that every permitted
    event and the loss of the transaction preserve holds after the run. *)
Lemma run_invariant (P : forall X : Type, eff X -> bool)
      (I : DB -> task G -> Prop) :
  (forall X (e : eff X) d l, P X e = true -> I d l ->
     I (snd (fst (exec e d l))) (snd (exec e d l))) ->
  (forall d l, I d l -> I d (set_txn None l)) ->
  forall {A : Type} (p : prog A) d l,
    all_events P p -> I d l ->
    I (snd (fst (run p d l))) (snd (run p d l)).
Proof.
  intros Hstep Hdrop A p d l Hp. revert d l.
  induction Hp as [a | X e k He Hk IH]; intros d l HI; simpl; [exact HI|].
  specialize (Hstep X e d l He HI).
  destruct (exec e d l) as [[[x | ex] d'] l']; simpl in *.
  - apply IH, Hstep.
  - apply Hdrop, Hstep.
Qed.

End Frames.

(** Proves [all_events P p] for a handler body [p]. *)
Ltac events :=
  repeat first
    [ apply all_events_bind
    | apply all_events_call; reflexivity
    | apply all_events_raise; reflexivity
    | apply all_events_item; reflexivity
    | apply all_events_generate_id; intros; reflexivity
    | apply all_ret
    | intro
    | match goal with
      | |- all_events _ (match ?x with _ => _ end) => destruct x
      | |- all_events _ (if ?x then _ else _) => destruct x
      end ].

(** ** Words, commands and routing *)

Lemma alnum_not_space (c : ascii) : alnum c = true -> Py.isspace c = false.
Proof.
  destruct c as [[] [] [] [] [] [] [] []]; intros Hc;
    solve [reflexivity | discriminate Hc].
Qed.

Lemma split_head (a : ascii) (s : str) :
  Py.isspace a = false -> exists w ws, Py.split (String a s) = String a w :: ws.
Proof.
  intros Ha. simpl. rewrite Ha. destruct s as [|b s']; [eauto|].
  destruct (Py.isspace b); [eauto|].
  destruct (Py.split (String b s')); eauto.
Qed.

Lemma split_word (s : str) :
  s <> EmptyString ->
  Forall (fun c => Py.isspace c = false) (Py.chars_of s) ->
  Py.split s = [s].
Proof.
  induction s as [|a s IH]; intros Hne Hall; [congruence|].
  inversion Hall as [|? ? Ha Hs]; subst.
  cbn [Py.split]. rewrite Ha. destruct s as [|b s']; [reflexivity|].
  inversion Hs as [|? ? Hb _]; subst. rewrite Hb.
  rewrite IH; [reflexivity | discriminate | exact Hs].
Qed.

Lemma split_start_word (w : str) :
  w <> EmptyString ->
  Forall (fun c => Py.isspace c = false) (Py.chars_of w) ->
  Py.split ("/start " ++ w) = ["/start"; w].
Proof.
  intros Hne Hall. pose proof (split_word w Hne Hall) as Hw.
  destruct w as [|a w]; [congruence|].
  inversion Hall as [|? ? Ha _]; subst.
  cbn -[Py.isspace]. cbn -[Py.isspace] in Hw. rewrite Ha in *.
  rewrite Hw. reflexivity.
Qed.

Lemma command_start_word (bot w : str) :
  w <> EmptyString ->
  Forall (fun c => Py.isspace c = false) (Py.chars_of w) ->
  command_filter "start" bot ("/start " ++ w) = true.
Proof.
  intros Hne Hall. unfold command_filter.
  rewrite (split_start_word w Hne Hall). reflexivity.
Qed.

Lemma url_prefix_head (t : str) :
  url_prefix_filter t = true -> exists s, t = String "h" s.
Proof.
  unfold url_prefix_filter. intros Hp. apply orb_prop in Hp.
  destruct Hp as [Hp | Hp]; apply startswith_app in Hp;
    destruct Hp as (rest & ->); eexists; reflexivity.
Qed.

(** A text the URL filter accepts is no command. *)
Lemma url_prefix_not_command (cmd bot t : str) :
  url_prefix_filter t = true -> command_filter cmd bot t = false.
Proof.
  intros Hp. destruct (url_prefix_head t Hp) as (s & ->).
  unfold command_filter.
  destruct (split_head "h" s eq_refl) as (w & ws & ->).
  destruct (Py.partition "@" w). reflexivity.
Qed.

Section StartAndSubmit.

Context {G : Type} `{RandomSource G}.
Variable validators_url : str -> bool.

(** [cmd_start] on a text of two words or more, in one equation. *)
Lemma run_start_arg (m : message) (d : DB) (l : task G) :
  (1 < List.length (Py.split (text m)))%nat ->
  exists k,
    nth_error (Py.split (text m)) 1 = Some k
    /\ run (cmd_start m) d l =
       (Ok tt, d,
        Task None (rng l) (clock l) (bot_name l)
             (sent l ++ [match Sql.select_url k d with
                         | Some url => LinkReady url
                         | None => LinkMissing
                         end])).
Proof.
  intros Hlen. unfold cmd_start.
  destruct (Nat.ltb_spec 1 (List.length (Py.split (text m)))) as [_ | Hle]; [|lia].
  destruct (Py.split (text m)) as [|w0 [|k ws]]; simpl in Hlen; try lia.
  exists k. split; [reflexivity|]. cbn.
  destruct (Sql.select_url k d); reflexivity.
Qed.

Lemma stored_states_start_arg (m : message) (d : DB) (l : task G) :
  (1 < List.length (Py.split (text m)))%nat ->
  stored_states (cmd_start m) d l = [d; d; d; d; d].
Proof.
  intros Hlen. unfold cmd_start.
  destruct (Nat.ltb_spec 1 (List.length (Py.split (text m)))) as [_ | Hle]; [|lia].
  destruct (Py.split (text m)) as [|w0 [|k ws]]; simpl in Hlen; try lia.
  cbn. destruct (Sql.select_url k d); reflexivity.
Qed.

(** [create_link] on a text whose stripped form validates, in one equation. *)
Lemma run_create_link (m : message) (d : DB) (l : task G) :
  validators_url (Py.strip (text m)) = true ->
  exists id g,
    run (generate_id default_length) d l = (Ok id, d, set_rng g l)
    /\ String.length id = 12%nat
    /\ Forall (fun c => alnum c = true) (Py.chars_of id)
    /\ run (create_link validators_url m) d l =
       if Sql.has_link id d
       then (Raised (IntegrityError "short_links.short_id"), d,
             Task None g (clock l) (bot_name l) (sent l))
       else (Ok tt,
             MkDB (meta_data d) (user d)
                  (short_links d ++
                   [LinkRow id (Py.strip (text m)) (user_id (from_user m)) None
                            (clock l)])
                  (folders d) (deleted_links_hash d),
             Task None g (clock l) (bot_name l)
                  (sent l ++
                   [Shortened (Py.strip (text m))
                              ("https://t.me/" ++ bot_name l ++ "?start=" ++ id)])).
Proof.
  intros Hv.
  destruct (run_generate_id default_length d l) as (id & g & Hrun & Hlen & Hall).
  exists id, g. repeat split; try assumption.
  unfold create_link. rewrite Hv. cbn [negb]. rewrite run_bind, Hrun.
  cbn. unfold write, Sql.insert_link. cbn.
  destruct (Sql.has_link id d); reflexivity.
Qed.

Lemma run_create_link_invalid (m : message) (d : DB) (l : task G) :
  validators_url (Py.strip (text m)) = false ->
  run (create_link validators_url m) d l =
  (Ok tt, d, Task (txn l) (rng l) (clock l) (bot_name l) (sent l ++ [BadUrl])).
Proof. intros Hv. unfold create_link. rewrite Hv. reflexivity. Qed.

End StartAndSubmit.

(** ** What the handlers leave alone *)

Lemma find_app_some {A : Type} (p : A -> bool) (l l' : list A) (r : A) :
  find p l = Some r -> find p (l ++ l') = Some r.
Proof.
  induction l as [|x l IH]; simpl; [discriminate|].
  destruct (p x); [trivial | exact IH].
Qed.

Lemma find_filter_keep {A : Type} (p q : A -> bool) (l : list A) :
  (forall x, p x = true -> q x = true) ->
  find p (filter q l) = find p l.
Proof.
  intros Hpq. induction l as [|x l IH]; simpl; [reflexivity|].
  destruct (q x) eqn:Hq; simpl.
  - destruct (p x); [reflexivity | exact IH].
  - destruct (p x) eqn:Hp; [|exact IH].
    rewrite (Hpq x Hp) in Hq. discriminate.
Qed.

Section Preservation.

Context {G : Type} `{RandomSource G}.
Variable validators_url : str -> bool.

Ltac write_case E :=
  unfold write;
  match goal with
  | |- context [match ?f (view ?d ?l) with _ => _ end] =>
      destruct (f (view d l)) as [v | ex] eqn:E
  end.

Lemma exec_keeps_link (k : str) (r : link_row) {X : Type} (e : eff X)
      (d : DB) (l : task G) :
  keeps k X e = true -> holds_link k r d l ->
  holds_link k r (snd (fst (exec e d l))) (snd (exec e d l)).
Proof.
  unfold holds_link. intros Hk [Hd Hv].
  destruct e; cbn [exec keeps] in *;
    try (cbn; split; assumption);
    try (write_case E; cbn; [|split; assumption]; split; [assumption|]).
  - (* InsertMeta *)
    unfold Sql.insert_meta in E. destruct (Sql.has_meta _ _); inversion E; subst.
    exact Hv.
  - (* InsertUser *)
    unfold Sql.insert_user in E. destruct (Sql.has_user _ _); inversion E; subst.
    exact Hv.
  - (* InsertLink *)
    unfold Sql.insert_link in E. destruct (Sql.has_link _ _); inversion E; subst.
    unfold Sql.find_link in *. cbn. apply find_app_some, Hv.
  - (* InsertDeleted *)
    unfold Sql.insert_deleted in E. destruct (Sql.has_hash _ _); inversion E; subst.
    exact Hv.
  - (* DeleteLink *)
    unfold write. cbn. split; [assumption|].
    unfold Sql.find_link in *. cbn.
    rewrite find_filter_keep; [exact Hv|].
    intros x Hx. apply String.eqb_eq in Hx. rewrite Hx.
    destruct (String.eqb k k0) eqn:Ek; [|reflexivity].
    apply String.eqb_eq in Ek. subst k0.
    rewrite String.eqb_refl in Hk. discriminate.
  - (* InsertFolder *)
    unfold Sql.insert_folder in E. destruct (Sql.has_folder _ _); inversion E; subst.
    exact Hv.
Qed.

Lemma route_keeps (k bot : str) (u : update) (p : prog unit) :
  deletes k u = false ->
  route validators_url bot u = Some p ->
  all_events (keeps k) p.
Proof.
  intros Hnd Hroute. destruct u as [m | c]; unfold route in Hroute.
  - repeat match type of Hroute with
           | (if ?b then _ else _) = _ => destruct b
           end; inversion Hroute; subst; clear Hroute.
    + unfold cmd_start. events.
    + unfold create_link. events.
    + unfold list_links. events.
    + unfold cmd_folders. events.
  - unfold deletes in Hnd.
    destruct (Py.startswith "del_" (data c)) eqn:Hp.
    + inversion Hroute; subst; clear Hroute.
      unfold delete_link_callback, item. unfold delete_target in Hnd.
      destruct (nth_error (Py.split_on "_" (data c)) 1) as [k'|];
        [|unfold raise; cbn [bind]; constructor; [reflexivity | intros []]].
      cbn [andb] in Hnd. cbn [bind].
      assert (Hdel : keeps k unit (DeleteLink k') = true)
        by (cbn; rewrite Hnd; reflexivity).
      repeat first
        [ apply all_events_bind
        | apply all_events_call; first [reflexivity | exact Hdel]
        | apply all_ret
        | intro
        | match goal with
          | |- all_events _ (match ?x with _ => _ end) => destruct x
          end ].
    + destruct (String.eqb (data c) "create_folder_work"); inversion Hroute; subst.
      unfold create_folder_example. events.
Qed.

(** An update that is not a press of the delete button of [k] leaves the
    row of [k] in place. *)
Lemma db_after_keeps (k : str) (r : link_row) (u : update) (e : env G) (d : DB) :
  deletes k u = false ->
  Sql.find_link k d = Some r ->
  Sql.find_link k (db_after validators_url u e d) = Some r.
Proof.
  intros Hnd Hd. unfold db_after, handle.
  destruct (route validators_url (me e) u) as [p|] eqn:Hroute; [|exact Hd].
  apply (run_invariant (keeps k) (holds_link k r)).
  - intros X ev d0 l0. apply exec_keeps_link.
  - intros d0 l0 [H1 _]. split; exact H1.
  - exact (route_keeps k (me e) u p Hnd Hroute).
  - split; exact Hd.
Qed.

Lemma feed_keeps (k : str) (r : link_row) (us : list (update * env G)) (d : DB) :
  Forall (fun ue => deletes k (fst ue) = false) us ->
  Sql.find_link k d = Some r ->
  Sql.find_link k (feed validators_url us d) = Some r.
Proof.
  revert d. induction us as [|[u e] us IH]; intros d Hall Hd; [exact Hd|].
  inversion Hall as [|? ? Hu Hus]; subst. cbn [feed].
  apply IH; [exact Hus|]. apply db_after_keeps; assumption.
Qed.

Lemma exec_links_untouched (L : list link_row) {X : Type} (e : eff X)
      (d : DB) (l : task G) :
  no_link_write X e = true -> links_untouched L d l ->
  links_untouched L (snd (fst (exec e d l))) (snd (exec e d l)).
Proof.
  unfold links_untouched. intros Hk (Hd & Hv & Hs).
  destruct e; cbn [exec no_link_write] in *; try discriminate;
    try (cbn; repeat split; assumption);
    try (write_case E; cbn; [|repeat split; assumption];
         split; [assumption|]; split; [|assumption]).
  - unfold Sql.insert_meta in E. destruct (Sql.has_meta _ _); inversion E; subst.
    exact Hv.
  - unfold Sql.insert_user in E. destruct (Sql.has_user _ _); inversion E; subst.
    exact Hv.
  - unfold Sql.insert_deleted in E. destruct (Sql.has_hash _ _); inversion E; subst.
    exact Hv.
  - unfold Sql.insert_folder in E. destruct (Sql.has_folder _ _); inversion E; subst.
    exact Hv.
  - repeat split; try assumption. cbn. intros Hin.
    apply in_app_or in Hin. destruct Hin as [Hin | [Hr | []]]; [exact (Hs Hin)|].
    subst r. discriminate.
Qed.

Lemma route_no_link_write (bot : str) (m : message) (p : prog unit) :
  url_prefix_filter (text m) = false ->
  route validators_url bot (UMessage m) = Some p ->
  all_events no_link_write p.
Proof.
  intros Hf Hroute. unfold route in Hroute. rewrite Hf in Hroute.
  repeat match type of Hroute with
         | (if ?b then _ else _) = _ => destruct b
         end; inversion Hroute; subst; clear Hroute.
  - unfold cmd_start. events.
  - unfold list_links. events.
  - unfold cmd_folders. events.
Qed.

End Preservation.

(** ** The claims about start, submit and delete *)

Lemma find_app_fresh {A : Type} (p : A -> bool) (l : list A) (x : A) :
  existsb p l = false -> p x = true -> find p (l ++ [x]) = Some x.
Proof.
  intros Hl Hx. induction l as [|y l IH]; simpl in *.
  - rewrite Hx. reflexivity.
  - apply orb_false_elim in Hl. destruct Hl as (Hy & Hl).
    rewrite Hy. exact (IH Hl).
Qed.

Lemma length12_nonempty (s : str) : String.length s = 12%nat -> s <> EmptyString.
Proof. intros Hl ->. discriminate Hl. Qed.

Section Claims.

Context {G : Type} `{RandomSource G}.
Variable validators_url : str -> bool.

(** C1: a message the submit handler accepts (the URL filter passes and the
    stripped text validates) draws a 12-character id; unless that id is
    already taken, in which case the insert raises and nothing is returned,
    the handler answers with the deep link of that id, and from then on, as
    long as no update presses the delete button of that id, a start action
    carrying the id is answered with exactly the submitted URL. *)
Theorem shortened_link_resolves (m : message) (e : env G) (d : DB) :
  url_prefix_filter (text m) = true ->
  validators_url (Py.strip (text m)) = true ->
  exists id,
    String.length id = 12%nat
    /\ ((Sql.has_link id d = true
         /\ fst (fst (handle validators_url (UMessage m) e d))
            = Raised (IntegrityError "short_links.short_id")
         /\ db_after validators_url (UMessage m) e d = d
         /\ replies validators_url (UMessage m) e d = [])
        \/
        (Sql.has_link id d = false
         /\ fst (fst (handle validators_url (UMessage m) e d)) = Ok tt
         /\ replies validators_url (UMessage m) e d
            = [Shortened (Py.strip (text m))
                         ("https://t.me/" ++ me e ++ "?start=" ++ id)]
         /\ forall (us : list (update * env G)) (who : tg_user) (e' : env G),
              Forall (fun ue => deletes id (fst ue) = false) us ->
              handle validators_url (UMessage (Message who ("/start " ++ id))) e'
                     (feed validators_url us
                           (db_after validators_url (UMessage m) e d))
              = (Ok tt,
                 feed validators_url us
                      (db_after validators_url (UMessage m) e d),
                 Task None (seed e') (time e') (me e')
                      [LinkReady (Py.strip (text m))]))).
Proof.
  intros Hf Hv.
  destruct (run_create_link validators_url m d (start_task e) Hv)
    as (id & g & _ & Hlen & Hall & Hrun).
  exists id. split; [exact Hlen|].
  assert (Hroute : route validators_url (me e) (UMessage m)
                   = Some (create_link validators_url m)).
  { unfold route. rewrite (url_prefix_not_command _ _ _ Hf), Hf. reflexivity. }
  unfold replies, db_after, handle. rewrite Hroute, Hrun.
  destruct (Sql.has_link id d) eqn:Hhas.
  - left. repeat split.
  - right. split; [reflexivity|]. split; [reflexivity|]. split; [reflexivity|].
    intros us who e' Hus. cbn [fst snd].
    set (row := LinkRow id (Py.strip (text m)) (user_id (from_user m)) None
                        (clock (start_task e))).
    set (d1 := MkDB _ _ _ _ _).
    assert (Hfind : Sql.find_link id (feed validators_url us d1) = Some row).
    { apply feed_keeps; [exact Hus|]. unfold Sql.find_link, d1. cbn.
      apply find_app_fresh; [exact Hhas | apply String.eqb_refl]. }
    assert (Hne : id <> EmptyString) by (apply length12_nonempty, Hlen).
    assert (Hns : Forall (fun c => Py.isspace c = false) (Py.chars_of id))
      by (eapply Forall_impl; [|exact Hall]; apply alnum_not_space).
    unfold route. cbn [text]. rewrite (command_start_word _ id Hne Hns).
    destruct (run_start_arg (Message who ("/start " ++ id))
                (feed validators_url us d1) (start_task e'))
      as (k & Hk & Hstart).
    { cbn [text]. rewrite (split_start_word id Hne Hns). simpl. lia. }
    cbn [text] in Hk. rewrite (split_start_word id Hne Hns) in Hk.
    injection Hk as <-. rewrite Hstart.
    unfold Sql.select_url. rewrite Hfind. reflexivity.
Qed.

(** C6, as the code has it: a message whose stripped text fails
    [validators.url] never adds a ShortLink row.  If it begins with
    http:// or https:// it reaches the submit handler, which answers with
    the invalid-format reply and changes nothing; if it does not (as
    not-a-url), the dispatcher never calls the submit handler and no
    invalid-format reply is sent. *)
Theorem invalid_url_rejected (m : message) (e : env G) (d : DB) :
  validators_url (Py.strip (text m)) = false ->
  (url_prefix_filter (text m) = true ->
   handle validators_url (UMessage m) e d
   = (Ok tt, d, Task None (seed e) (time e) (me e) [BadUrl]))
  /\ (url_prefix_filter (text m) = false ->
      short_links (db_after validators_url (UMessage m) e d) = short_links d
      /\ ~ In BadUrl (replies validators_url (UMessage m) e d))
  /\ run (create_link validators_url m) d (start_task e)
     = (Ok tt, d, Task None (seed e) (time e) (me e) [BadUrl]).
Proof.
  intros Hv. split; [|split].
  - intros Hf. unfold handle, route.
    rewrite (url_prefix_not_command _ _ _ Hf), Hf.
    apply run_create_link_invalid, Hv.
  - intros Hf. unfold db_after, replies, handle.
    destruct (route validators_url (me e) (UMessage m)) as [p|] eqn:Hroute.
    + pose proof (run_invariant no_link_write (links_untouched (short_links d))
                    (fun X ev d0 l0 => exec_links_untouched (short_links d) ev d0 l0)
                    (fun d0 l0 HI => match HI with
                                     | conj H1 (conj _ H3) => conj H1 (conj H1 H3)
                                     end)
                    p d (start_task e)
                    (route_no_link_write validators_url (me e) m p Hf Hroute))
        as Hinv.
      destruct Hinv as (H1 & _ & H3).
      * repeat split. intros [].
      * split; assumption.
    + split; [reflexivity | intros []].
  - apply (run_create_link_invalid validators_url m d (start_task e) Hv).
Qed.

(** C7: neither a start action with an argument nor a delete press looks at
    who sent it: for any two senders the handler returns the same result,
    leaves the same database and sends the same replies. *)
Theorem no_authorization_check
  (who1 who2 : tg_user) (t token : str) (d : DB) (l : task G) :
  (1 < List.length (Py.split t))%nat ->
  run (cmd_start (Message who1 t)) d l = run (cmd_start (Message who2 t)) d l
  /\ run (delete_link_callback (CallbackQuery who1 token)) d l
     = run (delete_link_callback (CallbackQuery who2 token)) d l.
Proof.
  intros Hlen. split; [|reflexivity].
  destruct (run_start_arg (Message who1 t) d l Hlen) as (k1 & Hk1 & ->).
  destruct (run_start_arg (Message who2 t) d l Hlen) as (k2 & Hk2 & ->).
  cbn [text] in Hk1, Hk2. rewrite Hk1 in Hk2. injection Hk2 as <-. reflexivity.
Qed.

(** C10: a start action whose text has an argument returns before the
    registration step: for a sender who is not in the User table the run
    ends normally with the database as it was, at no moment with another
    User or Metadata table, and the sender is still not registered; the one
    reply is the link or the not-found message. *)
Theorem start_with_argument_registers_nobody (m : message) (d : DB) (l : task G) :
  (1 < List.length (Py.split (text m)))%nat ->
  Sql.has_user (user_id (from_user m)) d = false ->
  fst (fst (run (cmd_start m) d l)) = Ok tt
  /\ snd (fst (run (cmd_start m) d l)) = d
  /\ Forall (fun s => user s = user d /\ meta_data s = meta_data d)
            (stored_states (cmd_start m) d l)
  /\ Sql.has_user (user_id (from_user m)) (snd (fst (run (cmd_start m) d l)))
     = false
  /\ exists k,
       nth_error (Py.split (text m)) 1 = Some k
       /\ sent (snd (run (cmd_start m) d l))
          = sent l ++ [match Sql.select_url k d with
                       | Some url => LinkReady url
                       | None => LinkMissing
                       end].
Proof.
  intros Hlen Hnew.
  rewrite (stored_states_start_arg m d l Hlen).
  destruct (run_start_arg m d l Hlen) as (k & Hk & ->). cbn [fst snd sent].
  repeat split; try assumption.
  - repeat constructor.
  - exists k. split; [exact Hk | reflexivity].
Qed.

End Claims.

(** ** The claims on concrete runs *)

Lemma shortened_link_resolves_witness :
  url_prefix_filter "https://example.com/page" = true
  /\ Demo.validator (Py.strip "https://example.com/page") = true
  /\ exists id,
       String.length id = 12%nat
       /\ ((Sql.has_link id empty_db = true
            /\ fst (fst (handle Demo.validator Demo.submit Demo.env1 empty_db))
               = Raised (IntegrityError "short_links.short_id")
            /\ db_after Demo.validator Demo.submit Demo.env1 empty_db = empty_db
            /\ replies Demo.validator Demo.submit Demo.env1 empty_db = [])
           \/
           (Sql.has_link id empty_db = false
            /\ fst (fst (handle Demo.validator Demo.submit Demo.env1 empty_db))
               = Ok tt
            /\ replies Demo.validator Demo.submit Demo.env1 empty_db
               = [Shortened (Py.strip "https://example.com/page")
                            ("https://t.me/" ++ "shortbot" ++ "?start=" ++ id)]
            /\ forall (us : list (update * env (list nat))) (who : tg_user)
                      (e' : env (list nat)),
                 Forall (fun ue => deletes id (fst ue) = false) us ->
                 handle Demo.validator
                        (UMessage (Message who ("/start " ++ id))) e'
                        (feed Demo.validator us
                              (db_after Demo.validator Demo.submit Demo.env1
                                        empty_db))
                 = (Ok tt,
                    feed Demo.validator us
                         (db_after Demo.validator Demo.submit Demo.env1 empty_db),
                    Task None (seed e') (time e') (me e')
                         [LinkReady (Py.strip "https://example.com/page")]))).
Proof.
  split; [reflexivity|]. split; [reflexivity|].
  apply (@shortened_link_resolves (list nat) scripted Demo.validator
           (Message Demo.alice "https://example.com/page") Demo.env1 empty_db);
    reflexivity.
Defined.

(** The run the witness is about, spelled out. *)
Example submit_then_open :
  handle Demo.validator Demo.submit Demo.env1 empty_db
  = (Ok tt,
     MkDB [] []
          [LinkRow "dE3abc98ABCD" "https://example.com/page" 1001 None
                   "2024-01-01T10:00:00"] [] [],
     Task None [] "2024-01-01T10:00:00" "shortbot"
          [Shortened "https://example.com/page"
                     "https://t.me/shortbot?start=dE3abc98ABCD"])
  /\ replies Demo.validator Demo.open_link Demo.env2
             (db_after Demo.validator Demo.submit Demo.env1 empty_db)
     = [LinkReady "https://example.com/page"].
Proof. split; reflexivity. Qed.

Lemma delete_removes_and_records_witness :
  let d := db_after Demo.validator Demo.submit Demo.env1 empty_db in
  let c := CallbackQuery Demo.bob "del_dE3abc98ABCD" in
  let r := LinkRow "dE3abc98ABCD" "https://example.com/page" 1001 None
                   "2024-01-01T10:00:00" in
  delete_target c = Some "dE3abc98ABCD"
  /\ Sql.find_link "dE3abc98ABCD" d = Some r
  /\ Sql.has_hash "dE3abc98ABCD" d = false
  /\ exists d' l',
       run (delete_link_callback c) d (start_task Demo.env2) = (Ok tt, d', l')
       /\ Sql.select_url "dE3abc98ABCD" d' = None
       /\ (forall who, ~ In "dE3abc98ABCD" (map fst (Sql.links_of who d')))
       /\ deleted_links_hash d' =
          deleted_links_hash d ++
          [HashRow "dE3abc98ABCD"
                   (SHA256.hexdigest (Py.encode (original_url r)))
                   (clock (start_task Demo.env2)) (creator_id r)]
       /\ List.length (filter (fun h => String.eqb (hash_id h) "dE3abc98ABCD")
                              (deleted_links_hash d')) = 1%nat
       /\ sent l' = sent (start_task Demo.env2) ++ [CbDeleted; EditDeleted].
Proof.
  cbv zeta. split; [reflexivity|]. split; [reflexivity|]. split; [reflexivity|].
  apply (@delete_removes_and_records (list nat) scripted
           (CallbackQuery Demo.bob "del_dE3abc98ABCD")
           (db_after Demo.validator Demo.submit Demo.env1 empty_db)
           (start_task Demo.env2) "dE3abc98ABCD"); reflexivity.
Defined.

(** C2 fails as stated: after a link is deleted and the generator draws the
    same id again for a new link, the id is in the link store, and Delete
    on it raises on the second hash row; the link is still resolved. *)
Lemma delete_after_reissue_raises :
  let d := feed Demo.validator
             [(Demo.submit, Demo.env1); (Demo.press, Demo.env2);
              (Demo.submit, Demo.env1)] empty_db in
  Sql.select_url "dE3abc98ABCD" d = Some "https://example.com/page"
  /\ Sql.has_hash "dE3abc98ABCD" d = true
  /\ handle Demo.validator Demo.press Demo.env2 d
     = (Raised (IntegrityError "deleted_links_hash.hash_id"), d,
        start_task Demo.env2)
  /\ Sql.select_url "dE3abc98ABCD" (db_after Demo.validator Demo.press Demo.env2 d)
     = Some "https://example.com/page"
  /\ In "dE3abc98ABCD"
        (map fst (Sql.links_of 1001 (db_after Demo.validator Demo.press Demo.env2 d))).
Proof. vm_compute. repeat split. left. reflexivity. Qed.


(** C6 fails as stated: the text not-a-url fails validation, but no filter
    accepts it, so the submit handler is never called and the sender gets
    no reply at all (whatever [validators.url] is). *)
Lemma not_a_url_gets_no_reply :
  Demo.validator (Py.strip "not-a-url") = false
  /\ url_prefix_filter "not-a-url" = false
  /\ handle Demo.validator (UMessage (Message Demo.alice "not-a-url"))
            Demo.env1 empty_db
     = (Ok tt, empty_db, start_task Demo.env1)
  /\ (forall v : str -> bool,
        replies v (UMessage (Message Demo.alice "not-a-url")) Demo.env1 empty_db
        = []).
Proof. repeat split. Qed.

Lemma invalid_url_rejected_witness :
  let m := Message Demo.alice "https://exa mple.com" in
  Demo.validator (Py.strip (text m)) = false
  /\ (url_prefix_filter (text m) = true ->
      handle Demo.validator (UMessage m) Demo.env1 empty_db
      = (Ok tt, empty_db,
         Task None (seed Demo.env1) (time Demo.env1) (me Demo.env1) [BadUrl]))
  /\ (url_prefix_filter (text m) = false ->
      short_links (db_after Demo.validator (UMessage m) Demo.env1 empty_db)
      = short_links empty_db
      /\ ~ In BadUrl (replies Demo.validator (UMessage m) Demo.env1 empty_db))
  /\ run (create_link Demo.validator m) empty_db (start_task Demo.env1)
     = (Ok tt, empty_db,
        Task None (seed Demo.env1) (time Demo.env1) (me Demo.env1) [BadUrl]).
Proof.
  cbv zeta. split; [reflexivity|].
  apply (@invalid_url_rejected (list nat) scripted Demo.validator
           (Message Demo.alice "https://exa mple.com") Demo.env1 empty_db).
  reflexivity.
Defined.

Lemma no_authorization_check_witness :
  let d := db_after Demo.validator Demo.submit Demo.env1 empty_db in
  let l := start_task Demo.env2 in
  (1 < List.length (Py.split "/start dE3abc98ABCD"))%nat
  /\ run (cmd_start (Message Demo.alice "/start dE3abc98ABCD")) d l
     = run (cmd_start (Message Demo.bob "/start dE3abc98ABCD")) d l
  /\ run (delete_link_callback (CallbackQuery Demo.alice "del_dE3abc98ABCD")) d l
     = run (delete_link_callback (CallbackQuery Demo.bob "del_dE3abc98ABCD")) d l.
Proof.
  cbv zeta. split; [simpl; lia|].
  apply (@no_authorization_check (list nat) scripted Demo.alice Demo.bob
           "/start dE3abc98ABCD" "del_dE3abc98ABCD"
           (db_after Demo.validator Demo.submit Demo.env1 empty_db)
           (start_task Demo.env2)).
  simpl. lia.
Defined.

(** Bob, who did not create the link, deletes it all the same. *)
Example stranger_deletes :
  let d := db_after Demo.validator Demo.submit Demo.env1 empty_db in
  map creator_id (short_links d) = [1001%Z]
  /\ user_id Demo.bob = 2002%Z
  /\ short_links (db_after Demo.validator Demo.press Demo.env2 d) = []
  /\ replies Demo.validator Demo.press Demo.env2 d = [CbDeleted; EditDeleted].
Proof. repeat split. Qed.

Lemma start_with_argument_registers_nobody_witness :
  let m := Message Demo.bob "/start dE3abc98ABCD" in
  let d := db_after Demo.validator Demo.submit Demo.env1 empty_db in
  let l := start_task Demo.env2 in
  (1 < List.length (Py.split (text m)))%nat
  /\ Sql.has_user (user_id (from_user m)) d = false
  /\ fst (fst (run (cmd_start m) d l)) = Ok tt
  /\ snd (fst (run (cmd_start m) d l)) = d
  /\ Forall (fun s => user s = user d /\ meta_data s = meta_data d)
            (stored_states (cmd_start m) d l)
  /\ Sql.has_user (user_id (from_user m)) (snd (fst (run (cmd_start m) d l)))
     = false
  /\ exists k,
       nth_error (Py.split (text m)) 1 = Some k
       /\ sent (snd (run (cmd_start m) d l))
          = sent l ++ [match Sql.select_url k d with
                       | Some url => LinkReady url
                       | None => LinkMissing
                       end].
Proof.
  cbv zeta. split; [simpl; lia|]. split; [reflexivity|].
  apply (@start_with_argument_registers_nobody (list nat) scripted
           (Message Demo.bob "/start dE3abc98ABCD")
           (db_after Demo.validator Demo.submit Demo.env1 empty_db)
           (start_task Demo.env2)); [simpl; lia | reflexivity].
Defined.

(** For contrast: the same sender without an argument is registered. *)
Example start_without_argument_registers :
  db_after Demo.validator (UMessage (Message Demo.bob "/start")) Demo.env1 empty_db
  = MkDB [MetaRow "dE3abc98ABCD" "Unknown" "2024-01-01T10:00:00"
                  "Mobile/Desktop" "In-App Telegram"]
         [UserRow 2002 None "Bob" "dE3abc98ABCD"] [] [] [].
Proof. reflexivity. Qed.

(** ** Concurrent registrations *)

Lemma split_at {A : Type} (l : list A) (i : nat) (a : A) :
  nth_error l i = Some a -> l = firstn i l ++ a :: skipn (S i) l.
Proof.
  revert i. induction l as [|x l IH]; intros [|i] Hn; simpl in *; try discriminate.
  - injection Hn as ->. reflexivity.
  - f_equal. apply IH, Hn.
Qed.

Lemma existsb_filter_nil {A : Type} (f : A -> bool) (l : list A) :
  existsb f l = false <-> filter f l = [].
Proof.
  induction l as [|x l IH]; simpl; [tauto|].
  destruct (f x); simpl; [split; discriminate | exact IH].
Qed.

Section Registration.

Context {G : Type} `{RandomSource G}.
Variable u : Z.
Variable d0 : DB.

Lemma follows_bind_pure {A : Type} (ph : phase) (p : prog A) (f : A -> prog unit) :
  all_events pure_event p ->
  (forall a, follows u ph (f a)) ->
  follows u ph (bind p f).
Proof.
  intros Hp Hf. induction Hp as [a | X e k He Hk IH]; cbn [bind].
  - apply Hf.
  - apply (follows_vis u ph ph); [|exact IH].
    destruct e; try discriminate He; reflexivity.
Qed.

Lemma follows_bind_pure2 {A B : Type} (ph : phase) (p : prog A)
      (g : A -> prog B) (f : B -> prog unit) :
  all_events pure_event p ->
  (forall a, follows u ph (bind (g a) f)) ->
  follows u ph (bind (bind p g) f).
Proof.
  intros Hp Hf. induction Hp as [a | X e k He Hk IH]; cbn [bind].
  - apply Hf.
  - apply (follows_vis u ph ph); [|exact IH].
    destruct e; try discriminate He; reflexivity.
Qed.

Ltac phases :=
  repeat first
    [ apply follows_ret
    | match goal with
      | x : Empty_set |- _ => destruct x
      | |- follows _ _ (bind (generate_id _) _) =>
          apply follows_bind_pure;
          [apply all_events_generate_id; intros; reflexivity | intro]
      | |- follows _ _ (bind (bind (generate_id _) _) _) =>
          apply follows_bind_pure2;
          [apply all_events_generate_id; intros; reflexivity | intro]
      | |- follows _ _ (match ?x with _ => _ end) => destruct x
      | |- follows _ _ (bind (match ?x with _ => _ end) _) => destruct x
      | |- follows _ _ (call _) => unfold call
      | |- follows _ _ (raise _) => unfold raise
      | |- follows _ _ (Vis _ _) =>
          eapply follows_vis;
          [first [reflexivity
                 | cbn; match goal with Hu : _ = u |- _ => rewrite Hu end;
                   rewrite Z.eqb_refl; reflexivity] | intro]
      end
    | progress cbn [bind call raise] ].

(** [cmd_start] for a message of [u] does nothing but register [u]. *)
Lemma follows_cmd_start (m : message) :
  user_id (from_user m) = u -> follows u Idle (cmd_start m).
Proof.
  intros Hu. unfold cmd_start.
  destruct (1 <? List.length (Py.split (text m)))%nat.
  - unfold item. destruct (nth_error (Py.split (text m)) 1); phases.
  - phases.
Qed.

Lemma has_user_with_user (r : user_row) (d : DB) :
  telegram_id r = u -> Sql.has_user u (with_user r d) = true.
Proof.
  intros Hr. unfold Sql.has_user, with_user. cbn.
  rewrite existsb_app. cbn. rewrite Hr, Z.eqb_refl.
  rewrite orb_true_r. reflexivity.
Qed.

(** One turn of a thread keeps the invariant, changes the stored
    database only if the thread held the write transaction, and leaves the
    thread holding one only if no other thread does. *)
Lemma step_thread_inv (busy : bool) (d : DB) (t : thread G) :
  registered_once u d0 d -> thread_ok u d t ->
  (busy = true -> holds_txn t = false) ->
  registered_once u d0 (fst (step_thread busy d t))
  /\ thread_ok u (fst (step_thread busy d t)) (snd (step_thread busy d t))
  /\ (fst (step_thread busy d t) = d \/ holds_txn t = true)
  /\ (holds_txn (snd (step_thread busy d t)) = true -> busy = false).
Proof.
  intros HG Hok Hbusy.
  destruct t as [[p | r] l]; unfold thread_ok in Hok; cbn [state own] in Hok.
  2: { cbn. unfold holds_txn. cbn. rewrite Hok.
       repeat split; auto; discriminate. }
  destruct Hok as (ph & Hf & Hph).
  destruct Hf as [a | ph ph' X e k Hnext Hk].
  { cbn in *. unfold holds_txn, thread_ok. cbn. rewrite Hph.
    repeat split; auto; discriminate. }
  assert (Hb : holds_txn (Thread (Running (Vis e k)) l) = true -> busy = false).
  { intros Hh. destruct busy; [|reflexivity].
    rewrite (Hbusy eq_refl) in Hh. discriminate. }
  clear Hbusy. unfold holds_txn in *. cbn [own] in *.
  unfold step_thread. cbn [state own]. unfold holds_txn. cbn [own].
  destruct e; cbn [next_phase] in Hnext; destruct ph; try discriminate Hnext;
    try (destruct (Z.eqb_spec (telegram_id r) u) as [Hr|]; [|discriminate Hnext]);
    injection Hnext as <-; cbn [is_write andb negb exec].
  (* reads, draws, the clock, replies: the phase stays *)
  all: try (unfold thread_ok; cbn; repeat split; auto; eauto; fail).
  (* Connect and Close: no transaction afterwards *)
  all: try (cbn [fst snd own txn set_txn]; split; [exact HG|];
            split; [exists Idle; split; [apply Hk | reflexivity]|];
            split; [left; reflexivity | discriminate]).
  (* an exception ends the thread *)
  all: try (cbn; split; [exact HG|]; split; [reflexivity|];
            split; [left; reflexivity | discriminate]).
  - (* InsertMeta, no transaction yet *)
    cbn [phase_ok] in Hph. unfold write, view. rewrite Hph. cbn [negb andb].
    destruct busy.
    + cbn. split; [exact HG|]. split.
      * exists Idle. split; [|exact Hph].
        apply (follows_vis u Idle HasMeta); [reflexivity | exact Hk].
      * split; [left; reflexivity | rewrite Hph; discriminate].
    + unfold Sql.insert_meta. destruct (Sql.has_meta (meta_id r) d); cbn.
      * split; [exact HG|]. split; [reflexivity|].
        split; [left; reflexivity | discriminate].
      * split; [exact HG|]. split.
        -- exists HasMeta. split; [apply Hk | exists r; reflexivity].
        -- split; [left; reflexivity | reflexivity].
  - (* InsertUser, after the Metadata row *)
    destruct Hph as (m & Htx). unfold write, view. rewrite Htx in *.
    cbn [negb andb]. unfold Sql.insert_user.
    destruct (Sql.has_user (telegram_id r) (with_meta m d)) eqn:Hhas; cbn.
    + split; [exact HG|]. split; [reflexivity|].
      split; [left; reflexivity | discriminate].
    + split; [exact HG|]. split.
      * exists HasBoth. split; [apply Hk|]. exists m, r.
        split; [exact Hr|]. split; [rewrite <- Hr; exact Hhas | reflexivity].
      * split; [left; reflexivity | intros _; apply Hb; reflexivity].
  - (* Commit, after both rows *)
    destruct Hph as (m & r & Hr & Hnew & Htx). unfold view. rewrite Htx. cbn.
    split.
    + destruct HG as [-> | (m' & r' & Hr' & _ & ->)].
      * right. exists m, r. auto.
      * rewrite (has_user_with_user r' _ Hr') in Hnew. discriminate.
    + split; [exists Idle; split; [apply Hk | reflexivity]|].
      split; [right; reflexivity | discriminate].
Qed.

(** A thread without a transaction does not care what is stored. *)
Lemma thread_ok_idle (d d' : DB) (t : thread G) :
  holds_txn t = false -> thread_ok u d t -> thread_ok u d' t.
Proof.
  unfold holds_txn, thread_ok. destruct (state t) as [p | r]; [|trivial].
  intros Hn (ph & Hf & Hph). exists ph. split; [exact Hf|].
  destruct ph; cbn in *.
  - exact Hph.
  - destruct Hph as (m & Htx). rewrite Htx in Hn. discriminate.
  - destruct Hph as (m & r & _ & _ & Htx). rewrite Htx in Hn. discriminate.
Qed.

Lemma filter_nil_forall {A : Type} (f : A -> bool) (l : list A) :
  filter f l = [] -> Forall (fun x => f x = false) l.
Proof.
  induction l as [|x l IH]; simpl; intros Hf; [constructor|].
  destruct (f x) eqn:Hx; [discriminate|]. constructor; auto.
Qed.

(** A turn of any thread keeps the invariant. *)
Lemma step_ok (i : nat) (s : sys G) : sys_ok u d0 s -> sys_ok u d0 (step i s).
Proof.
  destruct s as [d ts]. unfold sys_ok, step. cbn [fst snd].
  intros (HG & Hall & Hone).
  destruct (nth_error ts i) as [t|] eqn:Hn; [|cbn; auto].
  pose proof (split_at ts i t Hn) as Hts.
  set (l1 := firstn i ts) in *. set (l2 := skipn (S i) ts) in *.
  rewrite Hts in Hall, Hone. clear Hts Hn. clearbody l1 l2.
  rewrite filter_app in Hone. cbn [filter] in Hone.
  apply Forall_app in Hall. destruct Hall as (Hl1 & Hall).
  inversion Hall as [|? ? Ht Hl2]; subst. clear Hall.
  assert (Hbusy : existsb holds_txn (l1 ++ l2) = true -> holds_txn t = false).
  { intros Hex. destruct (holds_txn t); [|reflexivity].
    rewrite length_app in Hone. cbn [List.length] in Hone.
    assert (Hnil : filter holds_txn (l1 ++ l2) = []).
    { rewrite filter_app.
      destruct (filter holds_txn l1); [|cbn in Hone; lia].
      destruct (filter holds_txn l2); [reflexivity | cbn in Hone; lia]. }
    apply (proj2 (existsb_filter_nil holds_txn (l1 ++ l2))) in Hnil.
    congruence. }
  destruct (step_thread_inv (existsb holds_txn (l1 ++ l2)) d t HG Ht Hbusy)
    as (HG' & Ht' & Hsame & Hfree).
  destruct (step_thread (existsb holds_txn (l1 ++ l2)) d t) as [d' t'].
  cbn [fst snd] in *. split; [exact HG'|].
  assert (Hothers : d' = d \/ filter holds_txn (l1 ++ l2) = []).
  { destruct Hsame as [-> | Hh]; [left; reflexivity | right].
    rewrite Hh in Hone. rewrite length_app in Hone. cbn [List.length] in Hone.
    rewrite filter_app.
    destruct (filter holds_txn l1); [|cbn in Hone; lia].
    destruct (filter holds_txn l2); [reflexivity | cbn in Hone; lia]. }
  split.
  - apply Forall_app. destruct Hothers as [-> | Hnil].
    + split; [exact Hl1 | constructor; assumption].
    + apply filter_nil_forall, Forall_app in Hnil. destruct Hnil as (Hn1 & Hn2).
      split; [|constructor; [exact Ht'|]].
      * rewrite Forall_forall in *. intros x Hx.
        apply (thread_ok_idle d d' x (Hn1 x Hx) (Hl1 x Hx)).
      * rewrite Forall_forall in *. intros x Hx.
        apply (thread_ok_idle d d' x (Hn2 x Hx) (Hl2 x Hx)).
  - rewrite filter_app. cbn [filter]. destruct (holds_txn t') eqn:Hh'.
    + specialize (Hfree eq_refl).
      apply (proj1 (existsb_filter_nil holds_txn (l1 ++ l2))) in Hfree.
      rewrite filter_app in Hfree. apply app_eq_nil in Hfree.
      destruct Hfree as (-> & ->). cbn. lia.
    + rewrite length_app in *. destruct (holds_txn t); cbn in Hone; lia.
Qed.

Lemma sched_ok (order : list nat) (s : sys G) :
  sys_ok u d0 s -> sys_ok u d0 (sched order s).
Proof.
  revert s. induction order as [|i order IH]; intros s Hs; [exact Hs|].
  cbn [sched]. apply IH, step_ok, Hs.
Qed.

Lemma spawn_ok (ms : list (message * env G)) :
  Forall (fun me => user_id (from_user (fst me)) = u) ms ->
  sys_ok u d0 (d0, spawn ms).
Proof.
  intros Hms. unfold sys_ok. cbn [fst snd]. split; [left; reflexivity|].
  induction Hms as [|me ms Hme _ IH]; cbn.
  - split; [constructor | lia].
  - destruct IH as (Hall & Hone). split; [|exact Hone].
    constructor; [|exact Hall].
    exists Idle. split; [apply follows_cmd_start, Hme | reflexivity].
Qed.

End Registration.

(** C8, as the code has it: however the start actions of one platform id
    are interleaved, and however many there are, the stored database is at
    every moment the initial one or the initial one with exactly one
    Metadata row and one User row of that id added, the latter only if the
    id was not registered before: registration happens at most once, and an
    attempt that loses the race commits nothing. *)
Theorem concurrent_registration_once
  (G : Type) (RS : RandomSource G) (u : Z) (d0 : DB)
  (ms : list (message * env G)) (order : list nat) :
  Forall (fun me => user_id (from_user (fst me)) = u) ms ->
  fst (sched order (d0, spawn ms)) = d0
  \/ exists m r,
       telegram_id r = u /\ Sql.has_user u d0 = false
       /\ fst (sched order (d0, spawn ms)) = with_user r (with_meta m d0).
Proof.
  intros Hms.
  destruct (sched_ok u d0 order (d0, spawn ms) (spawn_ok u d0 ms Hms))
    as (HG & _ & _).
  exact HG.
Qed.


Lemma concurrent_registration_once_witness :
  Forall (fun me : message * env (list nat) =>
            user_id (from_user (fst me)) = 2002%Z)
         [(Message Demo.bob "/start", Demo.env1);
          (Message Demo.bob "/start", Demo.env2)]
  /\ (fst (sched ([0; 0; 1; 1] ++ repeat 0 19 ++ repeat 1 15)%nat
                 (empty_db,
                  spawn [(Message Demo.bob "/start", Demo.env1);
                         (Message Demo.bob "/start", Demo.env2)])) = empty_db
      \/ exists m r,
           telegram_id r = 2002%Z /\ Sql.has_user 2002 empty_db = false
           /\ fst (sched ([0; 0; 1; 1] ++ repeat 0 19 ++ repeat 1 15)%nat
                         (empty_db,
                          spawn [(Message Demo.bob "/start", Demo.env1);
                                 (Message Demo.bob "/start", Demo.env2)]))
              = with_user r (with_meta m empty_db)).
Proof.
  split; [repeat constructor|].
  apply (concurrent_registration_once (list nat) scripted 2002 empty_db
           [(Message Demo.bob "/start", Demo.env1);
            (Message Demo.bob "/start", Demo.env2)]
           ([0; 0; 1; 1] ++ repeat 0 19 ++ repeat 1 15)%nat).
  repeat constructor.
Defined.

(** C8 fails as stated: two start actions of one unregistered id, the
    second looking the id up before the first has committed.  Both find no
    User row; the first registers and is welcomed; the second then runs into
    the primary key of the User table: its handler ends with an
    IntegrityError and sends nothing.  One User row and one Metadata row
    are stored. *)
Lemma concurrent_registration_conflict :
  let s := sched ([0; 0; 1; 1] ++ repeat 0 19 ++ repeat 1 15)%nat
                 (empty_db,
                  spawn [(Message Demo.bob "/start", Demo.env1);
                         (Message Demo.bob "/start", Demo.env2)]) in
  map state (snd s)
  = [Finished (Ok tt); Finished (Raised (IntegrityError "user.telegram_id"))]
  /\ map (fun t => sent (own t)) (snd s) = [[Welcome]; []]
  /\ user (fst s) = [UserRow 2002 None "Bob" "dE3abc98ABCD"]
  /\ map meta_id (meta_data (fst s)) = ["dE3abc98ABCD"].
Proof. vm_compute. repeat split. Qed.

(* ===================================================================== *)
(** * Further properties of the handlers *)

(** ** Stored states along a run *)

Lemma find_none_existsb {A : Type} (p : A -> bool) (l : list A) :
  find p l = None <-> existsb p l = false.
Proof.
  induction l as [|x l IH]; simpl; [tauto|].
  destruct (p x); simpl; [split; discriminate | exact IH].
Qed.

Section Stored.

Context {G : Type} `{RandomSource G}.

Lemma exec_no_commit {X : Type} (e : eff X) (d : DB) (l : task G) :
  no_commit X e = true -> snd (fst (exec e d l)) = d.
Proof.
  intros He. destruct e; try discriminate He; cbn [exec]; try reflexivity;
    unfold write;
    match goal with
    | |- context [match ?t with Ok _ => _ | Raised _ => _ end] => destruct t
    end; reflexivity.
Qed.

(** Before its first commit a program has stored nothing. *)
Lemma stored_states_no_commit {A : Type} (p : prog A) (d : DB) (l : task G) :
  all_events no_commit p ->
  Forall (fun s => s = d) (stored_states p d l)
  /\ snd (fst (run p d l)) = d.
Proof.
  intros Hp. revert l. induction Hp as [a | X e k He Hk IH]; intros l.
  - split; [repeat constructor | reflexivity].
  - cbn [stored_states run]. pose proof (exec_no_commit e d l He) as Hd.
    destruct (exec e d l) as [[[x | ex] d'] l']; cbn [fst snd] in Hd; subst d'.
    + destruct (IH x l') as (Hall & Hrun). split; [constructor; auto | exact Hrun].
    + split; [repeat constructor | reflexivity].
Qed.

(** The stored states of [p] followed by [f]: those of [p], then those of
    [f] on what [p] returned, if it returned. *)
Lemma stored_states_bind {A B : Type} (p : prog A) (f : A -> prog B)
      (d : DB) (l : task G) :
  stored_states (bind p f) d l =
  match run p d l with
  | (Ok a, d', l') => stored_states p d l ++ tl (stored_states (f a) d' l')
  | (Raised _, _, _) => stored_states p d l
  end.
Proof.
  revert d l. induction p as [a | X e k IH]; intros d l.
  - cbn [bind run stored_states]. destruct (f a); reflexivity.
  - cbn [bind run stored_states].
    destruct (exec e d l) as [[[x | ex] d'] l']; [|reflexivity].
    rewrite IH. destruct (run (k x) d' l') as [[[a | ex] d''] l'']; reflexivity.
Qed.

Lemma Forall_tl {A : Type} (P : A -> Prop) (l : list A) :
  Forall P l -> Forall P (tl l).
Proof. intros Hl. destruct Hl; [constructor | assumption]. Qed.

(** A program that only draws and raises runs alike on every database. *)
Lemma run_pure_any_db {A : Type} (p : prog A) :
  all_events pure_event p ->
  forall (d d' : DB) (l : task G),
    fst (fst (run p d l)) = fst (fst (run p d' l))
    /\ snd (run p d l) = snd (run p d' l).
Proof.
  intros Hp. induction Hp as [a | X e k He Hk IH]; intros d d' l.
  - split; reflexivity.
  - destruct e; try discriminate He; cbn.
    + apply IH.
    + split; reflexivity.
Qed.

(** Whatever the database, [generate_id()] on the task [l] returns
    [drawn_id l], twelve letters and digits. *)
Lemma drawn_id_run (d : DB) (l : task G) :
  exists g,
    run (generate_id default_length) d l = (Ok (drawn_id l), d, set_rng g l)
    /\ String.length (drawn_id l) = 12%nat
    /\ Forall (fun c => alnum c = true) (Py.chars_of (drawn_id l)).
Proof.
  destruct (run_generate_id default_length d l) as (id & g & Hrun & Hlen & Hall).
  destruct (run_generate_id default_length empty_db l) as (id0 & g0 & Hrun0 & _).
  assert (Hpure : all_events pure_event (generate_id default_length))
    by (apply all_events_generate_id; intros; reflexivity).
  destruct (run_pure_any_db _ Hpure d empty_db l) as (Hres & _).
  rewrite Hrun, Hrun0 in Hres. cbn in Hres. injection Hres as <-.
  unfold drawn_id. rewrite Hrun0. exists g. auto.
Qed.

End Stored.

(** ** The identifier generator at any length *)

(** X1: whatever length is asked, [generate_id] returns a string of
    exactly that length over the 62 letters and digits, changes nothing but
    the random source and stores nothing; with length 0 it returns the empty
    string and does not draw. *)
Theorem generate_id_any_length
  (G : Type) (RS : RandomSource G) (n : nat) (d : DB) (l : task G) :
  (exists id g,
     run (generate_id n) d l = (Ok id, d, set_rng g l)
     /\ String.length id = n
     /\ Forall (fun c => In c alphabet) (Py.chars_of id))
  /\ Forall (fun s => s = d) (stored_states (generate_id n) d l)
  /\ run (generate_id 0) d l = (Ok EmptyString, d, l).
Proof.
  split; [|split].
  - destruct (run_join_times n (ascii_letters ++ digits)%string d l)
      as (id & g & Hrun & Hlen & Hall); [discriminate|].
    exists id, g. auto.
  - apply stored_states_no_commit.
    apply all_events_generate_id; intros; reflexivity.
  - reflexivity.
Qed.

(** ** Registration *)

Section Register.

Context {G : Type} `{RandomSource G}.

Lemma no_argument_branch (m : message) :
  (List.length (Py.split (text m)) <= 1)%nat ->
  (1 <? List.length (Py.split (text m)))%nat = false.
Proof. intros Hle. apply Nat.ltb_ge. exact Hle. Qed.

(** [cmd_start] on a text without argument, in one equation. *)
Lemma run_start_noarg (m : message) (d : DB) (l : task G) :
  (List.length (Py.split (text m)) <= 1)%nat ->
  exists m_id g,
    run (generate_id default_length) d (set_txn None l)
    = (Ok m_id, d, set_rng g (set_txn None l))
    /\ String.length m_id = 12%nat
    /\ run (cmd_start m) d l =
       if Sql.has_user (user_id (from_user m)) d
       then (Ok tt, d,
             Task None (rng l) (clock l) (bot_name l) (sent l ++ [Welcome]))
       else if Sql.has_meta m_id d
       then (Raised (IntegrityError "meta_data.id"), d,
             Task None g (clock l) (bot_name l) (sent l))
       else (Ok tt,
             with_user (UserRow (user_id (from_user m))
                                (user_username (from_user m))
                                (full_name (from_user m)) m_id)
                       (with_meta (MetaRow m_id "Unknown" (clock l)
                                           "Mobile/Desktop" "In-App Telegram") d),
             Task None g (clock l) (bot_name l) (sent l ++ [Welcome])).
Proof.
  intros Hle.
  destruct (run_generate_id default_length d (set_txn None l))
    as (m_id & g & Hgen & Hlen & _).
  exists m_id, g. split; [exact Hgen|]. split; [exact Hlen|].
  unfold cmd_start. rewrite (no_argument_branch m Hle).
  rewrite run_bind.
  change (run (call Connect) d l) with (Ok tt, d, set_txn None l).
  cbv beta iota. rewrite run_bind.
  change (run (call (SelectUser (user_id (from_user m)))) d (set_txn None l))
    with (Ok (Sql.select_user (user_id (from_user m)) d), d, set_txn None l).
  cbv beta iota. unfold Sql.select_user.
  destruct (Sql.find_user (user_id (from_user m)) d) as [r|] eqn:Hf.
  - assert (Hhas : Sql.has_user (user_id (from_user m)) d = true).
    { unfold Sql.has_user, Sql.find_user in *.
      destruct (existsb _ (user d)) eqn:E; [reflexivity|].
      apply find_none_existsb in E. congruence. }
    rewrite Hhas. reflexivity.
  - assert (Hhas : Sql.has_user (user_id (from_user m)) d = false)
      by (apply find_none_existsb, Hf).
    rewrite Hhas. cbn [option_map]. rewrite run_bind, run_bind, Hgen.
    cbn. unfold write, Sql.insert_meta. cbn.
    destruct (Sql.has_meta m_id d); [reflexivity|]. cbn.
    unfold Sql.insert_user. cbn.
    unfold Sql.has_user in *. cbn. rewrite Hhas. reflexivity.
Qed.

(** X2: a start action without argument from a sender who is not in the
    User table takes the id [generate_id()] draws on the call's random
    source, twelve characters, for the Metadata row.  If that id is taken,
    the insert raises, nothing is stored and nothing is sent.  Otherwise
    exactly two rows are added, the Metadata row under that id with the
    placeholder values and the time of the call, and the User row of the
    sender that refers to it, and the sender is welcomed. *)
Theorem start_registers_new_user (m : message) (e : env G) (d : DB) :
  (List.length (Py.split (text m)) <= 1)%nat ->
  Sql.has_user (user_id (from_user m)) d = false ->
  (exists g,
     run (generate_id default_length) d (start_task e)
     = (Ok (drawn_id (start_task e)), d, set_rng g (start_task e)))
  /\ String.length (drawn_id (start_task e)) = 12%nat
  /\ ((Sql.has_meta (drawn_id (start_task e)) d = true
       /\ fst (fst (run (cmd_start m) d (start_task e)))
          = Raised (IntegrityError "meta_data.id")
       /\ snd (fst (run (cmd_start m) d (start_task e))) = d
       /\ sent (snd (run (cmd_start m) d (start_task e))) = [])
      \/
      (Sql.has_meta (drawn_id (start_task e)) d = false
       /\ fst (fst (run (cmd_start m) d (start_task e))) = Ok tt
       /\ snd (fst (run (cmd_start m) d (start_task e)))
          = MkDB (meta_data d ++
                  [MetaRow (drawn_id (start_task e)) "Unknown" (time e)
                           "Mobile/Desktop" "In-App Telegram"])
                 (user d ++
                  [UserRow (user_id (from_user m)) (user_username (from_user m))
                           (full_name (from_user m)) (drawn_id (start_task e))])
                 (short_links d) (folders d) (deleted_links_hash d)
       /\ sent (snd (run (cmd_start m) d (start_task e))) = [Welcome])).
Proof.
  intros Hle Hnew.
  destruct (drawn_id_run d (start_task e)) as (g0 & Hdrawn & Hlen & _).
  split; [exists g0; exact Hdrawn|]. split; [exact Hlen|].
  destruct (run_start_noarg m d (start_task e) Hle) as (m_id & g & Hgen & _ & ->).
  change (set_txn None (start_task e)) with (start_task e) in Hgen.
  rewrite Hdrawn in Hgen. injection Hgen as <- _.
  rewrite Hnew.
  destruct (Sql.has_meta (drawn_id (start_task e)) d).
  - left. repeat split.
  - right. repeat split.
Qed.



(** X4: registration is all or nothing.  While [cmd_start] runs, whatever
    the message, the stored database is at every moment either the one it
    started from or that one with one Metadata row and the User row that
    refers to it both added; it is never stored with one of the two rows
    alone. *)
Theorem registration_is_atomic (m : message) (d : DB) (l : task G) :
  Forall (fun s =>
            s = d
            \/ exists mr ur,
                 meta_data_id ur = meta_id mr
                 /\ telegram_id ur = user_id (from_user m)
                 /\ s = with_user ur (with_meta mr d))
         (stored_states (cmd_start m) d l).
Proof.
  destruct (Nat.leb_spec (List.length (Py.split (text m))) 1) as [Hle | Hgt].
  - unfold cmd_start. rewrite (no_argument_branch m Hle).
    rewrite stored_states_bind.
    change (run (call Connect) d l) with (Ok tt, d, set_txn None l).
    cbv beta iota. apply Forall_app. split; [repeat constructor|].
    apply Forall_tl. rewrite stored_states_bind.
    change (run (call (SelectUser (user_id (from_user m)))) d (set_txn None l))
      with (Ok (Sql.select_user (user_id (from_user m)) d), d, set_txn None l).
    cbv beta iota. apply Forall_app. split; [repeat constructor|].
    apply Forall_tl.
    destruct (Sql.select_user (user_id (from_user m)) d) as [k|] eqn:Hsel.
    + cbn. repeat constructor.
    + rewrite stored_states_bind, run_bind.
      rewrite (stored_states_bind (generate_id default_length)).
      destruct (run_generate_id default_length d (set_txn None l))
        as (m_id & g & Hgen & _ & _).
      rewrite Hgen. cbv beta iota.
      assert (Hquiet : Forall (fun s => s = d)
                         (stored_states (generate_id default_length) d
                                        (set_txn None l))).
      { apply stored_states_no_commit.
        apply all_events_generate_id; intros; reflexivity. }
      assert (Hd : forall s, s = d ->
                 s = d \/ exists mr ur,
                   meta_data_id ur = meta_id mr
                   /\ telegram_id ur = user_id (from_user m)
                   /\ s = with_user ur (with_meta mr d)) by (intros; left; assumption).
      remember (stored_states (generate_id default_length) d (set_txn None l))
        as pre eqn:Hpre. clear Hpre Hgen.
      cbn. unfold write, Sql.insert_meta. cbn.
      destruct (Sql.has_meta m_id d); cbn;
        [|unfold Sql.insert_user; cbn; destruct (existsb _ (user d)); cbn];
        repeat (apply Forall_app; split);
        try (eapply Forall_impl; [exact Hd | exact Hquiet]);
        repeat (apply Forall_cons;
                [first [left; reflexivity
                       | right; eexists; eexists;
                         (split; [|split; [|reflexivity]]); reflexivity]|]);
        apply Forall_nil.
  - rewrite (stored_states_start_arg m d l Hgt). repeat constructor.
Qed.

End Register.

(** ** Listing and deleting links *)

Section Listing.

Context {G : Type} `{RandomSource G}.
Variable validators_url : str -> bool.

(** [list_links] in one equation. *)
Lemma run_list_links (m : message) (d : DB) (l : task G) :
  run (list_links m) d l =
  (Ok tt, d,
   Task None (rng l) (clock l) (bot_name l)
        (sent l ++
         [match filter (fun r => Z.eqb (creator_id r) (user_id (from_user m)))
                       (short_links d) with
          | [] => NoLinks
          | mine => LinkList (map item_of mine)
          end])).
Proof.
  unfold list_links. cbn. unfold Sql.links_of.
  destruct (filter _ (short_links d)) as [|r mine]; [reflexivity|].
  cbn [map]. cbn. rewrite map_map. reflexivity.
Qed.

(** [cmd_folders] in one equation. *)
Lemma run_cmd_folders (m : message) (d : DB) (l : task G) :
  run (cmd_folders m) d l =
  (Ok tt, d,
   Task None (rng l) (clock l) (bot_name l)
        (sent l ++
         [match Sql.folders_of (user_id (from_user m)) d with
          | [] => NoFolders "create_folder_work"
          | fs => FolderList fs
          end])).
Proof.
  unfold cmd_folders. cbn.
  destruct (Sql.folders_of (user_id (from_user m)) d); reflexivity.
Qed.

(** X5: [/my_links] answers with exactly the sender's links, in table
    order: the lines shown are those of the rows of the link table whose
    creator is the sender, one line per row and in the order of the table.
    Each line carries the first 30 characters of the URL, the id, and a
    button whose token is "del_" + id, a token the delete filter accepts.
    Without such rows the answer is the no-links text.  The database is
    never changed. *)
Theorem my_links_shows_own_links (m : message) (d : DB) (l : task G) :
  run (list_links m) d l =
  (Ok tt, d,
   Task None (rng l) (clock l) (bot_name l)
        (sent l ++
         [match filter (fun r => Z.eqb (creator_id r) (user_id (from_user m)))
                       (short_links d) with
          | [] => NoLinks
          | r :: rows =>
              LinkList
                (map (fun x => LinkItem (String.substring 0 30 (original_url x))
                                        (short_id x) ("del_" ++ short_id x))
                     (r :: rows))
          end]))
  /\ (forall r,
        In r (filter (fun r => Z.eqb (creator_id r) (user_id (from_user m)))
                     (short_links d))
        <-> In r (short_links d) /\ creator_id r = user_id (from_user m))
  /\ (forall r, Py.startswith "del_" ("del_" ++ short_id r) = true)
  /\ Forall (fun s => s = d) (stored_states (list_links m) d l).
Proof.
  split; [|split; [|split]].
  - rewrite run_list_links. destruct (filter _ (short_links d)); reflexivity.
  - intros r. rewrite filter_In, Z.eqb_eq. reflexivity.
  - intros r. reflexivity.
  - apply stored_states_no_commit. unfold list_links. events.
Qed.

Lemma token_of_plain_id (k : str) :
  Forall (fun c => Ascii.eqb c "_" = false) (Py.chars_of k) ->
  delete_target (CallbackQuery (TgUser 0 None "") ("del_" ++ k)) = Some k.
Proof.
  intros Hk. unfold delete_target. cbn [data].
  rewrite split_on_del_prefix, (split_on_absent "_" k Hk). reflexivity.
Qed.

Lemma button_deletes (r : link_row) (who : tg_user) (e : env G) (d : DB) :
  Sql.find_link (short_id r) d = Some r ->
  Forall (fun c => Ascii.eqb c "_" = false) (Py.chars_of (short_id r)) ->
  Sql.has_hash (short_id r) d = false ->
  handle validators_url
         (UCallback (CallbackQuery who (callback_data (item_of r)))) e d
  = (Ok tt, deleted_db (short_id r) r (time e) d,
     Task None (seed e) (time e) (me e) [CbDeleted; EditDeleted]).
Proof.
  intros Hr Hplain Hhash. unfold handle, route. cbn [data item_of callback_data].
  change (Py.startswith "del_" ("del_" ++ short_id r)) with true. cbv iota.
  rewrite (run_delete (CallbackQuery who ("del_" ++ short_id r)) d
                      (start_task e) (short_id r)).
  - rewrite Hr, Hhash. reflexivity.
  - exact (token_of_plain_id (short_id r) Hplain).
Qed.

(** X6: the button [/my_links] shows for a link deletes that link from
    the store, whoever presses it, provided the id contains no underscore
    (no generated id does) and no hash row is recorded for it yet: the
    update with the button's token goes to the delete handler, and the
    database it leaves is the former one without the row and with the hash
    row of the link. *)
Theorem listed_button_deletes_its_link
  (r : link_row) (who : tg_user) (e : env G) (d : DB) :
  Sql.find_link (short_id r) d = Some r ->
  Forall (fun c => Ascii.eqb c "_" = false) (Py.chars_of (short_id r)) ->
  Sql.has_hash (short_id r) d = false ->
  route validators_url (me e)
        (UCallback (CallbackQuery who (callback_data (item_of r))))
  = Some (delete_link_callback
            (CallbackQuery who (callback_data (item_of r))))
  /\ delete_target (CallbackQuery who (callback_data (item_of r)))
     = Some (short_id r)
  /\ db_after validators_url
              (UCallback (CallbackQuery who (callback_data (item_of r)))) e d
     = deleted_db (short_id r) r (time e) d.
Proof.
  intros Hr Hplain Hhash. split; [reflexivity|]. split.
  - exact (token_of_plain_id (short_id r) Hplain).
  - unfold db_after. rewrite (button_deletes r who e d Hr Hplain Hhash).
    reflexivity.
Qed.

Lemma find_other_after_filter (k k' : str) (rows : list link_row) :
  k' <> k ->
  find (fun r => String.eqb (short_id r) k')
       (filter (fun x => negb (String.eqb (short_id x) k)) rows)
  = find (fun r => String.eqb (short_id r) k') rows.
Proof.
  intros Hne. apply find_filter_keep. intros x Hx.
  apply String.eqb_eq in Hx. rewrite Hx.
  destruct (String.eqb_spec k' k); [contradiction | reflexivity].
Qed.

Lemma filter_filter_comm {A : Type} (f g : A -> bool) (l : list A) :
  filter f (filter g l) = filter g (filter f l).
Proof.
  induction l as [|x l IH]; simpl; [reflexivity|].
  destruct (f x) eqn:Hf, (g x) eqn:Hg; simpl; rewrite ?Hf, ?Hg, IH; reflexivity.
Qed.

(** X7: a delete press touches nothing but its own link.  Whatever the
    token and however the run ends, every other short id resolves as
    before, and the User, Metadata and Folder tables are as before; when
    the press deletes the link of [k], every creator's list is the former
    list without the rows of [k]. *)
Theorem delete_leaves_the_rest (c : callback_query) (d : DB) (l : task G) :
  let d' := snd (fst (run (delete_link_callback c) d l)) in
  (forall k', delete_target c <> Some k' ->
              Sql.find_link k' d' = Sql.find_link k' d)
  /\ user d' = user d /\ meta_data d' = meta_data d /\ folders d' = folders d
  /\ (forall k r, delete_target c = Some k -> Sql.find_link k d = Some r ->
        Sql.has_hash k d = false ->
        forall who,
          Sql.links_of who d'
          = filter (fun p => negb (String.eqb (fst p) k)) (Sql.links_of who d)).
Proof.
  cbv zeta. destruct (delete_target c) as [k|] eqn:Hk.
  - rewrite (run_delete c d l k Hk).
    destruct (Sql.find_link k d) as [r|] eqn:Hr;
      [destruct (Sql.has_hash k d) eqn:Hh|]; cbn [fst snd].
    + repeat split; try reflexivity. intros k0 r0 Hk0 _ Habs.
      injection Hk0 as <-. congruence.
    + split; [|repeat split].
      * intros k' Hne. unfold Sql.find_link. cbn.
        apply find_other_after_filter. congruence.
      * intros k0 r0 Hk0 _ _ who. injection Hk0 as <-.
        unfold Sql.links_of. cbn. rewrite filter_filter_comm.
        induction (filter _ (short_links d)) as [|x rows IH]; [reflexivity|].
        cbn. destruct (String.eqb (short_id x) k); cbn; [exact IH|].
        f_equal. exact IH.
    + repeat split; try reflexivity. intros k0 r0 Hk0 Hr0. injection Hk0 as <-.
      congruence.
  - unfold delete_link_callback, item. unfold delete_target in Hk. rewrite Hk.
    cbn. repeat split. intros k r Habs. discriminate.
Qed.

End Listing.

(** ** Submitting, listing, folders: how the handlers compose *)

Section Compose.

Context {G : Type} `{RandomSource G}.
Variable validators_url : str -> bool.

Lemma handle_submit (m : message) (e : env G) (d : DB) :
  url_prefix_filter (text m) = true ->
  handle validators_url (UMessage m) e d
  = run (create_link validators_url m) d (start_task e).
Proof.
  intros Hf. unfold handle, route.
  rewrite (url_prefix_not_command _ _ _ Hf), Hf. reflexivity.
Qed.

(** What a submission that went through has done. *)
Lemma submit_ok (m : message) (e : env G) (d : DB) :
  url_prefix_filter (text m) = true ->
  validators_url (Py.strip (text m)) = true ->
  fst (fst (handle validators_url (UMessage m) e d)) = Ok tt ->
  exists id,
    String.length id = 12%nat
    /\ Sql.has_link id d = false
    /\ db_after validators_url (UMessage m) e d
       = MkDB (meta_data d) (user d)
              (short_links d ++
               [LinkRow id (Py.strip (text m)) (user_id (from_user m)) None
                        (time e)])
              (folders d) (deleted_links_hash d)
    /\ replies validators_url (UMessage m) e d
       = [Shortened (Py.strip (text m))
                    ("https://t.me/" ++ me e ++ "?start=" ++ id)].
Proof.
  intros Hf Hv Hok. unfold db_after, replies.
  rewrite (handle_submit m e d Hf) in *.
  destruct (run_create_link validators_url m d (start_task e) Hv)
    as (id & g & _ & Hlen & _ & Hrun).
  rewrite Hrun in *. exists id.
  destruct (Sql.has_link id d); [discriminate Hok|].
  repeat split. exact Hlen.
Qed.

Lemma has_link_app (k : str) (x : link_row) (d : DB) :
  Sql.has_link k (MkDB (meta_data d) (user d) (short_links d ++ [x])
                       (folders d) (deleted_links_hash d))
  = Sql.has_link k d || String.eqb (short_id x) k.
Proof.
  unfold Sql.has_link. cbn. rewrite existsb_app. cbn.
  rewrite orb_false_r. reflexivity.
Qed.

(** X8: the same URL may be shortened any number of times.  When two
    submissions of one URL, by the same or by different senders, both go
    through, they return two different ids and both ids resolve to that
    URL: the URL column carries no uniqueness. *)
Theorem same_url_twice (m1 m2 : message) (e1 e2 : env G) (d : DB) :
  url_prefix_filter (text m1) = true ->
  url_prefix_filter (text m2) = true ->
  validators_url (Py.strip (text m1)) = true ->
  Py.strip (text m2) = Py.strip (text m1) ->
  fst (fst (handle validators_url (UMessage m1) e1 d)) = Ok tt ->
  fst (fst (handle validators_url (UMessage m2) e2
                   (db_after validators_url (UMessage m1) e1 d))) = Ok tt ->
  exists id1 id2,
    id1 <> id2
    /\ replies validators_url (UMessage m1) e1 d
       = [Shortened (Py.strip (text m1))
                    ("https://t.me/" ++ me e1 ++ "?start=" ++ id1)]
    /\ replies validators_url (UMessage m2) e2
               (db_after validators_url (UMessage m1) e1 d)
       = [Shortened (Py.strip (text m1))
                    ("https://t.me/" ++ me e2 ++ "?start=" ++ id2)]
    /\ Sql.select_url id1
         (db_after validators_url (UMessage m2) e2
                   (db_after validators_url (UMessage m1) e1 d))
       = Some (Py.strip (text m1))
    /\ Sql.select_url id2
         (db_after validators_url (UMessage m2) e2
                   (db_after validators_url (UMessage m1) e1 d))
       = Some (Py.strip (text m1)).
Proof.
  intros Hf1 Hf2 Hv1 Hsame Hok1 Hok2.
  assert (Hv2 : validators_url (Py.strip (text m2)) = true) by (rewrite Hsame; exact Hv1).
  destruct (submit_ok m1 e1 d Hf1 Hv1 Hok1) as (id1 & _ & Hfresh1 & Hd1 & Hr1).
  destruct (submit_ok m2 e2 _ Hf2 Hv2 Hok2) as (id2 & _ & Hfresh2 & Hd2 & Hr2).
  rewrite Hd1 in Hfresh2. rewrite has_link_app in Hfresh2. cbn [short_id] in Hfresh2.
  apply orb_false_elim in Hfresh2. destruct Hfresh2 as (Hfresh2 & Hne).
  exists id1, id2. split; [|split; [exact Hr1|split; [rewrite Hr2, Hsame; reflexivity|]]].
  - intros ->. rewrite String.eqb_refl in Hne. discriminate.
  - rewrite Hd2, Hd1. unfold Sql.select_url, Sql.find_link. cbn. split.
    + rewrite (find_app_some _ _ _ (LinkRow id1 (Py.strip (text m1))
                                            (user_id (from_user m1)) None (time e1))).
      * reflexivity.
      * apply find_app_fresh; [exact Hfresh1 | apply String.eqb_refl].
    + rewrite (find_app_fresh _ _ (LinkRow id2 (Py.strip (text m2))
                                           (user_id (from_user m2)) None (time e2))).
      * cbn. rewrite Hsame. reflexivity.
      * unfold Sql.has_link in Hfresh2. rewrite existsb_app. cbn.
        rewrite Hne. unfold Sql.has_link in Hfresh1.
        rewrite Hfresh2. reflexivity.
      * apply String.eqb_refl.
Qed.

(** X9: a link that was just shortened is in its creator's [/my_links]
    answer, with its id, the first 30 characters of its URL and the delete
    token of its id, and in nobody else's. *)
Theorem submitted_link_is_listed (m m' : message) (e : env G) (d : DB) (l' : task G) :
  url_prefix_filter (text m) = true ->
  validators_url (Py.strip (text m)) = true ->
  fst (fst (handle validators_url (UMessage m) e d)) = Ok tt ->
  exists id,
    replies validators_url (UMessage m) e d
    = [Shortened (Py.strip (text m))
                 ("https://t.me/" ++ me e ++ "?start=" ++ id)]
    /\ (user_id (from_user m') = user_id (from_user m) ->
        exists items,
          sent (snd (run (list_links m')
                         (db_after validators_url (UMessage m) e d) l'))
          = sent l' ++ [LinkList items]
          /\ In (LinkItem (Py.take 30 (Py.strip (text m))) id ("del_" ++ id))
                items)
    /\ (user_id (from_user m') <> user_id (from_user m) ->
        forall items,
          sent (snd (run (list_links m')
                         (db_after validators_url (UMessage m) e d) l'))
          = sent l' ++ [LinkList items] ->
          ~ In id (map shown_id items)).
Proof.
  intros Hf Hv Hok.
  destruct (submit_ok m e d Hf Hv Hok) as (id & _ & Hfresh & Hd1 & Hr).
  exists id. split; [exact Hr|]. rewrite Hd1, run_list_links. cbn [snd sent short_links].
  rewrite filter_app. cbn [filter creator_id]. split.
  - intros Hid. rewrite Hid, Z.eqb_refl.
    set (row := LinkRow id (Py.strip (text m)) (user_id (from_user m)) None (time e)).
    exists (map item_of (filter (fun r => Z.eqb (creator_id r) (user_id (from_user m)))
                                (short_links d) ++ [row])).
    split.
    + destruct (filter _ (short_links d)); reflexivity.
    + rewrite map_app. apply in_or_app. right. left. reflexivity.
  - intros Hid items Hsent.
    destruct (Z.eqb_spec (user_id (from_user m)) (user_id (from_user m')));
      [congruence|].
    rewrite app_nil_r in Hsent. apply app_inv_head in Hsent.
    destruct (filter _ (short_links d)) as [|x mine] eqn:Hmine; [discriminate|].
    injection Hsent as <-.
    change (item_of x :: map item_of mine) with (map item_of (x :: mine)).
    rewrite map_map. cbn [shown_id item_of].
    intros Hin. apply in_map_iff in Hin. destruct Hin as (r & Hrid & Hr_in).
    assert (Hr_rows : In r (short_links d)).
    { rewrite <- Hmine in Hr_in. apply filter_In in Hr_in. tauto. }
    unfold Sql.has_link in Hfresh.
    assert (Hex : existsb (fun r0 => String.eqb (short_id r0) id) (short_links d) = true).
    { apply existsb_exists. exists r. split; [exact Hr_rows|].
      rewrite Hrid. apply String.eqb_refl. }
    congruence.
Qed.

(** [create_folder_example] in one equation. *)
Lemma run_create_folder (c : callback_query) (d : DB) (l : task G) :
  exists f_id g,
    String.length f_id = 12%nat
    /\ run (create_folder_example c) d l =
       if Sql.has_folder f_id d
       then (Raised (IntegrityError "folders.folder_id"), d,
             Task None g (clock l) (bot_name l) (sent l))
       else (Ok tt,
             MkDB (meta_data d) (user d) (short_links d)
                  (folders d ++ [FolderRow f_id FolderWork (user_id (cb_from_user c))])
                  (deleted_links_hash d),
             Task None g (clock l) (bot_name l) (sent l ++ [FolderCreated f_id])).
Proof.
  destruct (run_generate_id default_length d l) as (f_id & g & Hgen & Hlen & _).
  exists f_id, g. split; [exact Hlen|].
  unfold create_folder_example. rewrite run_bind, Hgen.
  cbn. unfold write, Sql.insert_folder. cbn.
  destruct (Sql.has_folder f_id d); reflexivity.
Qed.


(** X11: [/folders] shows the sender's folders and nobody else's, and
    changes nothing.  For a sender without folders the answer offers one
    button, and the update that pressing it produces is handled by
    [create_folder_example]. *)
Theorem folders_lists_or_offers_button
  (m : message) (who : tg_user) (e : env G) (d : DB) (l : task G) :
  exists answer,
    run (cmd_folders m) d l
    = (Ok tt, d, Task None (rng l) (clock l) (bot_name l) (sent l ++ [answer]))
    /\ (Sql.folders_of (user_id (from_user m)) d = [] ->
        exists token,
          answer = NoFolders token
          /\ handle validators_url (UCallback (CallbackQuery who token)) e d
             = run (create_folder_example (CallbackQuery who token)) d
                   (start_task e))
    /\ (Sql.folders_of (user_id (from_user m)) d <> [] ->
        exists fs,
          answer = FolderList fs
          /\ forall k n, In (k, n) fs <->
               exists r, In r (folders d) /\ folder_key r = k /\ name r = n
                         /\ folder_creator_id r = user_id (from_user m)).
Proof.
  rewrite run_cmd_folders.
  destruct (Sql.folders_of (user_id (from_user m)) d) as [|f fs] eqn:Hfs.
  - eexists. split; [reflexivity|]. split; [|congruence].
    intros _. exists "create_folder_work". split; reflexivity.
  - eexists. split; [reflexivity|]. split; [discriminate|].
    intros _. exists (f :: fs). split; [reflexivity|].
    intros k n. rewrite <- Hfs. unfold Sql.folders_of. rewrite in_map_iff.
    split.
    + intros (r & Hr & Hin). apply filter_In in Hin. destruct Hin as (Hin & Hc).
      inversion Hr; subst. exists r. split; [exact Hin|].
      split; [reflexivity|].
      split; [destruct (name r), n; reflexivity | apply Z.eqb_eq, Hc].
    + intros (r & Hin & <- & <- & Hc). exists r. split; [reflexivity|].
      apply filter_In. split; [exact Hin | apply Z.eqb_eq, Hc].
Qed.

End Compose.

(** ** What holds of every update *)

Lemma grows_refl {A : Type} (l : list A) : grows l l.
Proof. exists []. symmetry. apply app_nil_r. Qed.

Lemma grows_snoc {A : Type} (l l' : list A) (x : A) :
  grows l l' -> grows l (l' ++ [x]).
Proof. intros (s & ->). exists (s ++ [x]). rewrite app_assoc. reflexivity. Qed.

Lemma all_events_any {A : Type} (p : prog A) : all_events any_event p.
Proof. induction p; constructor; auto. Qed.

Lemma nodup_snoc_fresh {A K : Type} (key : A -> K) (eqb : K -> K -> bool)
      (l : list A) (x : A) :
  (forall a b, eqb a b = true <-> a = b) ->
  NoDup (map key l) ->
  existsb (fun r => eqb (key r) (key x)) l = false ->
  NoDup (map key (l ++ [x])).
Proof.
  intros Heq Hnd Hfresh. rewrite map_app. cbn [map].
  induction l as [|y l IH]; cbn in *; [repeat constructor; intros []|].
  apply orb_false_elim in Hfresh. destruct Hfresh as (Hy & Hl).
  inversion Hnd as [|? ? Hnotin Hnd']; subst. constructor.
  - intros Hin. apply in_app_or in Hin. destruct Hin as [Hin | [Hx | []]].
    + exact (Hnotin Hin).
    + symmetry in Hx. apply Heq in Hx. congruence.
  - exact (IH Hnd' Hl).
Qed.

Lemma nodup_map_filter {A K : Type} (key : A -> K) (f : A -> bool) (l : list A) :
  NoDup (map key l) -> NoDup (map key (filter f l)).
Proof.
  induction l as [|y l IH]; cbn; intros Hnd; [constructor|].
  inversion Hnd as [|? ? Hnotin Hnd']; subst.
  destruct (f y); cbn; [|exact (IH Hnd')]. constructor; [|exact (IH Hnd')].
  intros Hin. apply Hnotin. apply in_map_iff in Hin.
  destruct Hin as (z & Hz & Hin). apply filter_In in Hin.
  apply in_map_iff. exists z. tauto.
Qed.

Section EveryUpdate.

Context {G : Type} `{RandomSource G}.
Variable validators_url : str -> bool.

Ltac written E :=
  unfold write;
  match goal with
  | |- context [match ?f (view ?d ?l) with _ => _ end] =>
      destruct (f (view d l)) as [v | ex] eqn:E
  end.

Ltac inserted E :=
  match type of E with
  | Sql.insert_meta _ _ = _ =>
      unfold Sql.insert_meta in E; destruct (Sql.has_meta _ _) eqn:?
  | Sql.insert_user _ _ = _ =>
      unfold Sql.insert_user in E; destruct (Sql.has_user _ _) eqn:?
  | Sql.insert_link _ _ = _ =>
      unfold Sql.insert_link in E; destruct (Sql.has_link _ _) eqn:?
  | Sql.insert_deleted _ _ = _ =>
      unfold Sql.insert_deleted in E; destruct (Sql.has_hash _ _) eqn:?
  | Sql.insert_folder _ _ = _ =>
      unfold Sql.insert_folder in E; destruct (Sql.has_folder _ _) eqn:?
  end; inversion E; subst; clear E.

Lemma exec_only_grown (d0 : DB) {X : Type} (e : eff X) (d : DB) (l : task G) :
  only_grown d0 d /\ only_grown d0 (view d l) ->
  only_grown d0 (snd (fst (exec e d l)))
  /\ only_grown d0 (view (snd (fst (exec e d l))) (snd (exec e d l))).
Proof.
  intros (Hd & Hv).
  destruct e; cbn [exec]; try (cbn; split; assumption);
    try (written E; cbn; [|split; assumption]; split; [assumption|];
         inserted E; destruct Hv as (H1 & H2 & H3 & H4);
         repeat split; cbn; try assumption; apply grows_snoc; assumption).
Qed.

Lemma exec_links_grow (L : list link_row) {X : Type} (e : eff X)
      (d : DB) (l : task G) :
  no_delete X e = true ->
  grows L (short_links d) /\ grows L (short_links (view d l)) ->
  grows L (short_links (snd (fst (exec e d l))))
  /\ grows L (short_links (view (snd (fst (exec e d l))) (snd (exec e d l)))).
Proof.
  intros He (Hd & Hv).
  destruct e; try discriminate He; cbn [exec]; try (cbn; split; assumption);
    (written E; cbn; [|split; assumption]; split; [assumption|];
     inserted E; cbn; try assumption; apply grows_snoc; assumption).
Qed.

Lemma exec_links_shrink (L : list link_row) {X : Type} (e : eff X)
      (d : DB) (l : task G) :
  no_insert_link X e = true ->
  incl (short_links d) L /\ incl (short_links (view d l)) L ->
  incl (short_links (snd (fst (exec e d l)))) L
  /\ incl (short_links (view (snd (fst (exec e d l))) (snd (exec e d l)))) L.
Proof.
  intros He (Hd & Hv).
  destruct e; try discriminate He; cbn [exec]; try (cbn; split; assumption);
    try (written E; cbn; [|split; assumption]; split; [assumption|];
         inserted E; cbn; assumption).
  unfold write. cbn. split; [assumption|].
  intros x Hx. apply filter_In in Hx. apply Hv. tauto.
Qed.

Lemma route_message_no_delete (bot : str) (m : message) (p : prog unit) :
  route validators_url bot (UMessage m) = Some p -> all_events no_delete p.
Proof.
  unfold route. intros Hroute.
  repeat match type of Hroute with
         | (if ?b then _ else _) = _ => destruct b
         end; inversion Hroute; subst; clear Hroute.
  - unfold cmd_start. events.
  - unfold create_link. events.
  - unfold list_links. events.
  - unfold cmd_folders. events.
Qed.

Lemma route_callback_no_insert (bot : str) (c : callback_query) (p : prog unit) :
  route validators_url bot (UCallback c) = Some p -> all_events no_insert_link p.
Proof.
  unfold route. intros Hroute.
  repeat match type of Hroute with
         | (if ?b then _ else _) = _ => destruct b
         end; inversion Hroute; subst; clear Hroute.
  - unfold delete_link_callback. events.
  - unfold create_folder_example. events.
Qed.

(** X12: no update rewrites or removes a stored row, except that a button
    press may remove link rows.  After any update the User, Metadata, Folder
    and DeletedLinkHash tables are the former tables with rows added at
    the end, if any; after a message the same holds of the link table; after
    a button press every link row was there before. *)
Theorem rows_are_never_rewritten (u : update) (e : env G) (d : DB) :
  only_grown d (db_after validators_url u e d)
  /\ (forall m, u = UMessage m ->
        grows (short_links d) (short_links (db_after validators_url u e d)))
  /\ (forall c, u = UCallback c ->
        incl (short_links (db_after validators_url u e d)) (short_links d)).
Proof.
  assert (Hrefl : only_grown d d) by (repeat split; apply grows_refl).
  unfold db_after, handle. split; [|split].
  - destruct (route validators_url (me e) u) as [p|]; [|exact Hrefl].
    apply (run_invariant any_event
             (fun d' l => only_grown d d' /\ only_grown d (view d' l))).
    + intros X ev d1 l1 _. apply exec_only_grown.
    + intros d1 l1 (H1 & _). split; exact H1.
    + apply all_events_any.
    + split; exact Hrefl.
  - intros m ->.
    destruct (route validators_url (me e) (UMessage m)) as [p|] eqn:Hroute;
      [|apply grows_refl].
    apply (run_invariant no_delete
             (fun d' l => grows (short_links d) (short_links d')
                          /\ grows (short_links d) (short_links (view d' l)))).
    + intros X ev d1 l1. apply exec_links_grow.
    + intros d1 l1 (H1 & _). split; exact H1.
    + exact (route_message_no_delete (me e) m p Hroute).
    + split; apply grows_refl.
  - intros c ->.
    destruct (route validators_url (me e) (UCallback c)) as [p|] eqn:Hroute;
      [|apply incl_refl].
    apply (run_invariant no_insert_link
             (fun d' l => incl (short_links d') (short_links d)
                          /\ incl (short_links (view d' l)) (short_links d))).
    + intros X ev d1 l1. apply exec_links_shrink.
    + intros d1 l1 (H1 & _). split; exact H1.
    + exact (route_callback_no_insert (me e) c p Hroute).
    + split; apply incl_refl.
Qed.

Lemma string_eqb_iff (a b : string) : String.eqb a b = true <-> a = b.
Proof. apply String.eqb_eq. Qed.

Lemma exec_keys_unique {X : Type} (e : eff X) (d : DB) (l : task G) :
  keys_unique d /\ keys_unique (view d l) ->
  keys_unique (snd (fst (exec e d l)))
  /\ keys_unique (view (snd (fst (exec e d l))) (snd (exec e d l))).
Proof.
  intros (Hd & Hv).
  destruct e; cbn [exec]; try (cbn; split; assumption);
    try (written E; cbn; [|split; assumption]; split; [assumption|];
         inserted E; destruct Hv as (H1 & H2 & H3 & H4 & H5);
         repeat split; cbn; try assumption).
  - apply (nodup_snoc_fresh meta_id String.eqb);
      [apply string_eqb_iff | assumption | assumption].
  - apply (nodup_snoc_fresh telegram_id Z.eqb);
      [apply Z.eqb_eq | assumption | assumption].
  - apply (nodup_snoc_fresh short_id String.eqb);
      [apply string_eqb_iff | assumption | assumption].
  - apply (nodup_snoc_fresh hash_id String.eqb);
      [apply string_eqb_iff | assumption | assumption].
  - unfold write. cbn. split; [assumption|].
    destruct Hv as (H1 & H2 & H3 & H4 & H5). repeat split; cbn; try assumption.
    apply nodup_map_filter, H3.
  - apply (nodup_snoc_fresh folder_key String.eqb);
      [apply string_eqb_iff | assumption | assumption].
Qed.

Lemma db_after_keys_unique (u : update) (e : env G) (d : DB) :
  keys_unique d -> keys_unique (db_after validators_url u e d).
Proof.
  intros Hd. unfold db_after, handle.
  destruct (route validators_url (me e) u) as [p|]; [|exact Hd].
  apply (run_invariant any_event
           (fun d' l => keys_unique d' /\ keys_unique (view d' l))).
  - intros X ev d1 l1 _. apply exec_keys_unique.
  - intros d1 l1 (H1 & _). split; exact H1.
  - apply all_events_any.
  - split; exact Hd.
Qed.

Lemma feed_keys_unique (us : list (update * env G)) (d : DB) :
  keys_unique d -> keys_unique (feed validators_url us d).
Proof.
  revert d. induction us as [|[u e] us IH]; intros d Hd; [exact Hd|].
  cbn [feed]. apply IH, db_after_keys_unique, Hd.
Qed.

(** X13: the primary keys stay unique.  If no two rows of a table share
    their key (Metadata id, platform id, short id, folder id, hash id), the
    same holds after any sequence of updates: a handler never stores a
    second row under a key in use. *)
Theorem primary_keys_stay_unique (us : list (update * env G)) (d : DB) :
  keys_unique d -> keys_unique (feed validators_url us d).
Proof. exact (feed_keys_unique us d). Qed.


End EveryUpdate.

(** ** Concurrent delete presses *)

Section Interleaving.

Context {G : Type} `{RandomSource G}.
Variable good : DB -> Prop.
Variable tok : DB -> thread G -> Prop.

Hypothesis tok_idle :
  forall d d' t, holds_txn t = false -> tok d t -> tok d' t.

Hypothesis step_inv :
  forall busy d t,
    good d -> tok d t -> (busy = true -> holds_txn t = false) ->
    good (fst (step_thread busy d t))
    /\ tok (fst (step_thread busy d t)) (snd (step_thread busy d t))
    /\ (fst (step_thread busy d t) = d \/ holds_txn t = true)
    /\ (holds_txn (snd (step_thread busy d t)) = true -> busy = false).

Lemma holders_alone (l1 l2 : list (thread G)) (t : thread G) :
  (List.length (filter holds_txn (l1 ++ t :: l2)) <= 1)%nat ->
  holds_txn t = true ->
  filter holds_txn (l1 ++ l2) = [].
Proof.
  intros Hone Hh. rewrite filter_app in *. cbn [filter] in Hone.
  rewrite Hh, length_app in Hone. cbn [List.length] in Hone.
  destruct (filter holds_txn l1); [|cbn in Hone; lia].
  destruct (filter holds_txn l2); [reflexivity | cbn in Hone; lia].
Qed.

(** If one turn of one thread keeps [good] and [tok], so does a turn in a
    system of threads. *)
Lemma step_all_ok (i : nat) (s : sys G) :
  all_ok good tok s -> all_ok good tok (step i s).
Proof.
  destruct s as [d ts]. unfold all_ok, step. cbn [fst snd].
  intros (Hgood & Hall & Hone).
  destruct (nth_error ts i) as [t|] eqn:Hn; [|cbn; auto].
  pose proof (split_at ts i t Hn) as Hts.
  set (l1 := firstn i ts) in *. set (l2 := skipn (S i) ts) in *.
  rewrite Hts in Hall, Hone. clear Hts Hn. clearbody l1 l2.
  apply Forall_app in Hall. destruct Hall as (Hl1 & Hall).
  inversion Hall as [|? ? Ht Hl2]; subst. clear Hall.
  assert (Hbusy : existsb holds_txn (l1 ++ l2) = true -> holds_txn t = false).
  { intros Hex. destruct (holds_txn t) eqn:Hh; [|reflexivity].
    pose proof (holders_alone l1 l2 t Hone Hh) as Hnil.
    apply (proj2 (existsb_filter_nil holds_txn (l1 ++ l2))) in Hnil.
    congruence. }
  destruct (step_inv (existsb holds_txn (l1 ++ l2)) d t Hgood Ht Hbusy)
    as (Hgood' & Ht' & Hsame & Hfree).
  destruct (step_thread (existsb holds_txn (l1 ++ l2)) d t) as [d' t'].
  cbn [fst snd] in *. split; [exact Hgood'|].
  assert (Hothers : d' = d \/ filter holds_txn (l1 ++ l2) = []).
  { destruct Hsame as [-> | Hh]; [left; reflexivity | right].
    exact (holders_alone l1 l2 t Hone Hh). }
  split.
  - apply Forall_app. destruct Hothers as [-> | Hnil].
    + split; [exact Hl1 | constructor; assumption].
    + apply filter_nil_forall, Forall_app in Hnil. destruct Hnil as (Hn1 & Hn2).
      split; [|constructor; [exact Ht'|]].
      * rewrite Forall_forall in *. intros x Hx.
        apply (tok_idle d d' x (Hn1 x Hx) (Hl1 x Hx)).
      * rewrite Forall_forall in *. intros x Hx.
        apply (tok_idle d d' x (Hn2 x Hx) (Hl2 x Hx)).
  - rewrite filter_app. cbn [filter]. destruct (holds_txn t') eqn:Hh'.
    + specialize (Hfree eq_refl).
      apply (proj1 (existsb_filter_nil holds_txn (l1 ++ l2))) in Hfree.
      rewrite filter_app in Hfree. apply app_eq_nil in Hfree.
      destruct Hfree as (-> & ->). cbn. lia.
    + rewrite filter_app in Hone. cbn [filter] in Hone.
      rewrite length_app in *. destruct (holds_txn t); cbn in Hone; lia.
Qed.

Lemma sched_all_ok (order : list nat) (s : sys G) :
  all_ok good tok s -> all_ok good tok (sched order s).
Proof.
  revert s. induction order as [|i order IH]; intros s Hs; [exact Hs|].
  cbn [sched]. apply IH, step_all_ok, Hs.
Qed.

End Interleaving.

Section DeleteRace.

Context {G : Type} `{RandomSource G}.
Variable k : str.
Variable r : link_row.
Variable d0 : DB.
Hypothesis Hfind : Sql.find_link k d0 = Some r.

Lemma has_hash_deleted (now : str) :
  Sql.has_hash k (deleted_db k r now d0) = true.
Proof.
  unfold Sql.has_hash, deleted_db. cbn. rewrite existsb_app. cbn.
  rewrite String.eqb_refl, orb_true_r. reflexivity.
Qed.

Lemma select_deleted (now : str) :
  Sql.select_link k (deleted_db k r now d0) = None.
Proof.
  unfold Sql.select_link, Sql.find_link, deleted_db. cbn.
  rewrite find_link_filtered. reflexivity.
Qed.

Lemma select_initial :
  Sql.select_link k d0 = Some (original_url r, creator_id r).
Proof. unfold Sql.select_link. rewrite Hfind. reflexivity. Qed.

Lemma dthread_ok_idle (d d' : DB) (t : thread G) :
  holds_txn t = false -> dthread_ok k r d0 d t -> dthread_ok k r d0 d' t.
Proof.
  unfold holds_txn, dthread_ok. destruct (state t) as [p | res]; [|trivial].
  intros Hn (ph & Hf & Hph). exists ph. split; [exact Hf|].
  destruct ph; cbn in *.
  - exact Hph.
  - destruct Hph as (_ & Htx). rewrite Htx in Hn. discriminate.
  - destruct Hph as (_ & Htx). rewrite Htx in Hn. discriminate.
Qed.

Lemma dstep_thread_inv (busy : bool) (d : DB) (t : thread G) :
  deleted_once k r d0 d -> dthread_ok k r d0 d t ->
  (busy = true -> holds_txn t = false) ->
  deleted_once k r d0 (fst (step_thread busy d t))
  /\ dthread_ok k r d0 (fst (step_thread busy d t)) (snd (step_thread busy d t))
  /\ (fst (step_thread busy d t) = d \/ holds_txn t = true)
  /\ (holds_txn (snd (step_thread busy d t)) = true -> busy = false).
Proof.
  intros HG Hok Hbusy.
  destruct t as [[p | res] l]; unfold dthread_ok in Hok; cbn [state own] in Hok.
  2: { cbn. unfold holds_txn. cbn. rewrite Hok.
       repeat split; auto; discriminate. }
  destruct Hok as (ph & Hf & Hph).
  assert (Hb : holds_txn (Thread (Running p) l) = true -> busy = false).
  { intros Hh. destruct busy; [|reflexivity].
    rewrite (Hbusy eq_refl) in Hh. discriminate. }
  clear Hbusy. unfold holds_txn in *. cbn [own] in *.
  destruct Hf as [a | ph kont Hk | ph ph' X e kont Hnext Hk].
  { cbn in *. unfold dthread_ok. cbn. rewrite Hph.
    repeat split; auto; discriminate. }
  { (* the SELECT of the link *)
    unfold step_thread. cbn [state own is_write andb exec fst snd].
    split; [exact HG|]. split; [|split; [left; reflexivity | exact Hb]].
    exists ph. split; [|exact Hph]. apply Hk.
    destruct ph; cbn in Hph.
    - unfold view. rewrite Hph.
      destruct HG as [-> | (now & ->)];
        [right; apply select_initial | left; apply select_deleted].
    - destruct Hph as (_ & Htx). unfold view. rewrite Htx.
      right. apply select_initial.
    - destruct Hph as (_ & Htx). unfold view. rewrite Htx.
      left. apply select_deleted. }
  unfold step_thread. cbn [state own]. unfold holds_txn. cbn [own].
  destruct e; cbn [next_dphase] in Hnext; destruct ph; try discriminate Hnext;
    try (injection Hnext as <-); cbn [is_write andb negb exec].
  all: try (unfold dthread_ok; cbn; repeat split; auto; eauto; fail).
  all: try (cbn [fst snd own txn set_txn]; split; [exact HG|];
            split; [exists DIdle; split; [apply Hk | reflexivity]|];
            split; [left; reflexivity | discriminate]).
  all: try (cbn; split; [exact HG|]; split; [reflexivity|];
            split; [left; reflexivity | discriminate]).
  - (* InsertDeleted, nothing written yet *)
    destruct (String.eqb (hash_id r0) k) eqn:Ek; [|discriminate Hnext].
    destruct (String.eqb (original_url_hash r0) _) eqn:Eh; [|discriminate Hnext].
    destruct (Z.eqb (hash_creator_id r0) (creator_id r)) eqn:Ec;
      [|discriminate Hnext].
    injection Hnext as <-.
    apply String.eqb_eq in Ek, Eh. apply Z.eqb_eq in Ec.
    assert (Hrow : r0 = hash_row_of k r (deleted_at r0)).
    { destruct r0; cbn in *; subst. reflexivity. }
    cbn [dphase_ok] in Hph. unfold write, view. rewrite Hph. cbn [negb andb].
    destruct busy.
    + cbn. split; [exact HG|]. split.
      * exists DIdle. split; [|exact Hph].
        apply (dfollows_vis k r DIdle (DHash (deleted_at r0))); [|exact Hk].
        cbn. rewrite Hrow. cbn. rewrite !String.eqb_refl, Z.eqb_refl. reflexivity.
      * split; [left; reflexivity | rewrite Hph; discriminate].
    + unfold Sql.insert_deleted. rewrite Ek.
      destruct (Sql.has_hash k d) eqn:Hhas; cbn.
      * split; [exact HG|]. split; [reflexivity|].
        split; [left; reflexivity | discriminate].
      * assert (Hd : d = d0).
        { destruct HG as [Hd | (now & Hd)]; [exact Hd|].
          rewrite Hd, has_hash_deleted in Hhas. discriminate. }
        split; [exact HG|]. split.
        -- exists (DHash (deleted_at r0)). split; [apply Hk|].
           split; [exact Hd|]. rewrite Hd, Hrow. reflexivity.
        -- split; [left; reflexivity | reflexivity].
  - (* DeleteLink, after the hash row *)
    destruct (String.eqb_spec k0 k) as [-> | _]; [|discriminate Hnext].
    injection Hnext as <-. destruct Hph as (Hd & Htx).
    unfold write, view. rewrite Htx in *. cbn.
    split; [exact HG|]. split.
    + exists (DBoth now). split; [apply Hk|]. split; [exact Hd | reflexivity].
    + split; [left; reflexivity | intros _; apply Hb; reflexivity].
  - (* Commit, after both writes *)
    destruct Hph as (Hd & Htx). unfold view. rewrite Htx. cbn.
    split; [right; exists now; reflexivity|].
    split; [exists DIdle; split; [apply Hk | reflexivity]|].
    split; [right; reflexivity | discriminate].
Qed.

Ltac dphases :=
  repeat first
    [ apply dfollows_ret
    | match goal with
      | x : Empty_set |- _ => destruct x
      | |- dfollows _ _ _ (match ?x with _ => _ end) => destruct x
      | |- dfollows _ _ _ (bind (match ?x with _ => _ end) _) => destruct x
      | |- dfollows _ _ _ (call _) => unfold call
      | |- dfollows _ _ _ (Vis _ _) =>
          eapply dfollows_vis;
          [first [reflexivity
                 | cbn; rewrite ?String.eqb_refl, ?Z.eqb_refl; reflexivity]
          | intro]
      end
    | progress cbn [bind call raise] ].

(** A press whose token names [k] does nothing but delete the link [r]. *)
Lemma dfollows_delete (c : callback_query) :
  delete_target c = Some k -> dfollows k r DIdle (delete_link_callback c).
Proof.
  intros Hk. unfold delete_link_callback, item. unfold delete_target in Hk.
  rewrite Hk. cbn [bind call].
  eapply dfollows_vis; [reflexivity | intros _].
  apply dfollows_select. intros x [-> | ->]; dphases.
Qed.

Lemma spawn_presses_ok (cs : list (callback_query * env G)) :
  Forall (fun ce => delete_target (fst ce) = Some k) cs ->
  all_ok (deleted_once k r d0) (dthread_ok k r d0) (d0, spawn_presses cs).
Proof.
  intros Hcs. unfold all_ok. cbn [fst snd]. split; [left; reflexivity|].
  induction Hcs as [|ce cs Hce _ IH]; cbn.
  - split; [constructor | lia].
  - destruct IH as (Hall & Hone). split; [|exact Hone].
    constructor; [|exact Hall].
    exists DIdle. split; [apply dfollows_delete, Hce | reflexivity].
Qed.

End DeleteRace.

(** X15: however many presses of the delete button of one stored link run
    at once, and however their steps interleave, the stored database is at
    every moment either the initial one or the initial one with exactly one
    hash row of the link added and the link row removed.  The hash row is
    never stored twice, and never without the removal. *)
Theorem concurrent_deletes_record_once
  (G : Type) (RS : RandomSource G) (k : str) (r : link_row) (d0 : DB)
  (cs : list (callback_query * env G)) (order : list nat) :
  Sql.find_link k d0 = Some r ->
  Forall (fun ce => delete_target (fst ce) = Some k) cs ->
  fst (sched order (d0, spawn_presses cs)) = d0
  \/ exists now,
       fst (sched order (d0, spawn_presses cs)) = deleted_db k r now d0.
Proof.
  intros Hfind Hcs.
  destruct (sched_all_ok (deleted_once k r d0) (dthread_ok k r d0)
              (dthread_ok_idle k r d0)
              (dstep_thread_inv k r d0 Hfind)
              order (d0, spawn_presses cs)
              (spawn_presses_ok k r d0 cs Hcs)) as (Hgood & _ & _).
  exact Hgood.
Qed.

(** ** Every stored link *)

Lemma rstrip_keeps_word_start (a : ascii) (s : str) :
  Py.isspace a = false -> Py.rstrip (String a s) = String a (Py.rstrip s).
Proof.
  intros Ha. cbn [Py.rstrip]. destruct (Py.rstrip s); [rewrite Ha|]; reflexivity.
Qed.

Lemma strip_keeps_prefix (p rest : str) :
  Forall (fun c => Py.isspace c = false) (Py.chars_of p) ->
  p <> EmptyString ->
  exists rest', Py.strip (p ++ rest) = (p ++ rest')%string.
Proof.
  intros Hp Hne. unfold Py.strip.
  assert (Hl : Py.lstrip (p ++ rest) = (p ++ rest)%string).
  { destruct p as [|a p]; [congruence|]. inversion Hp; subst.
    cbn. rewrite H1. reflexivity. }
  rewrite Hl. clear Hl Hne.
  induction p as [|a p IH]; cbn.
  - exists (Py.rstrip rest). reflexivity.
  - inversion Hp as [|? ? Ha Hp']; subst.
    destruct (IH Hp') as (rest' & Hr).
    exists rest'. rewrite <- Hr. apply rstrip_keeps_word_start, Ha.
Qed.

Lemma startswith_append (p rest : str) : Py.startswith p (p ++ rest) = true.
Proof.
  induction p as [|a p IH]; cbn; [reflexivity|].
  rewrite Ascii.eqb_refl. exact IH.
Qed.

(** The filter of line 131 still accepts a text it accepted once the text
    is stripped. *)
Lemma url_prefix_strip (t : str) :
  url_prefix_filter t = true -> url_prefix_filter (Py.strip t) = true.
Proof.
  unfold url_prefix_filter. intros Hp. apply orb_prop in Hp.
  destruct Hp as [Hp | Hp]; apply startswith_app in Hp; destruct Hp as (rest & ->).
  - destruct (strip_keeps_prefix "http://" rest) as (rest' & ->);
      [repeat constructor | discriminate|].
    rewrite startswith_append. reflexivity.
  - destruct (strip_keeps_prefix "https://" rest) as (rest' & ->);
      [repeat constructor | discriminate|].
    rewrite startswith_append. apply orb_true_r.
Qed.

Lemma find_unique_row (k : str) (rows : list link_row) (r : link_row) :
  NoDup (map short_id rows) -> In r rows -> short_id r = k ->
  find (fun x => String.eqb (short_id x) k) rows = Some r.
Proof.
  induction rows as [|y rows IH]; cbn; intros Hnd Hin Hk; [contradiction|].
  inversion Hnd as [|? ? Hnotin Hnd']; subst.
  destruct Hin as [-> | Hin].
  - rewrite String.eqb_refl. reflexivity.
  - destruct (String.eqb_spec (short_id y) (short_id r)) as [Heq | _].
    + exfalso. apply Hnotin. rewrite Heq. apply in_map, Hin.
    + apply IH; auto.
Qed.

Section StoredLinks.

Context {G : Type} `{RandomSource G}.
Variable validators_url : str -> bool.

Lemma callback_links_incl (c : callback_query) (e : env G) (d : DB) :
  incl (short_links (db_after validators_url (UCallback c) e d)) (short_links d).
Proof.
  unfold db_after, handle.
  destruct (route validators_url (me e) (UCallback c)) as [p|] eqn:Hroute;
    [|apply incl_refl].
  apply (run_invariant no_insert_link
           (fun d' l => incl (short_links d') (short_links d)
                        /\ incl (short_links (view d' l)) (short_links d))).
  - intros X ev d1 l1.
    exact (exec_links_shrink validators_url (short_links d) ev d1 l1).
  - intros d1 l1 (H1 & _). split; exact H1.
  - exact (route_callback_no_insert validators_url (me e) c p Hroute).
  - split; apply incl_refl.
Qed.

Lemma plain_message_keeps_links (m : message) (e : env G) (d : DB) :
  url_prefix_filter (text m) = false ->
  short_links (db_after validators_url (UMessage m) e d) = short_links d.
Proof.
  intros Hf. unfold db_after, handle.
  destruct (route validators_url (me e) (UMessage m)) as [p|] eqn:Hroute;
    [|reflexivity].
  apply (run_invariant no_link_write (links_untouched (short_links d))).
  - intros X ev d1 l1. apply exec_links_untouched.
  - intros d1 l1 (H1 & _ & H3). repeat split; assumption.
  - exact (route_no_link_write validators_url (me e) m p Hf Hroute).
  - repeat split. intros [].
Qed.

Lemma db_after_submitted (u : update) (e : env G) (d : DB) :
  Forall (submitted_row validators_url) (short_links d) ->
  Forall (submitted_row validators_url)
         (short_links (db_after validators_url u e d)).
Proof.
  intros Hd. destruct u as [m | c].
  - destruct (url_prefix_filter (text m)) eqn:Hf.
    + unfold db_after. rewrite (handle_submit validators_url m e d Hf).
      destruct (validators_url (Py.strip (text m))) eqn:Hv.
      * destruct (run_create_link validators_url m d (start_task e) Hv)
          as (id & g & _ & Hlen & Halnum & ->).
        destruct (Sql.has_link id d); [exact Hd|]. cbn.
        apply Forall_app. split; [exact Hd|]. constructor; [|constructor].
        unfold submitted_row. cbn.
        repeat split; try assumption. apply url_prefix_strip, Hf.
      * rewrite (run_create_link_invalid validators_url m d (start_task e) Hv).
        exact Hd.
    + rewrite (plain_message_keeps_links m e d Hf). exact Hd.
  - rewrite Forall_forall in *. intros r Hr.
    apply Hd, (callback_links_incl c e d), Hr.
Qed.

Lemma feed_submitted (us : list (update * env G)) (d : DB) :
  Forall (submitted_row validators_url) (short_links d) ->
  Forall (submitted_row validators_url) (short_links (feed validators_url us d)).
Proof.
  revert d. induction us as [|[u e] us IH]; intros d Hd; [exact Hd|].
  cbn [feed]. apply IH, db_after_submitted, Hd.
Qed.

(** X16: whatever updates the bot has handled since the empty database,
    every link it stores has an id of 12 letters and digits, belongs to no
    folder, and has a URL that begins with http:// or https:// and that
    [validators.url] accepted: no other URL is ever stored or served. *)
Theorem stored_links_were_submitted (us : list (update * env G)) :
  Forall (fun r =>
            String.length (short_id r) = 12%nat
            /\ Forall (fun c => alnum c = true) (Py.chars_of (short_id r))
            /\ folder_id r = None
            /\ url_prefix_filter (original_url r) = true
            /\ validators_url (original_url r) = true)
         (short_links (feed validators_url us empty_db)).
Proof.
  apply (feed_submitted us empty_db). constructor.
Qed.

(** X17: in every database the bot reaches from the empty one, the delete
    button of every stored link removes that link, for whoever presses it,
    unless a hash row of its id is recorded already: the database the press
    leaves is the former one without exactly that row and with its hash
    row. *)
Theorem every_stored_link_can_be_deleted
  (us : list (update * env G)) (r : link_row) (who : tg_user) (e : env G) :
  In r (short_links (feed validators_url us empty_db)) ->
  Sql.has_hash (short_id r) (feed validators_url us empty_db) = false ->
  db_after validators_url
           (UCallback (CallbackQuery who (callback_data (item_of r)))) e
           (feed validators_url us empty_db)
  = deleted_db (short_id r) r (time e) (feed validators_url us empty_db).
Proof.
  intros Hin Hhash.
  assert (Hkeys : keys_unique (feed validators_url us empty_db)).
  { apply feed_keys_unique. repeat split; constructor. }
  pose proof (feed_submitted us empty_db (Forall_nil _)) as Hrows.
  rewrite Forall_forall in Hrows. destruct (Hrows r Hin) as (_ & Halnum & _).
  unfold db_after. rewrite (button_deletes validators_url r who e); [reflexivity| |
    eapply Forall_impl; [|exact Halnum]; apply alnum_not_underscore | exact Hhash].
  destruct Hkeys as (_ & _ & Hlinks & _).
  unfold Sql.find_link. apply find_unique_row; auto.
Qed.

End StoredLinks.
(** ** A Delete after the id was deleted *)

Lemma only_grown_has_hash (k : str) (d d' : DB) :
  only_grown d d' -> Sql.has_hash k d = true -> Sql.has_hash k d' = true.
Proof.
  intros (_ & _ & _ & (added & Hadd)) Hh. unfold Sql.has_hash in *.
  rewrite Hadd, existsb_app, Hh. reflexivity.
Qed.

Lemma absent_incl (k : str) (rows rows' : list link_row) :
  incl rows' rows ->
  find (fun r => String.eqb (short_id r) k) rows = None ->
  find (fun r => String.eqb (short_id r) k) rows' = None.
Proof.
  intros Hincl Hnone. apply find_none_existsb.
  destruct (existsb _ rows') eqn:E; [|reflexivity].
  apply existsb_exists in E. destruct E as (r & Hr & Hk).
  apply Hincl in Hr. apply (find_none _ _ Hnone) in Hr. congruence.
Qed.

Section LaterDelete.

Context {G : Type} `{RandomSource G}.
Variable validators_url : str -> bool.

Lemma db_after_only_grown (u : update) (e : env G) (d : DB) :
  only_grown d (db_after validators_url u e d).
Proof.
  assert (Hrefl : only_grown d d) by (repeat split; apply grows_refl).
  unfold db_after, handle.
  destruct (route validators_url (me e) u) as [p|]; [|exact Hrefl].
  apply (run_invariant any_event
           (fun d' l => only_grown d d' /\ only_grown d (view d' l))).
  - intros X ev d1 l1 _. apply exec_only_grown.
  - intros d1 l1 (H1 & _). split; exact H1.
  - apply all_events_any.
  - split; exact Hrefl.
Qed.

(** A hash row, once recorded, stays. *)
Lemma feed_keeps_hash (k : str) (us : list (update * env G)) (d : DB) :
  Sql.has_hash k d = true -> Sql.has_hash k (feed validators_url us d) = true.
Proof.
  revert d. induction us as [|[u e] us IH]; intros d Hh; [exact Hh|].
  cbn [feed]. apply IH.
  exact (only_grown_has_hash k _ _ (db_after_only_grown u e d) Hh).
Qed.

(** An id that is not stored stays so through every update that does not
    issue it. *)
Lemma db_after_absent (k : str) (u : update) (e : env G) (d : DB) :
  Sql.find_link k d = None ->
  issues validators_url k (u, e) = false ->
  Sql.find_link k (db_after validators_url u e d) = None.
Proof.
  intros Hnone Hiss. destruct u as [m | c].
  - unfold issues in Hiss. cbn [fst snd] in Hiss.
    destruct (url_prefix_filter (text m)) eqn:Hf.
    + unfold db_after. rewrite (handle_submit validators_url m e d Hf).
      destruct (validators_url (Py.strip (text m))) eqn:Hv.
      * destruct (run_create_link validators_url m d (start_task e) Hv)
          as (id & g & Hgen & _ & _ & ->).
        destruct (drawn_id_run d (start_task e)) as (g0 & Hdrawn & _).
        rewrite Hdrawn in Hgen. injection Hgen as <- _.
        cbn [andb] in Hiss.
        destruct (Sql.has_link (drawn_id (start_task e)) d); [exact Hnone|].
        cbn [fst snd]. unfold Sql.find_link in *. cbn [short_links].
        apply find_none_existsb. rewrite existsb_app.
        apply find_none_existsb in Hnone. rewrite Hnone. cbn.
        rewrite Hiss. reflexivity.
      * rewrite (run_create_link_invalid validators_url m d (start_task e) Hv).
        exact Hnone.
    + unfold Sql.find_link in *.
      rewrite (plain_message_keeps_links validators_url m e d Hf). exact Hnone.
  - unfold Sql.find_link in *.
    exact (absent_incl k _ _ (callback_links_incl validators_url c e d) Hnone).
Qed.

Lemma feed_absent (k : str) (us : list (update * env G)) (d : DB) :
  Sql.find_link k d = None ->
  Forall (fun ue => issues validators_url k ue = false) us ->
  Sql.find_link k (feed validators_url us d) = None.
Proof.
  revert d. induction us as [|[u e] us IH]; intros d Hnone Hus; [exact Hnone|].
  inversion Hus as [|? ? Hue Hrest]; subst.
  cbn [feed]. apply IH; [|exact Hrest].
  apply db_after_absent; assumption.
Qed.

(** C4, as the code has it.  A link [r] stored under [k] is deleted, any
    updates [us] follow, and Delete is asked for [k] again.  The second
    Delete always leaves the database as it is, so no second
    DeletedLinkHash row is written.  As long as [k] is not stored again it
    answers NotFound and does not raise, and [k] is not stored again unless
    one of the updates is a submission for which the generator draws [k].
    Once [k] is stored again, the second Delete raises the IntegrityError of
    the hash id recorded by the first. *)
Theorem second_delete_not_found
  (c c2 : callback_query) (k : str) (r : link_row) (d : DB) (l l2 : task G)
  (us : list (update * env G)) :
  delete_target c = Some k ->
  data c2 = data c ->
  Sql.find_link k d = Some r ->
  Sql.has_hash k d = false ->
  snd (fst (run (delete_link_callback c2)
                (feed validators_url us
                      (snd (fst (run (delete_link_callback c) d l)))) l2))
  = feed validators_url us (snd (fst (run (delete_link_callback c) d l)))
  /\ (Forall (fun ue => issues validators_url k ue = false) us ->
      Sql.find_link k
        (feed validators_url us (snd (fst (run (delete_link_callback c) d l))))
      = None)
  /\ (Sql.find_link k
        (feed validators_url us (snd (fst (run (delete_link_callback c) d l))))
      = None ->
      run (delete_link_callback c2)
          (feed validators_url us (snd (fst (run (delete_link_callback c) d l))))
          l2
      = (Ok tt,
         feed validators_url us (snd (fst (run (delete_link_callback c) d l))),
         Task None (rng l2) (clock l2) (bot_name l2) (sent l2 ++ [CbNotFound])))
  /\ (Sql.find_link k
        (feed validators_url us (snd (fst (run (delete_link_callback c) d l))))
      <> None ->
      run (delete_link_callback c2)
          (feed validators_url us (snd (fst (run (delete_link_callback c) d l))))
          l2
      = (Raised (IntegrityError "deleted_links_hash.hash_id"),
         feed validators_url us (snd (fst (run (delete_link_callback c) d l))),
         set_txn None l2)).
Proof.
  intros Hk Hdata Hr Hh.
  assert (Hk2 : delete_target c2 = Some k)
    by (unfold delete_target in *; rewrite Hdata; exact Hk).
  rewrite (run_delete c d l k Hk), Hr, Hh. cbn [fst snd].
  assert (Hgone : Sql.find_link k (deleted_db k r (clock l) d) = None)
    by (unfold Sql.find_link; cbn; apply find_link_filtered).
  assert (Hrec : Sql.has_hash k (deleted_db k r (clock l) d) = true).
  { unfold Sql.has_hash. cbn. rewrite existsb_app. cbn.
    rewrite String.eqb_refl. apply orb_true_r. }
  pose proof (feed_keeps_hash k us _ Hrec) as Hrec2.
  pose proof (feed_absent k us _ Hgone) as Habs.
  remember (feed validators_url us (deleted_db k r (clock l) d)) as d2 eqn:Hd2.
  clear Hd2. rewrite (run_delete c2 d2 l2 k Hk2), Hrec2.
  split; [|split; [|split]].
  - destruct (Sql.find_link k d2); reflexivity.
  - exact Habs.
  - intros ->. reflexivity.
  - intros Hne. destruct (Sql.find_link k d2); [reflexivity | congruence].
Qed.

End LaterDelete.

Lemma second_delete_not_found_witness :
  let r := LinkRow "dE3abc98ABCD" "https://example.com/page" 1001 None
                   "2024-01-01T10:00:00" in
  let d := MkDB [] [] [r] [] [] in
  let c := CallbackQuery Demo.bob "del_dE3abc98ABCD" in
  let c2 := CallbackQuery Demo.alice "del_dE3abc98ABCD" in
  let l := start_task Demo.env2 in
  let l2 := start_task Demo.env1 in
  let us := [(UMessage (Message Demo.bob "https://example.org/other"), Demo.env2);
             (Demo.open_link, Demo.env1)] in
  delete_target c = Some "dE3abc98ABCD"
  /\ data c2 = data c
  /\ Sql.find_link "dE3abc98ABCD" d = Some r
  /\ Sql.has_hash "dE3abc98ABCD" d = false
  /\ snd (fst (run (delete_link_callback c2)
                   (feed Demo.validator us
                         (snd (fst (run (delete_link_callback c) d l)))) l2))
     = feed Demo.validator us (snd (fst (run (delete_link_callback c) d l)))
  /\ (Forall (fun ue => issues Demo.validator "dE3abc98ABCD" ue = false) us ->
      Sql.find_link "dE3abc98ABCD"
        (feed Demo.validator us (snd (fst (run (delete_link_callback c) d l))))
      = None)
  /\ (Sql.find_link "dE3abc98ABCD"
        (feed Demo.validator us (snd (fst (run (delete_link_callback c) d l))))
      = None ->
      run (delete_link_callback c2)
          (feed Demo.validator us (snd (fst (run (delete_link_callback c) d l))))
          l2
      = (Ok tt,
         feed Demo.validator us (snd (fst (run (delete_link_callback c) d l))),
         Task None (rng l2) (clock l2) (bot_name l2) (sent l2 ++ [CbNotFound])))
  /\ (Sql.find_link "dE3abc98ABCD"
        (feed Demo.validator us (snd (fst (run (delete_link_callback c) d l))))
      <> None ->
      run (delete_link_callback c2)
          (feed Demo.validator us (snd (fst (run (delete_link_callback c) d l))))
          l2
      = (Raised (IntegrityError "deleted_links_hash.hash_id"),
         feed Demo.validator us (snd (fst (run (delete_link_callback c) d l))),
         set_txn None l2)).
Proof.
  cbv zeta. split; [reflexivity|]. split; [reflexivity|].
  split; [reflexivity|]. split; [reflexivity|].
  apply (@second_delete_not_found (list nat) scripted Demo.validator
           (CallbackQuery Demo.bob "del_dE3abc98ABCD")
           (CallbackQuery Demo.alice "del_dE3abc98ABCD")
           "dE3abc98ABCD"
           (LinkRow "dE3abc98ABCD" "https://example.com/page" 1001 None
                    "2024-01-01T10:00:00")
           (MkDB [] []
                 [LinkRow "dE3abc98ABCD" "https://example.com/page" 1001 None
                          "2024-01-01T10:00:00"] [] [])
           (start_task Demo.env2) (start_task Demo.env1)
           [(UMessage (Message Demo.bob "https://example.org/other"), Demo.env2);
            (Demo.open_link, Demo.env1)]);
    reflexivity.
Defined.

(** The run the witness is about: another link is submitted in between and
    gets another id, so the second Delete answers NotFound. *)
Example later_delete_answers_not_found :
  let us := [(UMessage (Message Demo.bob "https://example.org/other"), Demo.env2);
             (Demo.open_link, Demo.env1)] in
  let d2 := feed Demo.validator us
                 (db_after Demo.validator Demo.press Demo.env2
                           (db_after Demo.validator Demo.submit Demo.env1
                                     empty_db)) in
  forallb (fun ue => negb (issues Demo.validator "dE3abc98ABCD" ue)) us = true
  /\ map short_id (short_links d2) = ["hhhhhhhhhhhh"]
  /\ map hash_id (deleted_links_hash d2) = ["dE3abc98ABCD"]
  /\ handle Demo.validator
            (UCallback (CallbackQuery Demo.alice "del_dE3abc98ABCD")) Demo.env1 d2
     = (Ok tt, d2, Task None (seed Demo.env1) (time Demo.env1) (me Demo.env1)
                        [CbNotFound]).
Proof. vm_compute. repeat split. Qed.

(** C4 fails as stated: a link is deleted, the generator draws its id again
    for a new submission, and Delete is asked for the id a second time.  The
    second Delete does not answer NotFound: it finds the new link, runs into
    the hash row the first Delete recorded and ends with an IntegrityError,
    without a reply.  The store is left as it is, with the one hash row. *)
Lemma second_delete_of_reissued_id_raises :
  let d0 := db_after Demo.validator Demo.submit Demo.env1 empty_db in
  let d1 := db_after Demo.validator Demo.press Demo.env2 d0 in
  let d2 := db_after Demo.validator Demo.submit Demo.env1 d1 in
  issues Demo.validator "dE3abc98ABCD" (Demo.submit, Demo.env1) = true
  /\ map short_id (short_links d0) = ["dE3abc98ABCD"]
  /\ short_links d1 = []
  /\ map hash_id (deleted_links_hash d1) = ["dE3abc98ABCD"]
  /\ map short_id (short_links d2) = ["dE3abc98ABCD"]
  /\ handle Demo.validator
            (UCallback (CallbackQuery Demo.alice "del_dE3abc98ABCD")) Demo.env2 d2
     = (Raised (IntegrityError "deleted_links_hash.hash_id"), d2,
        start_task Demo.env2)
  /\ replies Demo.validator
             (UCallback (CallbackQuery Demo.alice "del_dE3abc98ABCD")) Demo.env2 d2
     <> [CbNotFound].
Proof. vm_compute. repeat split. discriminate. Qed.

(** ** The further properties on concrete runs *)

Lemma start_registers_new_user_witness :
  let m := Message Demo.bob "/start" in
  let l := start_task Demo.env2 in
  (List.length (Py.split (text m)) <= 1)%nat
  /\ Sql.has_user (user_id (from_user m)) empty_db = false
  /\ (exists g,
        run (generate_id default_length) empty_db l
        = (Ok (drawn_id l), empty_db, set_rng g l))
  /\ String.length (drawn_id l) = 12%nat
  /\ ((Sql.has_meta (drawn_id l) empty_db = true
       /\ fst (fst (run (cmd_start m) empty_db l))
          = Raised (IntegrityError "meta_data.id")
       /\ snd (fst (run (cmd_start m) empty_db l)) = empty_db
       /\ sent (snd (run (cmd_start m) empty_db l)) = [])
      \/
      (Sql.has_meta (drawn_id l) empty_db = false
       /\ fst (fst (run (cmd_start m) empty_db l)) = Ok tt
       /\ snd (fst (run (cmd_start m) empty_db l))
          = MkDB (meta_data empty_db ++
                  [MetaRow (drawn_id l) "Unknown" (time Demo.env2)
                           "Mobile/Desktop" "In-App Telegram"])
                 (user empty_db ++
                  [UserRow (user_id (from_user m)) (user_username (from_user m))
                           (full_name (from_user m)) (drawn_id l)])
                 (short_links empty_db) (folders empty_db)
                 (deleted_links_hash empty_db)
       /\ sent (snd (run (cmd_start m) empty_db l)) = [Welcome])).
Proof.
  cbv zeta. split; [simpl; lia|]. split; [reflexivity|].
  apply (@start_registers_new_user (list nat) scripted
           (Message Demo.bob "/start") Demo.env2 empty_db);
    [simpl; lia | reflexivity].
Defined.

(** The id of that registration, spelled out. *)
Example start_draws_its_id :
  drawn_id (start_task Demo.env2) = "hhhhhhhhhhhh"
  /\ db_after Demo.validator (UMessage (Message Demo.bob "/start")) Demo.env2
               empty_db
     = MkDB [MetaRow "hhhhhhhhhhhh" "Unknown" "2024-01-02T11:30:00"
                     "Mobile/Desktop" "In-App Telegram"]
            [UserRow 2002 None "Bob" "hhhhhhhhhhhh"] [] [] [].
Proof. split; vm_compute; reflexivity. Qed.


Lemma listed_button_deletes_its_link_witness :
  let r := LinkRow "dE3abc98ABCD" "https://example.com/page" 1001 None
                   "2024-01-01T10:00:00" in
  let d := MkDB [] [] [r] [] [] in
  let c := CallbackQuery Demo.bob (callback_data (item_of r)) in
  Sql.find_link (short_id r) d = Some r
  /\ Forall (fun c => Ascii.eqb c "_" = false) (Py.chars_of (short_id r))
  /\ Sql.has_hash (short_id r) d = false
  /\ route Demo.validator (me Demo.env2) (UCallback c)
     = Some (delete_link_callback c)
  /\ delete_target c = Some (short_id r)
  /\ db_after Demo.validator (UCallback c) Demo.env2 d
     = deleted_db (short_id r) r (time Demo.env2) d.
Proof.
  cbv zeta. split; [reflexivity|]. split; [repeat constructor|].
  split; [reflexivity|].
  apply (@listed_button_deletes_its_link (list nat) scripted Demo.validator
           (LinkRow "dE3abc98ABCD" "https://example.com/page" 1001 None
                    "2024-01-01T10:00:00")
           Demo.bob Demo.env2);
    [reflexivity | repeat constructor | reflexivity].
Defined.

Lemma same_url_twice_witness :
  let m1 := Message Demo.alice "https://example.com/page" in
  let m2 := Message Demo.bob "https://example.com/page " in
  let d1 := db_after Demo.validator (UMessage m1) Demo.env1 empty_db in
  let d2 := db_after Demo.validator (UMessage m2) Demo.env2 d1 in
  url_prefix_filter (text m1) = true
  /\ url_prefix_filter (text m2) = true
  /\ Demo.validator (Py.strip (text m1)) = true
  /\ Py.strip (text m2) = Py.strip (text m1)
  /\ fst (fst (handle Demo.validator (UMessage m1) Demo.env1 empty_db)) = Ok tt
  /\ fst (fst (handle Demo.validator (UMessage m2) Demo.env2 d1)) = Ok tt
  /\ exists id1 id2,
       id1 <> id2
       /\ replies Demo.validator (UMessage m1) Demo.env1 empty_db
          = [Shortened (Py.strip (text m1))
                       ("https://t.me/" ++ me Demo.env1 ++ "?start=" ++ id1)]
       /\ replies Demo.validator (UMessage m2) Demo.env2 d1
          = [Shortened (Py.strip (text m1))
                       ("https://t.me/" ++ me Demo.env2 ++ "?start=" ++ id2)]
       /\ Sql.select_url id1 d2 = Some (Py.strip (text m1))
       /\ Sql.select_url id2 d2 = Some (Py.strip (text m1)).
Proof.
  cbv zeta. split; [reflexivity|]. split; [reflexivity|]. split; [reflexivity|].
  split; [reflexivity|]. split; [reflexivity|]. split; [reflexivity|].
  apply (@same_url_twice (list nat) scripted Demo.validator
           (Message Demo.alice "https://example.com/page")
           (Message Demo.bob "https://example.com/page ")
           Demo.env1 Demo.env2 empty_db); reflexivity.
Defined.

Lemma submitted_link_is_listed_witness :
  let m := Message Demo.alice "https://example.com/page" in
  let m' := Message Demo.alice "/my_links" in
  let l' := start_task Demo.env2 in
  let d1 := db_after Demo.validator (UMessage m) Demo.env1 empty_db in
  url_prefix_filter (text m) = true
  /\ Demo.validator (Py.strip (text m)) = true
  /\ fst (fst (handle Demo.validator (UMessage m) Demo.env1 empty_db)) = Ok tt
  /\ exists id,
       replies Demo.validator (UMessage m) Demo.env1 empty_db
       = [Shortened (Py.strip (text m))
                    ("https://t.me/" ++ me Demo.env1 ++ "?start=" ++ id)]
       /\ (user_id (from_user m') = user_id (from_user m) ->
           exists items,
             sent (snd (run (list_links m') d1 l')) = sent l' ++ [LinkList items]
             /\ In (LinkItem (Py.take 30 (Py.strip (text m))) id ("del_" ++ id))
                   items)
       /\ (user_id (from_user m') <> user_id (from_user m) ->
           forall items,
             sent (snd (run (list_links m') d1 l')) = sent l' ++ [LinkList items] ->
             ~ In id (map shown_id items)).
Proof.
  cbv zeta. split; [reflexivity|]. split; [reflexivity|]. split; [reflexivity|].
  apply (@submitted_link_is_listed (list nat) scripted Demo.validator
           (Message Demo.alice "https://example.com/page")
           (Message Demo.alice "/my_links") Demo.env1 empty_db
           (start_task Demo.env2)); reflexivity.
Defined.

Lemma primary_keys_stay_unique_witness :
  keys_unique empty_db
  /\ keys_unique
       (feed Demo.validator
             [(Demo.submit, Demo.env1); (Demo.press, Demo.env2);
              (Demo.submit, Demo.env1)] empty_db).
Proof.
  assert (Hempty : keys_unique empty_db) by (repeat split; constructor).
  split; [exact Hempty|].
  apply (@primary_keys_stay_unique (list nat) scripted Demo.validator
           [(Demo.submit, Demo.env1); (Demo.press, Demo.env2);
            (Demo.submit, Demo.env1)] empty_db Hempty).
Defined.

Lemma concurrent_deletes_record_once_witness :
  let r := LinkRow "dE3abc98ABCD" "https://example.com/page" 1001 None
                   "2024-01-01T10:00:00" in
  let d0 := MkDB [] [] [r] [] [] in
  let cs := [(CallbackQuery Demo.bob "del_dE3abc98ABCD", Demo.env2);
             (CallbackQuery Demo.alice "del_dE3abc98ABCD", Demo.env1)] in
  let order := ([0; 0; 1; 1] ++ repeat 0 8 ++ repeat 1 2)%nat in
  Sql.find_link "dE3abc98ABCD" d0 = Some r
  /\ Forall (fun ce : callback_query * env (list nat) =>
               delete_target (fst ce) = Some "dE3abc98ABCD") cs
  /\ (fst (sched order (d0, spawn_presses cs)) = d0
      \/ exists now,
           fst (sched order (d0, spawn_presses cs))
           = deleted_db "dE3abc98ABCD" r now d0).
Proof.
  cbv zeta. split; [reflexivity|]. split; [repeat constructor|].
  apply (concurrent_deletes_record_once (list nat) scripted "dE3abc98ABCD"
           (LinkRow "dE3abc98ABCD" "https://example.com/page" 1001 None
                    "2024-01-01T10:00:00"));
    [reflexivity | repeat constructor].
Defined.

Lemma every_stored_link_can_be_deleted_witness :
  let r := LinkRow "dE3abc98ABCD" "https://example.com/page" 1001 None
                   "2024-01-01T10:00:00" in
  let us := [(Demo.submit, Demo.env1)] in
  In r (short_links (feed Demo.validator us empty_db))
  /\ Sql.has_hash (short_id r) (feed Demo.validator us empty_db) = false
  /\ db_after Demo.validator
              (UCallback (CallbackQuery Demo.bob (callback_data (item_of r))))
              Demo.env2 (feed Demo.validator us empty_db)
     = deleted_db (short_id r) r (time Demo.env2)
                  (feed Demo.validator us empty_db).
Proof.
  cbv zeta. split; [vm_compute; left; reflexivity|]. split; [vm_compute; reflexivity|].
  apply (@every_stored_link_can_be_deleted (list nat) scripted Demo.validator
           [(Demo.submit, Demo.env1)]
           (LinkRow "dE3abc98ABCD" "https://example.com/page" 1001 None
                    "2024-01-01T10:00:00")
           Demo.bob Demo.env2); [vm_compute; left; reflexivity | vm_compute; reflexivity].
Defined.

(** Two presses of one button at once: both find the link; the first
    deletes it and confirms; the second runs into the hash row of the first
    and ends with an IntegrityError instead of the not-found answer.  One
    hash row is stored. *)
Example concurrent_delete_race :
  let r := LinkRow "dE3abc98ABCD" "https://example.com/page" 1001 None
                   "2024-01-01T10:00:00" in
  let s := sched ([0; 0; 1; 1] ++ repeat 0 8 ++ repeat 1 2)%nat
                 (MkDB [] [] [r] [] [],
                  spawn_presses
                    [(CallbackQuery Demo.bob "del_dE3abc98ABCD", Demo.env2);
                     (CallbackQuery Demo.alice "del_dE3abc98ABCD", Demo.env1)]) in
  map state (snd s)
  = [Finished (Ok tt);
     Finished (Raised (IntegrityError "deleted_links_hash.hash_id"))]
  /\ map (fun t => sent (own t)) (snd s) = [[CbDeleted; EditDeleted]; []]
  /\ short_links (fst s) = []
  /\ map hash_id (deleted_links_hash (fst s)) = ["dE3abc98ABCD"].
Proof. vm_compute. repeat split. Qed.
